(** * Xamboo: page resolution, redirect engine and hot-reload library engine

  A shallow embedding of three Go packages of the xamboo server:
  - [package redirect]  (engines/redirect/redirect.go): the redirect engine;
  - [package wajafapp]  (the library engine that compiles and loads plugins);
  - [package core]      (the request entry point [Engine.Start] and the
    recursive page runner [Engine.Run]).

  Part I holds the definitions, Part II the lemmas and theorems. *)

From Stdlib Require Import ZArith Ascii String List Lia Bool.
From stdpp Require Import gmap strings list fin_maps.

Local Open Scope Z_scope.
Local Open Scope stdpp_scope.

(* ===================================================================== *)
(** * Part I: definitions *)
(* ===================================================================== *)

(** ** Go values and the [strings] package *)

(** A Go [interface{}] as stored in a configuration set or returned by a
  page function. *)
Inductive value : Type :=
| VNil
| VString (s : string)
| VBool (b : bool)
| VInt (z : Z).

Global Instance value_eq_dec : EqDecision value.
Proof. solve_decision. Defined.

(** An [*xconfig.XConfig] seen through its [Get] method; an absent key gives
  [nil]. *)
Abbreviation XConfig := (gmap string value).

Definition Get (c : XConfig) (key : string) : value :=
match c !! key with
| Some v => v
| None => VNil
end.

(** What the handlers do to the [http.ResponseWriter]. *)
Inductive event : Type :=
| HttpRedirect (url : string) (code : Z)      (* http.Redirect(w, r, url, code) *)
| HttpError (message : string) (code : Z)     (* http.Error(w, message, code) *)
| HttpWrite (body : string).                  (* w.Write([]byte(body)) *)

Global Instance event_eq_dec : EqDecision event.
Proof. solve_decision. Defined.

Module http.
Definition StatusMovedPermanently : Z := 301.
Definition StatusFound : Z := 302.
Definition StatusTemporaryRedirect : Z := 307.
Definition StatusPermanentRedirect : Z := 308.
Definition StatusNotFound : Z := 404.
Definition StatusInternalServerError : Z := 500.
End http.

Module GoStrings.

Definition slash : ascii := "/"%char.

(** [strings.Split(s, "/")]: never empty, [Split "" = [""]]. *)
Fixpoint Split (s : string) : list string :=
  match s with
  | EmptyString => [EmptyString]
  | String c s' =>
      if Ascii.eqb c slash then EmptyString :: Split s'
      else match Split s' with
           | seg :: rest => String c seg :: rest
           | [] => [String c EmptyString]
           end
  end.

(** [strings.Join(l, "/")]. *)
Fixpoint Join (l : list string) : string :=
  match l with
  | [] => EmptyString
  | [a] => a
  | a :: rest => a +:+ String slash (Join rest)
  end.

(** [path[0:len(path)-1]]. *)
Definition dropLast {A} (l : list A) : list A := removelast l.

(** [s[n:]] for [n <= len(s)]; Go panics beyond, the callers guard it. *)
Fixpoint from (n : nat) (s : string) : string :=
  match n, s with
  | O, _ => s
  | S k, String _ s' => from k s'
  | S _, EmptyString => EmptyString
  end.

Fixpoint HasPrefix (s p : string) {struct p} : bool :=
  match p, s with
  | EmptyString, _ => true
  | String a p', String b s' => Ascii.eqb a b && HasPrefix s' p'
  | String _ _, EmptyString => false
  end.

(** [strings.Replace(s, old, new, -1)] for a non-empty [old]: the
    non-overlapping occurrences of [old], leftmost first.  [skip] counts
    the bytes of a matched [old] still to be dropped. *)
Fixpoint replaceFrom (skip : nat) (old new s : string) : string :=
  match s with
  | EmptyString => EmptyString
  | String c s' =>
      match skip with
      | S k => replaceFrom k old new s'
      | O =>
          if HasPrefix s old
          then new +:+ replaceFrom (String.length old - 1) old new s'
          else String c (replaceFrom O old new s')
      end
  end.

Definition Replace (s old new : string) : string := replaceFrom O old new s.

(** A path segment: a string without [/]. *)
Fixpoint noSlash (s : string) : bool :=
  match s with
  | EmptyString => true
  | String c s' => negb (Ascii.eqb c slash) && noSlash s'
  end.

(** Two strings of which one is a prefix of the other. *)
Definition comparable (a b : string) : bool := HasPrefix a b || HasPrefix b a.

(** No occurrence of [old] can begin inside [x]: no non-empty suffix of [x]
    starts with [old] or is a beginning of [old]. *)
Fixpoint noStart (x old : string) : bool :=
  match x with
  | EmptyString => true
  | String _ x' => negb (comparable x old) && noStart x' old
  end.

(** No occurrence begun before [x] can go on into [x]: no non-empty suffix
    of [p] is a beginning of [x] or begins with [x]. *)
Fixpoint noEnd (x p : string) : bool :=
  match p with
  | EmptyString => true
  | String _ p' => negb (comparable x p) && noEnd x p'
  end.

(** A text that cannot take part in an occurrence of [old], whatever text
    is put around it: it does not contain [old], does not end with a proper
    beginning of [old], does not start with a proper ending of [old], and is
    not a piece from the inside of [old]. *)
Definition seamless (x old : string) : bool :=
  match old with
  | EmptyString => false
  | String _ old' => noStart x old && noEnd x old'
  end.

(** Whether [old] starts nowhere within the bytes of [f] in front of
    [rest]. *)
Fixpoint clearBefore (old f rest : string) : bool :=
  match f with
  | EmptyString => true
  | String _ f' => negb (HasPrefix (f +:+ rest) old) && clearBefore old f' rest
  end.

(** [strings.Contains(s, sub)]. *)
Fixpoint Contains (s sub : string) : bool :=
  HasPrefix s sub ||
  match s with
  | EmptyString => false
  | String _ s' => Contains s' sub
  end.

End GoStrings.

(** ** package redirect *)

Module Redirect.

(** The page parameters as the engine reads them: the two accessors of the
    dataset interface, each returning the value and whether it was found. *)
Record Dataset : Type := {
  GetString : string -> string * bool;
  GetInt : string -> Z * bool
}.

(** The fields of [assets.Context] the engine touches. *)
Record Context : Type := {
  IsMainPage : bool;
  MainPage : string;
  MainPageparams : Dataset;
  Code : Z;
  Writer : list event;
  LoggerError : list string
}.

(** What [Run] hands back as an [interface{}]: a string or an [error]. *)
Inductive result : Type :=
  | RString (s : string)
  | RError (text : string).

Definition NeedInstance : bool := false.

(** The test of [Run] on the configured code, as the source spells it. *)
Definition codeRejected (code : Z) : bool :=
  negb (code =? http.StatusMovedPermanently)
  && negb (code =? http.StatusFound)
  && negb (code =? http.StatusTemporaryRedirect)
  && negb (code =? http.StatusPermanentRedirect).

Definition fail (ctx : Context) : result * Context :=
  let errortext :=
    "Please specify redirecturl and redirectcode in .page " +:+ MainPage ctx in
  (RError errortext,
   {| IsMainPage := IsMainPage ctx;
      MainPage := MainPage ctx;
      MainPageparams := MainPageparams ctx;
      Code := http.StatusInternalServerError;
      Writer := Writer ctx;
      LoggerError := LoggerError ctx ++ [errortext] |}).

(** The context after [http.Redirect(ctx.Writer, ctx.Request, url, code)]. *)
Definition redirected (ctx : Context) (url : string) (code : Z) : Context :=
  {| IsMainPage := IsMainPage ctx;
     MainPage := MainPage ctx;
     MainPageparams := MainPageparams ctx;
     Code := Code ctx;
     Writer := Writer ctx ++ [HttpRedirect url code];
     LoggerError := LoggerError ctx |}.

(** [RedirectEngine.Run]. *)
Definition Run (ctx : Context) : result * Context :=
  if IsMainPage ctx then
    let url := fst (GetString (MainPageparams ctx) "redirecturl") in
    if negb (String.eqb url "") then
      let code := fst (GetInt (MainPageparams ctx) "redirectcode") in
      let code := if codeRejected code then http.StatusPermanentRedirect else code in
      (RString "", redirected ctx url code)
    else fail ctx
  else fail ctx.

(** The code the specification asks for: the configured one when it is one
    of 301, 302, 307, 308, and 308 otherwise. *)
Definition effectiveCode (code : Z) : Z :=
  if bool_decide (code ∈ [301; 302; 307; 308]) then code else 308.

End Redirect.

(** ** package wajafapp: the library engine *)

(** A fallible call of an external collaborator: its value or its [error]
    (as printed by [fmt.Sprint]). *)
Inductive res (A : Type) : Type :=
  | Ok (a : A)
  | Err (e : string).
Arguments Ok {A} a.
Arguments Err {A} e.

Definition nl : string := String (Ascii.ascii_of_nat 10) EmptyString.

Module Wajafapp.

(** [*xcore.XTemplate] and [*xcore.XLanguage] as the engine uses them.  The
    entries of a language come in the order the runtime iterates the map. *)
Record XTemplate : Type := { Print : string }.
Record XLanguage : Type := { GetEntries : list (string * string) }.

(** The fields of [assets.Context] the engine touches. *)
Record Context : Type := {
  MainURLparams : list string;
  LoggerError : list string
}.

(** A page function of the standard signature
    [func(ctx, template, language, interface{}) interface{}]. *)
Definition PageFunc : Type :=
  Context -> option XTemplate -> option XLanguage -> value -> value.

(** What [plugin.Lookup] finds: a function of the standard signature, or a
    symbol of another type. *)
Inductive Symbol : Type :=
  | StandardFunc (f : PageFunc)
  | OtherSymbol.

(** A loaded [*plugin.Plugin]. *)
Definition Handle : Type := nat.

(** [assets.Plugin]. *)
Record Plugin : Type := {
  SourcePath : string;
  PluginPath : string;
  PluginVPath : string;
  Version : Z;
  Messages : string;
  Status : Z;
  Libs : gmap string Handle;
  Lib : option Handle;
  Run_ : option PageFunc
}.

Definition setStatus (s : Z) (lib : Plugin) : Plugin :=
  {| SourcePath := SourcePath lib; PluginPath := PluginPath lib;
     PluginVPath := PluginVPath lib; Version := Version lib;
     Messages := Messages lib; Status := s; Libs := Libs lib;
     Lib := Lib lib; Run_ := Run_ lib |}.

Definition addMessage (m : string) (lib : Plugin) : Plugin :=
  {| SourcePath := SourcePath lib; PluginPath := PluginPath lib;
     PluginVPath := PluginVPath lib; Version := Version lib;
     Messages := Messages lib +:+ m; Status := Status lib; Libs := Libs lib;
     Lib := Lib lib; Run_ := Run_ lib |}.

Definition setLib (h : option Handle) (lib : Plugin) : Plugin :=
  {| SourcePath := SourcePath lib; PluginPath := PluginPath lib;
     PluginVPath := PluginVPath lib; Version := Version lib;
     Messages := Messages lib; Status := Status lib; Libs := Libs lib;
     Lib := h; Run_ := Run_ lib |}.

Definition registerLib (buildid : string) (h : Handle) (lib : Plugin) : Plugin :=
  {| SourcePath := SourcePath lib; PluginPath := PluginPath lib;
     PluginVPath := PluginVPath lib; Version := Version lib;
     Messages := Messages lib; Status := Status lib;
     Libs := <[buildid := h]> (Libs lib);
     Lib := Lib lib; Run_ := Run_ lib |}.

Definition setRun (f : option PageFunc) (lib : Plugin) : Plugin :=
  {| SourcePath := SourcePath lib; PluginPath := PluginPath lib;
     PluginVPath := PluginVPath lib; Version := Version lib;
     Messages := Messages lib; Status := Status lib; Libs := Libs lib;
     Lib := Lib lib; Run_ := f |}.

(** The engine instance: [LibraryEngineInstance]. *)
Record LibraryEngineInstance : Type := {
  iSourcePath : string;
  iPluginPath : string
}.

(** The file system, the toolchain and the standard library as one
    invocation sees them. *)
Record World : Type := {
  FileExists : string -> bool;                      (* utils.FileExists *)
  ModTime : string -> Z;                            (* os.Stat(path).ModTime() *)
  FileValidator : string -> Z -> bool;              (* utils.FileValidator *)
  PleaseCompile : Plugin -> Plugin * option string; (* compiler.PleaseCompile: the
                                                       library as it leaves it, and its error *)
  buildidCommand : string -> string * option string;(* go tool buildid: CombinedOutput *)
  Open : string -> res Handle;                      (* plugin.Open *)
  Lookup : Handle -> string -> res Symbol;          (* Lookup of a loaded plugin *)
  Title : string -> string;                         (* strings.Title *)
  XmlUnmarshal : string -> res string;              (* xml.Unmarshal into a wajaf application *)
  JsonMarshalApp : string -> res string;            (* json.Marshal of that application *)
  JsonMarshalMessage : string -> res string;        (* json.Marshal of {"message": text} *)
  JsonMarshal : value -> res string                 (* json.Marshal of any other value *)
}.

(** [getBuildId]. *)
Definition getBuildId (w : World) (path : string) : string :=
  match buildidCommand w path with
  | (_, Some err) => "Error running go tool buildid:" +:+ nl +:+ err
  | (out, None) => out
  end.

(** The diagnostics [Run] appends to [lib.Messages]. *)
Definition sourceMissing (lib : Plugin) : string :=
  "Error: " +:+ SourcePath lib +:+ " Source file does not exists." +:+ nl.

Definition couldNotCompile (lib : Plugin) (err : string) : string :=
  "Error: " +:+ SourcePath lib +:+ " could not compile:" +:+ nl +:+ err.

(** [LibraryCache] holds pointers: the cache maps a source path to the
    address of a library, and the heap holds the libraries. *)
Record Store : Type := {
  heap : gmap nat Plugin;
  LibraryCache : gmap string nat;
  next : nat
}.

(** What an invocation gives its caller: a value, or a panic. *)
Inductive ret : Type :=
  | Return (v : value)
  | GoPanic (why : string).

(** How an invocation ends: what it gives its caller, the library as the
    invocation leaves it, the key of its [LibraryCache.Set] if it made one,
    and the lines it logged. *)
Record exit : Type := {
  returned : ret;
  library : Plugin;
  cacheSet : option string;
  logged : list string
}.

Definition leave (v : ret) (lib : Plugin) (set : bool) (log : list string) : exit :=
  {| returned := v; library := lib;
     cacheSet := if set then Some (SourcePath lib) else None;
     logged := log |}.

(** The language injection of the [json] output: one [ReplaceAll] per entry. *)
Definition injectLanguage (language : option XLanguage) (strcode : string) : string :=
  match language with
  | None => strcode
  | Some lang =>
      fold_left
        (fun acc (entry : string * string) =>
           GoStrings.Replace acc ("##" +:+ fst entry +:+ "##") (snd entry))
        (GetEntries lang) strcode
  end.

(** The tail of [Run] once the function has been called with [out == "json"]. *)
Definition toJson (w : World) (language : option XLanguage) (x1 : value)
  : ret * list string :=
  match x1 with
  | VString strcode =>
      if String.eqb strcode "" then (Return (VString ""), [])
      else
        let strcode := injectLanguage language strcode in
        match strcode with
        | String c _ =>
            if Ascii.eqb c "<" then
              match XmlUnmarshal w strcode with
              | Err err =>
                  (Return (VString ("ERROR: UNMARSHALLING XML LIBRARY, Error: " +:+ err)),
                   ["ERROR: UNMARSHALLING XML LIBRARY, Error:  " +:+ err])
              | Ok app =>
                  match JsonMarshalApp w app with
                  | Err err =>
                      (Return (VString ("ERROR: MARSHALLING JSON LIBRARY, Error: " +:+ err)),
                       ["ERROR: MARSHALLING JSON LIBRARY, Error:  " +:+ err])
                  | Ok json => (Return (VString json), [])
                  end
              end
            else if Ascii.eqb c "{" || Ascii.eqb c "[" then (Return (VString strcode), [])
            else
              match JsonMarshalMessage w strcode with
              | Err err =>
                  (Return (VString ("ERROR: MARSHALLING JSON DATA, Error: " +:+ err)),
                   ["ERROR: MARSHALLING JSON DATA, Error:  " +:+ err])
              | Ok json => (Return (VString json), [])
              end
        | EmptyString => (GoPanic "index out of range [0] with length 0", [])
        end
  | _ =>
      match JsonMarshal w x1 with
      | Err err =>
          (Return (VString ("ERROR: MARSHALLING JSON DATA, Error: " +:+ err)),
           ["ERROR: MARSHALLING JSON DATA, Error:  " +:+ err])
      | Ok json => (Return (VString json), [])
      end
  end.

(** The error exits of [Run] all have one shape: status 2, a logged line,
    a message appended, [LibraryCache.Set], and the messages returned. *)
Definition failWith (logline message : string) (lib : Plugin) (log : list string) : exit :=
  let lib := addMessage message (setStatus 2 lib) in
  leave (Return (VString (Messages lib))) lib true (log ++ [logline]).

(** The dispatch at the end of [Run], reached with [lib.Status == 1]. *)
Definition dispatch (w : World) (ctx : Context) (template : option XTemplate)
    (language : option XLanguage) (e : value) (lib : Plugin) (set : bool)
    (log : list string) : exit :=
  let fctname :=
    match MainURLparams ctx with
    | p1 :: _ => if negb (String.eqb p1 "code") then Title w p1 else "Run"
    | [] => "Run"
    end in
  let out :=
    match MainURLparams ctx with
    | _ :: p2 :: _ => p2
    | _ => "string"
    end in
  match Lib lib with
  | None => leave (GoPanic "invalid memory address or nil pointer dereference") lib set log
  | Some h =>
      match Lookup w h fctname with
      | Err err =>
          let text := "ERROR: WAJAF LIBRARY DOES NOT CONTAIN FUNCTION " +:+ fctname
                      +:+ ", Error: " in
          leave (Return (VString (text +:+ err))) lib set (log ++ [text +:+ " " +:+ err])
      | Ok OtherSymbol =>
          let text := "ERROR: WAJAF LIBRARY::" +:+ fctname
                      +:+ " HAS NOT A VALID STANDARD DEFINITION, Error: " in
          leave (Return (VString (text +:+ "<nil>"))) lib set (log ++ [text +:+ " <nil>"])
      | Ok (StandardFunc xfct) =>
          let x1 := xfct ctx template language e in
          if String.eqb out "json" then
            let '(r, lines) := toJson w language x1 in
            leave r lib set (log ++ lines)
          else leave (Return x1) lib set log
      end
  end.

(** The loading step of [Run], entered with [lib.Status == 0]; it ends the
    invocation on an error and goes on to the dispatch otherwise. *)
Definition load (w : World) (ctx : Context) (template : option XTemplate)
    (language : option XLanguage) (e : value) (lib : Plugin)
    (log : list string) : exit :=
  let buildid := getBuildId w (PluginVPath lib) in
  let opened :=
    match Libs lib !! buildid with
    | Some plg => Ok (plg, setLib (Some plg) lib)
    | None =>
        match Open w (PluginVPath lib) with
        | Err err => Err err
        | Ok h => Ok (h, registerLib buildid h (setLib (Some h) lib))
        end
    end in
  match opened with
  | Err err =>
      failWith ("ERROR: LIBRARY PAGE/BLOCK COULD NOT LOAD " +:+ err)
        ("Error: " +:+ SourcePath lib +:+ " could not load:" +:+ nl +:+ err)
        (setLib None lib) log
  | Ok (h, lib) =>
      match Lookup w h "Run" with
      | Err err =>
          failWith ("ERROR: LIBRARY DOES NOT CONTAIN RUN FUNCTION " +:+ err)
            ("Error: " +:+ SourcePath lib +:+ " does not contain a Run function:"
             +:+ nl +:+ err)
            lib log
      | Ok OtherSymbol =>
          failWith "ERROR: LIBRARY DOES NOT CONTAIN A VALID STANDARD RUN FUNCTION <nil>"
            ("Error: " +:+ SourcePath lib
             +:+ " does not contain a valid standard Run function:" +:+ nl)
            (setRun None lib) log
      | Ok (StandardFunc f) =>
          dispatch w ctx template language e (setStatus 1 (setRun (Some f) lib)) true log
      end
  end.

(** The flag [mustcompile] of [Run]: no compiled plugin, or one the
    validator finds older than the source. *)
Definition mustcompile (w : World) (lib : Plugin) : bool :=
  if FileExists w (PluginVPath lib)
  then negb (FileValidator w (SourcePath lib) (ModTime w (PluginVPath lib)))
  else true.

(** [Run] from the test of the source file on, for the library [lib] the
    cache gave or the fresh one. *)
Definition runLibrary (w : World) (ctx : Context) (template : option XTemplate)
    (language : option XLanguage) (e : value) (lib : Plugin) : exit :=
  if negb (FileExists w (SourcePath lib)) then
    if negb (Status lib =? 2) then
      let lib := addMessage (sourceMissing lib) (setStatus 2 lib) in
      leave (Return (VString (Messages lib))) lib true []
    else leave (Return (VString (Messages lib))) lib false []
  else
    let compiled :=
      if mustcompile w lib then
        match PleaseCompile w (setStatus 0 lib) with
        | (lib, Some err) => (Err err, lib)
        | (lib, None) => (Ok tt, lib)
        end
      else (Ok tt, lib) in
    match compiled with
    | (Err err, lib) =>
        failWith ("ERROR: LIBRARY PAGE/BLOCK COULD NOT COMPILE " +:+ err)
          (couldNotCompile lib err) lib []
    | (Ok _, lib) =>
        if Status lib =? 0 then load w ctx template language e lib []
        else if negb (Status lib =? 1) then leave (Return (VString (Messages lib))) lib false []
        else dispatch w ctx template language e lib false []
    end.

Definition newPlugin (p : LibraryEngineInstance) : Plugin :=
  {| SourcePath := iSourcePath p;
     PluginPath := iPluginPath p;
     PluginVPath := iPluginPath p +:+ ".1";
     Version := 0;
     Messages := "";
     Status := 0;
     Libs := ∅;
     Lib := None;
     Run_ := None |}.

(** The start of [Run]: the library of the cache, or a new one at a new
    address.  An address in the cache always has its library on the heap
    ([wfStore]); the model reads a missing one as a new library. *)
Definition fetch (p : LibraryEngineInstance) (st : Store) : nat * Plugin * nat :=
  match LibraryCache st !! iSourcePath p with
  | Some a =>
      match heap st !! a with
      | Some lib => (a, lib, next st)
      | None => (a, newPlugin p, next st)
      end
  | None => (next st, newPlugin p, S (next st))
  end.

Definition fetched (p : LibraryEngineInstance) (st : Store) : Plugin :=
  snd (fst (fetch p st)).

(** [LibraryEngineInstance.Run]: what the invocation did to the library is
    written at its address, and the [Set] it made, if any, makes the cache
    point to that address. *)
Definition Run (w : World) (p : LibraryEngineInstance) (ctx : Context)
    (template : option XTemplate) (language : option XLanguage) (e : value)
    (st : Store) : exit * Store :=
  let '(addr, lib, nxt) := fetch p st in
  let x := runLibrary w ctx template language e lib in
  (x,
   {| heap := <[addr := library x]> (heap st);
      LibraryCache :=
        match cacheSet x with
        | Some key => <[key := addr]> (LibraryCache st)
        | None => LibraryCache st
        end;
      next := nxt |}).

Definition wfStore (st : Store) : Prop :=
  forall (path : string) (a : nat),
    LibraryCache st !! path = Some a -> is_Some (heap st !! a).

(** The library the cache holds for a source path. *)
Definition cached (st : Store) (path : string) : option Plugin :=
  a ← LibraryCache st !! path; heap st !! a.

End Wajafapp.

(** ** package core: the engine *)

(** Go's [int] on a 64-bit platform: additions wrap around. *)
Module GoInt.

Definition wrap (z : Z) : Z := (z + 2 ^ 63) mod 2 ^ 64 - 2 ^ 63.

End GoInt.

Module Core.

Import GoStrings.

(** [server.Identity{v, l}]. *)
Record Identity : Type := { Version : string; Language : string }.

Global Instance Identity_eq_dec : EqDecision Identity.
Proof. solve_decision. Defined.

(** [*xcore.XTemplate] and [*xcore.XLanguage], as far as the engine prints
    them ([templatedata.Print()], [fmt.Sprint(languagedata)]). *)
Record XTemplate : Type := { Print : string }.
Record XLanguage : Type := { Sprint : string }.

(** [enginecontext.Context], without the handles on the request, the writer
    and the plugins, which the engine only passes on. *)
Record Context : Type := {
  LocalPage : string;
  LocalPageUsed : string;
  LocalURLparams : list string;
  Sysparams : XConfig;
  LocalPageparams : XConfig;
  LocalInstanceparams : XConfig;
  LocalEntryparams : value;
  MainPage : string;
  MainPageUsed : string;
  MainURLparams : list string;
  MainPageparams : XConfig;
  MainInstanceparams : XConfig
}.

(** [*server.CodeStream] and the library of [server.LibraryServer], by
    their [Run] methods. *)
Definition CodeStream : Type := Context -> option XLanguage -> string.
Definition Library : Type :=
  Context -> option XTemplate -> option XLanguage -> string.

(** The stores of package [server]; each [GetData] takes the fields of its
    server first ([PagesDir], and [AcceptPathParameters] for the pages). *)
Record Servers : Type := {
  PageGetData : string -> bool -> string -> option XConfig;
  InstanceGetData : string -> string -> Identity -> option XConfig;
  CodeGetData : string -> string -> Identity -> option CodeStream;
  LibraryGetData : string -> string -> option Library;
  TemplateGetData : string -> string -> Identity -> option XTemplate;
  LanguageGetData : string -> string -> Identity -> option XLanguage
}.

(** [Engine]: [HostConfig] is [e.Host.Config], [QT] the counter [e.QT]
    points to, an [int], [writer] what has been sent to the response so
    far. *)
Record Engine : Type := {
  writer : list event;
  Method : string;
  Page : string;
  HostConfig : XConfig;
  MainContext : option Context;
  Recursivity : list string;
  Num : Z;
  QT : Z
}.

Definition send (ev : event) (e : Engine) : Engine :=
  {| writer := writer e ++ [ev]; Method := Method e; Page := Page e;
     HostConfig := HostConfig e; MainContext := MainContext e;
     Recursivity := Recursivity e; Num := Num e; QT := QT e |}.

Definition setMainContext (ctx : Context) (e : Engine) : Engine :=
  {| writer := writer e; Method := Method e; Page := Page e;
     HostConfig := HostConfig e; MainContext := Some ctx;
     Recursivity := Recursivity e; Num := Num e; QT := QT e |}.

(** [*(e.QT) += 1]. *)
Definition countRequest (e : Engine) : Engine :=
  {| writer := writer e; Method := Method e; Page := Page e;
     HostConfig := HostConfig e; MainContext := MainContext e;
     Recursivity := Recursivity e; Num := Num e; QT := GoInt.wrap (QT e + 1) |}.

(** How a call ends: with a value and the engine as it leaves it, with a
    panic, or not at all within the fuel given. *)
Inductive outcome (A : Type) : Type :=
  | Done (a : A) (e : Engine)
  | Panic (why : string)
  | OutOfFuel.
Arguments Done {A} a e.
Arguments Panic {A} why.
Arguments OutOfFuel {A}.

(** The type assertions [x.(string)] and [x.(bool)]. *)
Definition assertString {A} (v : value) (k : string -> outcome A) : outcome A :=
  match v with
  | VString s => k s
  | _ => Panic "interface conversion: interface {} is not string"
  end.

Definition assertBool {A} (v : value) (k : bool -> outcome A) : outcome A :=
  match v with
  | VBool b => k b
  | _ => Panic "interface conversion: interface {} is not bool"
  end.

(** [launchError]. *)
Definition launchError (e : Engine) (innerpage : bool) (message : string)
  : outcome string :=
  if negb innerpage
  then Done "" (send (HttpError message http.StatusNotFound) e)
  else Done message e.

(** [launchRedirect]. *)
Definition launchRedirect (e : Engine) (url : string) : Engine :=
  send (HttpRedirect url http.StatusMovedPermanently) e.

(** [isAvailable]. *)
Definition isAvailable (innerpage : bool) (p : XConfig) : bool :=
  if bool_decide (Get p "status" = VString "hidden") then false
  else if bool_decide (Get p "status" = VString "published") then true
  else if innerpage
          && (bool_decide (Get p "status" = VString "template")
              || bool_decide (Get p "status" = VString "block"))
       then true
  else false.

(** [verifyRecursion]. *)
Definition verifyRecursion (e : Engine) (page : string) : bool := false.

(** The search for the [.page] of [Run]: [P] and [pagedata] as the loop
    leaves them, and the paths it asked the store for, in order.  Each turn
    takes one unit of [fuel]; [None] when it is used up. *)
Record located : Type := {
  usedP : string;
  pagedata : option XConfig;
  lookups : list string
}.

(** One turn's test: [pagedata != nil && e.isAvailable(innerpage, pagedata)],
    and [pagedata = nil] when it fails. *)
Definition available (getData : string -> option XConfig) (innerpage : bool)
    (P : string) : option XConfig :=
  match getData P with
  | Some d => if isAvailable innerpage d then Some d else None
  | None => None
  end.

Fixpoint locateLoop (fuel : nat) (getData : string -> option XConfig)
    (innerpage : bool) (P : string) (asked : list string) : option located :=
  match fuel with
  | O => None
  | S fuel' =>
      let asked := asked ++ [P] in
      match available getData innerpage P with
      | Some d => Some {| usedP := P; pagedata := Some d; lookups := asked |}
      | None =>
          let path := Split P in
          if (length path <=? 1)%nat
          then Some {| usedP := P; pagedata := None; lookups := asked |}
          else locateLoop fuel' getData innerpage (Join (dropLast path)) asked
      end
  end.

(** The loop started on [page], with one unit of fuel per segment. *)
Definition locate (getData : string -> option XConfig) (innerpage : bool)
    (page : string) : option located :=
  locateLoop (length (Split page)) getData innerpage page [].

(** The path made of the first [k] segments of [page], and the depth of a
    path: the number of its separators. *)
Definition prefixPath (page : string) (k : nat) : string :=
  Join (take k (Split page)).

(** The paths the search asks for when it goes from the first [n] segments
    of [l] down to the first [m]: the longest first. *)
Definition descent (l : list string) (m n : nat) : list string :=
  map (fun k => Join (take k l)) (rev (seq m (n - m + 1))).

Fixpoint depth (page : string) : nat :=
  match page with
  | EmptyString => O
  | String c s => if Ascii.eqb c slash then S (depth s) else depth s
  end.

(** The candidate list for the versions or the languages. *)
Definition candidates (def requested : string) : list string :=
  let l := [def] in
  let l :=
    if (0 <? String.length requested)%nat && negb (String.eqb requested def)
    then l ++ [requested] else l in
  l ++ [""].

(** The candidate list in the words of the specification:
    [[def] ++ ([requested] if requested≠"" and requested≠def) ++ [""]]. *)
Definition candidatesSpec (def requested : string) : list string :=
  [def] ++ (if bool_decide (requested ≠ "" ∧ requested ≠ def) then [requested] else [])
        ++ [""].

(** The cross product with the version as the outer key and the language
    as the inner key. *)
Definition crossProduct (versions languages : list string) : list Identity :=
  v ← versions; l ← languages; [{| Version := v; Language := l |}].

(** The two nested [range] loops that fill [identities]. *)
Definition identitiesOf (versions languages : list string) : list Identity :=
  fold_left
    (fun ids v =>
       fold_left (fun ids l => ids ++ [{| Version := v; Language := l |}])
         languages ids)
    versions [].

(** The loops [for _, n := range identities] that stop at the first
    resource: the resource, and the identities asked for, in order. *)
Fixpoint firstData {A} (getData : Identity -> option A) (identities : list Identity)
  : option A * list Identity :=
  match identities with
  | [] => (None, [])
  | n :: rest =>
      match getData n with
      | Some d => (Some d, [n])
      | None => let '(r, asked) := firstData getData rest in (r, n :: asked)
      end
  end.

(** [loadTemplate] and [loadLanguage]. *)
Definition loadTemplate {A} (sv : Servers) (e : Engine) (P : string)
    (identities : list Identity) (k : option XTemplate -> outcome A)
  : outcome A :=
  assertString (Get (HostConfig e) "pagesdir") (fun pagesdir =>
    k (fst (firstData (TemplateGetData sv pagesdir P) identities))).

Definition loadLanguage {A} (sv : Servers) (e : Engine) (P : string)
    (identities : list Identity) (k : option XLanguage -> outcome A)
  : outcome A :=
  assertString (Get (HostConfig e) "pagesdir") (fun pagesdir =>
    k (fst (firstData (LanguageGetData sv pagesdir P) identities))).

Definition CONTENT : string := "[[CONTENT]]".

(** Where [Run] stands once its own level is done: it has returned, or it
    holds the body [xdata] of the page and its [pagedata]. *)
Inductive level : Type :=
  | Returned (s : string)
  | Body (xdata : string) (pd : XConfig).

Definition returned (o : outcome string) : outcome level :=
  match o with
  | Done s e => Done (Returned s) e
  | Panic why => Panic why
  | OutOfFuel => OutOfFuel
  end.

(** The extra path parameters of [Run]: refused by the page, or
    [strings.Split(page[len(P)+1:], "/")], a slice that panics when it
    starts beyond the end of [page]. *)
Inductive parameters : Type :=
  | Rejected
  | SliceOutOfRange
  | Accepted (xParams : list string).

Definition pathParameters (page P : string) (pd : XConfig) : parameters :=
  if negb (String.eqb P page) then
    if negb (bool_decide (Get pd "AcceptPathParameters" = VBool true)) then Rejected
    else if (String.length page <? String.length P + 1)%nat then SliceOutOfRange
    else Accepted (Split (from (String.length P + 1) page))
  else Accepted [].

(** The context of a call: the local fields are new, the main fields are
    those of the top-level call. *)
Definition localContext (e : Engine) (page P : string) (xParams : list string)
    (pd instancedata : XConfig) (params : value) (main : Context) : Context :=
  {| LocalPage := page; LocalPageUsed := P; LocalURLparams := xParams;
     Sysparams := HostConfig e; LocalPageparams := pd;
     LocalInstanceparams := instancedata; LocalEntryparams := params;
     MainPage := MainPage main; MainPageUsed := MainPageUsed main;
     MainURLparams := MainURLparams main; MainPageparams := MainPageparams main;
     MainInstanceparams := MainInstanceparams main |}.

Definition mainContext (e : Engine) (page P : string) (xParams : list string)
    (pd instancedata : XConfig) (params : value) : Context :=
  {| LocalPage := page; LocalPageUsed := P; LocalURLparams := xParams;
     Sysparams := HostConfig e; LocalPageparams := pd;
     LocalInstanceparams := instancedata; LocalEntryparams := params;
     MainPage := page; MainPageUsed := P;
     MainURLparams := xParams; MainPageparams := pd;
     MainInstanceparams := instancedata |}.

(** The [switch pagedata.Get("type")] of [Run]. *)
Definition render (sv : Servers) (e : Engine) (innerpage : bool) (pagesdir P : string)
    (identities : list Identity) (pd : XConfig) (ctx : Context) : outcome level :=
  if bool_decide (Get pd "type" = VString "simple") then
    match fst (firstData (CodeGetData sv pagesdir P) identities) with
    | None => returned (launchError e innerpage "Error: the simple page/block has no code")
    | Some codedata =>
        loadLanguage sv e P identities (fun languagedata =>
          Done (Body (codedata ctx languagedata) pd) e)
    end
  else if bool_decide (Get pd "type" = VString "library") then
    match LibraryGetData sv pagesdir P with
    | None => returned (launchError e innerpage "Error: the library page/block has no code")
    | Some librarydata =>
        loadLanguage sv e P identities (fun languagedata =>
        loadTemplate sv e P identities (fun templatedata =>
          Done (Body (librarydata ctx templatedata languagedata) pd) e))
    end
  else if bool_decide (Get pd "type" = VString "template") then
    loadTemplate sv e P identities (fun templatedata =>
      match templatedata with
      | None => returned (launchError e innerpage "Error: the template page/block has no code")
      | Some t => Done (Body (Print t) pd) e
      end)
  else if bool_decide (Get pd "type" = VString "language") then
    loadLanguage sv e P identities (fun languagedata =>
      match languagedata with
      | None => returned (launchError e innerpage "Error: the language page/block has no code")
      | Some l => Done (Body (Sprint l) pd) e
      end)
  else
    Done (Body "THIS IS SOMETHING UNKNOWN FROM A PARALLEL UNIVERSE THAT SHOULD NOT HAPPEN" pd) e.

(** [Run] up to the test of the parent template. *)
Definition runLevel (sv : Servers) (e : Engine) (page : string) (innerpage : bool)
    (params : value) (version language method : string) : outcome level :=
  assertString (Get (HostConfig e) "pagesdir") (fun pagesdir =>
  assertBool (Get (HostConfig e) "acceptpathparameters") (fun accept =>
  match locate (PageGetData sv pagesdir accept) innerpage page with
  | None => OutOfFuel
  | Some loc =>
      let P := usedP loc in
      match pagedata loc with
      | None =>
          returned (launchError e innerpage ("Error 404: no page found .page for " +:+ page))
      | Some pd =>
          match pathParameters page P pd with
          | Rejected =>
              returned (launchError e innerpage "Error 404: no page found with parameters")
          | SliceOutOfRange => Panic "slice bounds out of range"
          | Accepted xParams =>
              if negb innerpage && bool_decide (Get pd "type" = VString "redirect") then
                assertString (Get pd "Redirect") (fun url =>
                  Done (Returned "") (launchRedirect e url))
              else
                assertString (Get (HostConfig e) "version") (fun defversion =>
                assertString (Get (HostConfig e) "language") (fun deflanguage =>
                let versions := candidates defversion version in
                let languages := candidates deflanguage language in
                let identities := identitiesOf versions languages in
                match fst (firstData (InstanceGetData sv pagesdir P) identities) with
                | None =>
                    returned (launchError e innerpage "Error: the page/block has no instance")
                | Some instancedata =>
                    if verifyRecursion e P then
                      returned (launchError e innerpage "Error: the page/block is recursive")
                    else if innerpage then
                      match MainContext e with
                      | None => Panic "invalid memory address or nil pointer dereference"
                      | Some main =>
                          render sv e innerpage pagesdir P identities pd
                            (localContext e page P xParams pd instancedata params main)
                      end
                    else
                      let ctx := mainContext e page P xParams pd instancedata params in
                      render sv (setMainContext ctx e) innerpage pagesdir P identities pd ctx
                end))
          end
      end
  end)).

(** Whether [pagedata.Get("template")] names a parent:
    [x != nil && x != ""]. *)
Definition hasTemplate (x : value) : bool :=
  negb (bool_decide (x = VNil)) && negb (bool_decide (x = VString "")).

(** [Engine.Run]; each call takes one unit of [fuel]. *)
Fixpoint Run (fuel : nat) (sv : Servers) (e : Engine) (page : string)
    (innerpage : bool) (params : value) (version language method : string)
  : outcome string :=
  match fuel with
  | O => OutOfFuel
  | S fuel' =>
      match runLevel sv e page innerpage params version language method with
      | Done (Returned s) e' => Done s e'
      | Done (Body xdata pd) e' =>
          let x := Get pd "template" in
          if hasTemplate x then
            assertString x (fun parent =>
              match Run fuel' sv e' parent true params version language method with
              | Done fathertemplate e'' =>
                  Done (Replace fathertemplate CONTENT xdata) e''
              | Panic why => Panic why
              | OutOfFuel => OutOfFuel
              end)
          else Done xdata e'
      | Panic why => Panic why
      | OutOfFuel => OutOfFuel
      end
  end.

(** [page[len(page)-1]] and [page[:len(page)-1]] for a non-empty [page]. *)
Fixpoint lastByte (c : ascii) (s : string) : ascii :=
  match s with
  | EmptyString => c
  | String c' s' => lastByte c' s'
  end.

Fixpoint withoutLastByte (c : ascii) (s : string) : string :=
  match s with
  | EmptyString => EmptyString
  | String c' s' => String c (withoutLastByte c' s')
  end.

(** The end of [Start]: the page is run as a top-level call and its code is
    written to the response. *)
Definition servePage (fuel : nat) (sv : Servers) (e : Engine) (page : string)
  : outcome unit :=
  match Run fuel sv e page false VNil "" "" "" with
  | Done code e' => Done tt (send (HttpWrite code) e')
  | Panic why => Panic why
  | OutOfFuel => OutOfFuel
  end.

Definition indexOutOfRange : string := "index out of range [0] with length 0".

(** [Engine.Start]. *)
Definition Start (fuel : nat) (sv : Servers) (e : Engine) : outcome unit :=
  let e := countRequest e in
  let page := Page e in
  match page with
  | EmptyString => Panic indexOutOfRange
  | String c0 rest =>
      let page := if Ascii.eqb c0 slash then rest else page in
      match page with
      | EmptyString =>
          assertString (Get (HostConfig e) "mainpage") (fun page =>
            servePage fuel sv e page)
      | String c s =>
          if Ascii.eqb (lastByte c s) slash then
            Done tt (launchRedirect e (withoutLastByte c s))
          else servePage fuel sv e page
      end
  end.

(** A page composed with its chain of parent templates: the bodies of the
    page and of each parent in turn, the outermost last, for a chain in which
    every level is rendered and the last one names no parent. *)
Inductive Composed (sv : Servers) (params : value) (version language method : string)
  : Engine -> string -> bool -> list string -> Engine -> Prop :=
  | Composed_last (e : Engine) (page : string) (innerpage : bool)
      (xdata : string) (pd : XConfig) (e' : Engine) :
      runLevel sv e page innerpage params version language method
        = Done (Body xdata pd) e' ->
      hasTemplate (Get pd "template") = false ->
      Composed sv params version language method e page innerpage [xdata] e'
  | Composed_parent (e : Engine) (page : string) (innerpage : bool)
      (xdata : string) (pd : XConfig) (e' : Engine) (parent : string)
      (bodies : list string) (e'' : Engine) :
      runLevel sv e page innerpage params version language method
        = Done (Body xdata pd) e' ->
      hasTemplate (Get pd "template") = true ->
      Get pd "template" = VString parent ->
      Composed sv params version language method e' parent true bodies e'' ->
      Composed sv params version language method e page innerpage (xdata :: bodies) e''.

(** The bodies of a chain spliced together: each body replaces the
    [[[CONTENT]]] of what its parents give. *)
Fixpoint compose (bodies : list string) : string :=
  match bodies with
  | [] => EmptyString
  | [xdata] => xdata
  | xdata :: parents => Replace (compose parents) CONTENT xdata
  end.

End Core.

(** ** Further definitions for Part III *)

Module CoreMore.

Import Core.

(** What a call never touches in the engine: the request and the site. *)
Definition sameRequest (e e' : Engine) : Prop :=
  Method e' = Method e /\ Page e' = Page e /\ HostConfig e' = HostConfig e
  /\ Recursivity e' = Recursivity e /\ Num e' = Num e /\ QT e' = QT e.

(** The two answers [Run] sends by itself: the 404 of [launchError] and the
    301 of [launchRedirect]. *)
Definition errorOrRedirect (ev : event) : Prop :=
  (exists message, ev = HttpError message 404)
  \/ (exists url, ev = HttpRedirect url 301).

(** The text [Run] gives for a page of a type it does not know. *)
Definition unknownType : string :=
  "THIS IS SOMETHING UNKNOWN FROM A PARALLEL UNIVERSE THAT SHOULD NOT HAPPEN".

(** The path [Start] works on once its leading slash is removed, when the
    path has a first byte to test. *)
Definition stripped (page : string) : option string :=
  match page with
  | EmptyString => None
  | String c0 rest => Some (if Ascii.eqb c0 GoStrings.slash then rest else page)
  end.

End CoreMore.

Module WajafappMore.

Import Wajafapp.

(** [LibraryEngine.NeedInstance], [LibraryEngineInstance.NeedLanguage] and
    [LibraryEngineInstance.NeedTemplate]. *)
Definition NeedInstance : bool := true.
Definition NeedLanguage : bool := true.
Definition NeedTemplate : bool := true.

(** [LibraryEngine.GetInstance]; [lastPath] is [utils.LastPath]. *)
Definition GetInstance (w : World) (lastPath : string -> string)
    (Hostname PagesDir P : string) : option LibraryEngineInstance :=
  let prefix := Hostname +:+ "-" in
  let lastpath := lastPath P in
  let SourcePath := PagesDir +:+ P +:+ "/" +:+ lastpath +:+ ".go" in
  let PluginPath := PagesDir +:+ P +:+ "/" +:+ prefix +:+ lastpath +:+ ".so" in
  if FileExists w SourcePath
  then Some {| iSourcePath := SourcePath; iPluginPath := PluginPath |}
  else None.

(** The library as the compiling step of [Run] leaves it: untouched when the
    source is missing or the plugin is up to date, and as the compiler left
    it otherwise. *)
Definition compiled (w : World) (lib : Plugin) : Plugin :=
  if FileExists w (SourcePath lib) then
    if mustcompile w lib then fst (PleaseCompile w (setStatus 0 lib)) else lib
  else lib.

(** A store in order: every library of the cache is on the heap, below the
    next address, and filed under its own source path. *)
Definition storeOk (st : Store) : Prop :=
  forall (path : string) (a : nat),
    LibraryCache st !! path = Some a ->
    (a < next st)%nat
    /\ exists lib, heap st !! a = Some lib /\ SourcePath lib = path.

(** A compiler that leaves the source path of the library alone. *)
Definition keepsSourcePath (w : World) : Prop :=
  forall lib : Plugin, SourcePath (fst (PleaseCompile w lib)) = SourcePath lib.

End WajafappMore.

(** ** package stat *)

Module Stat.

(** Go's [int] and [uint64] on a 64-bit platform, with their wrap-around,
    and the saturation of [time.Time.Sub]. *)
Definition wrapInt (z : Z) : Z := (z + 2 ^ 63) mod 2 ^ 64 - 2 ^ 63.
Definition wrapUint64 (z : Z) : Z := z mod 2 ^ 64.
Definition saturate (z : Z) : Z := Z.max (- 2 ^ 63) (Z.min (2 ^ 63 - 1) z).

(** [RequestStat]; the times are instants in nanoseconds, [HasContext] says
    whether [Context] is set. *)
Record RequestStat : Type := {
  Id : Z;
  StartTime : Z;
  Time : Z;
  Hostname : string;
  Request : string;
  Protocol : string;
  Method : string;
  Code : Z;
  Length : Z;
  Duration : Z;
  IP : string;
  Port : string;
  Alive : bool;
  HasContext : bool
}.

Record SiteStat : Type := {
  siteRequestsTotal : Z;
  siteRequestsServed : gmap Z Z;
  siteLengthServed : Z;
  siteRequests : list nat
}.

(** [Stat]; [Requests] holds pointers, here addresses of the heap. *)
Record Stat : Type := {
  Start_ : Z;
  RequestsTotal : Z;
  LengthServed : Z;
  RequestsServed : gmap Z Z;
  Requests : list nat;
  SitesStat : gmap string SiteStat
}.

(** What [RequestStat.End] hands to the loggers. *)
Inductive entry : Type :=
  | ErrorsLog (r : RequestStat)         (* the core logger "errors" *)
  | PagesLog (host : string) (r : RequestStat)  (* the host logger "pages" *)
  | StatsHook (host : string).          (* the host hook "stats" *)

(** The package variables [SystemStat] and [RequestCounter], the requests
    allocated so far, and what has been logged. *)
Record Globals : Type := {
  SystemStat : option Stat;
  RequestCounter : Z;
  heap : gmap nat RequestStat;
  next : nat;
  journal : list entry
}.

(** How a call ends: normally, or with the panic of a nil [SystemStat]; the
    package variables are those the call leaves. *)
Inductive outcome (A : Type) : Type :=
  | Done (a : A) (g : Globals)
  | NilPanic (g : Globals).
Arguments Done {A} a g.
Arguments NilPanic {A} g.

Definition setStat (s : Stat) (g : Globals) : Globals :=
  {| SystemStat := Some s; RequestCounter := RequestCounter g; heap := heap g;
     next := next g; journal := journal g |}.

Definition setRequest (a : nat) (r : RequestStat) (g : Globals) : Globals :=
  {| SystemStat := SystemStat g; RequestCounter := RequestCounter g;
     heap := <[a := r]> (heap g); next := next g; journal := journal g |}.

Definition withRequests (l : list nat) (s : Stat) : Stat :=
  {| Start_ := Start_ s; RequestsTotal := RequestsTotal s;
     LengthServed := LengthServed s; RequestsServed := RequestsServed s;
     Requests := l; SitesStat := SitesStat s |}.

Definition addLengthServed (length : Z) (s : Stat) : Stat :=
  {| Start_ := Start_ s; RequestsTotal := RequestsTotal s;
     LengthServed := wrapInt (LengthServed s + length);
     RequestsServed := RequestsServed s;
     Requests := Requests s; SitesStat := SitesStat s |}.

Definition countRequest (s : Stat) : Stat :=
  {| Start_ := Start_ s; RequestsTotal := wrapInt (RequestsTotal s + 1);
     LengthServed := LengthServed s; RequestsServed := RequestsServed s;
     Requests := Requests s; SitesStat := SitesStat s |}.

(** [CreateStat], for the host names of the configuration; the cleaner it
    launches runs beside the requests and is modelled by [Clean] below. *)
Definition CreateStat (now : Z) (hosts : list string) : Stat :=
  {| Start_ := now;
     RequestsTotal := 0;
     LengthServed := 0;
     RequestsServed := ∅;
     Requests := [];
     SitesStat :=
       fold_left
         (fun sites host =>
            <[host := {| siteRequestsTotal := 0; siteRequestsServed := ∅;
                         siteLengthServed := 0; siteRequests := [] |}]> sites)
         hosts ∅ |}.

(** [Start]. *)
Definition Start (now : Z) (hosts : list string) (g : Globals) : Globals :=
  setStat (CreateStat now hosts) g.

(** Two minutes, in nanoseconds, and the test of the cleaner on a request:
    [r.Time.Add(delta).Before(n)]. *)
Definition delta : Z := 2 * 60 * 1000000000.

Definition expired (n : Z) (r : RequestStat) : bool := Time r + delta <? n.

(** The loop of [Clean] that looks for [last], from the request of index [i]
    on; a request that is not on the heap ends the loop like a live one. *)
Fixpoint lastExpired (n : Z) (hp : gmap nat RequestStat) (l : list nat)
    (i last : nat) : nat :=
  match l with
  | [] => last
  | a :: rest =>
      match hp !! a with
      | Some r => if expired n r then lastExpired n hp rest (S i) i else last
      | None => last
      end
  end.

(** One turn of the loop of [Clean], at the instant [n]. *)
Definition Clean (n : Z) (g : Globals) : outcome unit :=
  match SystemStat g with
  | None => NilPanic g
  | Some s =>
      let last := lastExpired n (heap g) (Requests s) 0 0 in
      Done tt (setStat (withRequests (drop last (Requests s)) s) g)
  end.

(** [CreateRequestStat]; [now1] and [now2] are its two readings of the clock,
    [hostport] what [net.SplitHostPort] gives for the remote address. *)
Definition CreateRequestStat (now1 now2 : Z) (hostport : string * string)
    (request method protocol : string) (code length duration : Z)
    (g : Globals) : outcome nat :=
  let r := {| Id := RequestCounter g; StartTime := now1; Time := now2;
              Hostname := ""; Request := request; Protocol := protocol;
              Method := method; Code := code; Length := length;
              Duration := duration; IP := fst hostport; Port := snd hostport;
              Alive := true; HasContext := false |} in
  let a := next g in
  let g := {| SystemStat := SystemStat g;
              RequestCounter := wrapUint64 (RequestCounter g + 1);
              heap := <[a := r]> (heap g);
              next := S (next g);
              journal := journal g |} in
  match SystemStat g with
  | None => NilPanic g
  | Some s =>
      let s := addLengthServed length s in
      let s := countRequest s in
      Done a (setStat (withRequests (Requests s ++ [a]) s) g)
  end.

(** The search of [UpdateStat] for [r], from the index [i - 1] down. *)
Fixpoint findFromEnd (r : nat) (l : list nat) (i : nat) : option nat :=
  match i with
  | O => None
  | S j =>
      match l !! j with
      | Some a => if Nat.eqb a r then Some j else findFromEnd r l j
      | None => findFromEnd r l j
      end
  end.

(** [Requests] once [r] has been taken out where it was found and put at
    the end. *)
Definition moveToEnd (r : nat) (l : list nat) : list nat :=
  match findFromEnd r l (length l) with
  | Some i => take i l ++ drop (S i) l
  | None => l
  end ++ [r].

Definition updated (now code length : Z) (r : RequestStat) : RequestStat :=
  {| Id := Id r; StartTime := StartTime r; Time := now;
     Hostname := Hostname r; Request := Request r; Protocol := Protocol r;
     Method := Method r;
     Code := if negb (code =? 0) then code else Code r;
     Length := wrapInt (Length r + length);
     Duration := Duration r; IP := IP r; Port := Port r;
     Alive := Alive r; HasContext := HasContext r |}.

Definition withDuration (d : Z) (r : RequestStat) : RequestStat :=
  {| Id := Id r; StartTime := StartTime r; Time := Time r;
     Hostname := Hostname r; Request := Request r; Protocol := Protocol r;
     Method := Method r; Code := Code r; Length := Length r;
     Duration := d; IP := IP r; Port := Port r;
     Alive := Alive r; HasContext := HasContext r |}.

(** [UpdateStat] on the request at the address [a], at the instant [now]; the
    request is changed before [SystemStat] is read.  A receiver that is not
    on the heap is a nil receiver. *)
Definition UpdateStat (now : Z) (a : nat) (code length : Z) (g : Globals)
  : outcome unit :=
  match heap g !! a with
  | None => NilPanic g
  | Some r =>
      let r := updated now code length r in
      let g := setRequest a r g in
      match SystemStat g with
      | None => NilPanic g
      | Some s =>
          let s := addLengthServed length s in
          let r := withDuration (saturate (Time r - StartTime r)) r in
          let g := setRequest a r g in
          Done tt (setStat (withRequests (moveToEnd a (Requests s)) s) g)
      end
  end.

Definition withProtocol (protocol : string) (r : RequestStat) : RequestStat :=
  {| Id := Id r; StartTime := StartTime r; Time := Time r;
     Hostname := Hostname r; Request := Request r; Protocol := protocol;
     Method := Method r; Code := Code r; Length := Length r;
     Duration := Duration r; IP := IP r; Port := Port r;
     Alive := Alive r; HasContext := HasContext r |}.

(** [UpdateProtocol]. *)
Definition UpdateProtocol (a : nat) (protocol : string) (g : Globals) : outcome unit :=
  match heap g !! a with
  | None => NilPanic g
  | Some r => Done tt (setRequest a (withProtocol protocol r) g)
  end.

Definition ended (r : RequestStat) : RequestStat :=
  {| Id := Id r; StartTime := StartTime r; Time := Time r;
     Hostname := Hostname r; Request := Request r; Protocol := Protocol r;
     Method := Method r; Code := Code r; Length := Length r;
     Duration := Duration r; IP := IP r; Port := Port r;
     Alive := false; HasContext := HasContext r |}.

(** [End]; [hasLogger] and [hasHook] say whether the host has a "pages"
    logger and a "stats" hook. *)
Definition End (hasLogger hasHook : string -> bool) (a : nat) (g : Globals)
  : outcome unit :=
  match heap g !! a with
  | None => NilPanic g
  | Some r =>
      let lines :=
        if String.eqb (Hostname r) "" then [ErrorsLog r]
        else
          (if hasLogger (Hostname r) then [PagesLog (Hostname r) r] else [])
          ++ (if hasHook (Hostname r) && HasContext r
              then [StatsHook (Hostname r)] else []) in
      Done tt
        {| SystemStat := SystemStat g; RequestCounter := RequestCounter g;
           heap := <[a := ended r]> (heap g);
           next := next g;
           journal := journal g ++ lines |}
  end.

(** The sum of the lengths of the requests allocated so far. *)
Definition totalLength (hp : gmap nat RequestStat) : Z :=
  map_fold (fun _ r acc => acc + Length r) 0 hp.

(** Package variables in order: the requests of the list are distinct and
    allocated, every request allocated is below the next address and its
    [Id] below the counter. *)
Definition statOk (g : Globals) : Prop :=
  (forall s, SystemStat g = Some s ->
     NoDup (Requests s) /\ forall a, a ∈ Requests s -> is_Some (heap g !! a))
  /\ (forall a r, heap g !! a = Some r ->
        (a < next g)%nat /\ 0 <= Id r < RequestCounter g)
  /\ 0 <= RequestCounter g < 2 ^ 64.

(** The books balance: the length served is the sum of the lengths of the
    requests, up to the wrap-around of [int]. *)
Definition balanced (g : Globals) : Prop :=
  forall s, SystemStat g = Some s ->
    (LengthServed s - totalLength (heap g)) mod 2 ^ 64 = 0.

(** Whether the request at an address is expired at the instant [n], and the
    number of expired requests a list starts with. *)
Definition expiredAt (n : Z) (hp : gmap nat RequestStat) (a : nat) : bool :=
  match hp !! a with
  | Some r => expired n r
  | None => false
  end.

Fixpoint leadingExpired (n : Z) (hp : gmap nat RequestStat) (l : list nat) : nat :=
  match l with
  | [] => O
  | a :: rest => if expiredAt n hp a then S (leadingExpired n hp rest) else O
  end.

End Stat.

(** ** Concrete configurations used by the examples of Part II *)

Module Examples.

(** A dataset over a configuration set, for the redirect engine. *)
Definition datasetOf (c : XConfig) : Redirect.Dataset :=
  {| Redirect.GetString := fun key =>
       match c !! key with
       | Some (VString s) => (s, true)
       | _ => ("", false)
       end;
     Redirect.GetInt := fun key =>
       match c !! key with
       | Some (VInt z) => (z, true)
       | _ => (0, false)
       end |}.

Definition redirectContext (params : XConfig) : Redirect.Context :=
  {| Redirect.IsMainPage := true;
     Redirect.MainPage := "old";
     Redirect.MainPageparams := datasetOf params;
     Redirect.Code := 200;
     Redirect.Writer := [];
     Redirect.LoggerError := [] |}.

(** A redirect page with a code outside the accepted ones. *)
Definition page999 : XConfig :=
  {[ "type" := VString "redirect";
     "redirecturl" := VString "/new";
     "redirectcode" := VInt 999 ]}.

(** A redirect page that names no target. *)
Definition pageNoUrl : XConfig :=
  {[ "type" := VString "redirect"; "redirectcode" := VInt 301 ]}.

(** A site: its configuration and an engine about to serve [page]. *)
Definition hostConfig : XConfig :=
  {[ "pagesdir" := VString "pages/";
     "acceptpathparameters" := VBool false;
     "version" := VString "";
     "language" := VString "en";
     "mainpage" := VString "home" ]}.

Definition engineFor (page : string) : Core.Engine :=
  {| Core.writer := [];
     Core.Method := "GET";
     Core.Page := page;
     Core.HostConfig := hostConfig;
     Core.MainContext := None;
     Core.Recursivity := [];
     Core.Num := 0;
     Core.QT := 0 |}.

(** The blog: one page, [blog], that takes path parameters and prints
    them. *)
Definition blogPage : XConfig :=
  {[ "status" := VString "published";
     "type" := VString "simple";
     "AcceptPathParameters" := VBool true ]}.

Definition blogServers : Core.Servers :=
  {| Core.PageGetData := fun _ _ P =>
       if String.eqb P "blog" then Some blogPage else None;
     Core.InstanceGetData := fun _ _ _ => Some ∅;
     Core.CodeGetData := fun _ _ _ =>
       Some (fun ctx _ => GoStrings.Join (Core.LocalURLparams ctx));
     Core.LibraryGetData := fun _ _ => None;
     Core.TemplateGetData := fun _ _ _ => None;
     Core.LanguageGetData := fun _ _ _ => None |}.

Definition blogRequest : string := "blog/2023/01/post-1".

Definition blogLocated : Core.located :=
  {| Core.usedP := "blog";
     Core.pagedata := Some blogPage;
     Core.lookups := ["blog/2023/01/post-1"; "blog/2023/01"; "blog/2023"; "blog"] |}.

(** A site whose page [old] is a redirect with the code 999. *)
Definition oldPage : XConfig :=
  {[ "status" := VString "published";
     "type" := VString "redirect";
     "Redirect" := VString "/new";
     "redirecturl" := VString "/new";
     "redirectcode" := VInt 999 ]}.

Definition redirectServers : Core.Servers :=
  {| Core.PageGetData := fun _ _ P =>
       if String.eqb P "old" then Some oldPage else None;
     Core.InstanceGetData := fun _ _ _ => Some ∅;
     Core.CodeGetData := fun _ _ _ => None;
     Core.LibraryGetData := fun _ _ => None;
     Core.TemplateGetData := fun _ _ _ => None;
     Core.LanguageGetData := fun _ _ _ => None |}.

(** A site with one template page, [loop], that names itself as its parent. *)
Definition loopPage : XConfig :=
  {[ "status" := VString "published";
     "type" := VString "template";
     "template" := VString "loop" ]}.

Definition loopBody : string := "<div>[[CONTENT]]</div>".

Definition loopServers : Core.Servers :=
  {| Core.PageGetData := fun _ _ P =>
       if String.eqb P "loop" then Some loopPage else None;
     Core.InstanceGetData := fun _ _ _ => Some ∅;
     Core.CodeGetData := fun _ _ _ => None;
     Core.LibraryGetData := fun _ _ => None;
     Core.TemplateGetData := fun _ P _ =>
       if String.eqb P "loop" then Some {| Core.Print := loopBody |} else None;
     Core.LanguageGetData := fun _ _ _ => None |}.

(** A site with a page [article] inside the template [layout]; the text of
    the article quotes the placeholder. *)
Definition articlePage : XConfig :=
  {[ "status" := VString "published";
     "type" := VString "template";
     "template" := VString "layout" ]}.

Definition layoutPage : XConfig :=
  {[ "status" := VString "template"; "type" := VString "template" ]}.

Definition articleServers : Core.Servers :=
  {| Core.PageGetData := fun _ _ P =>
       if String.eqb P "article" then Some articlePage
       else if String.eqb P "layout" then Some layoutPage
       else None;
     Core.InstanceGetData := fun _ _ _ => Some ∅;
     Core.CodeGetData := fun _ _ _ => None;
     Core.LibraryGetData := fun _ _ => None;
     Core.TemplateGetData := fun _ P _ =>
       if String.eqb P "article" then Some {| Core.Print := "write [[CONTENT]] here" |}
       else if String.eqb P "layout" then Some {| Core.Print := "<html>[[CONTENT]]</html>" |}
       else None;
     Core.LanguageGetData := fun _ _ _ => None |}.

(** A site with a page [contact] inside the same template [layout]; its
    text is plain. *)
Definition contactServers : Core.Servers :=
  {| Core.PageGetData := fun _ _ P =>
       if String.eqb P "contact" then Some articlePage
       else if String.eqb P "layout" then Some layoutPage
       else None;
     Core.InstanceGetData := fun _ _ _ => Some ∅;
     Core.CodeGetData := fun _ _ _ => None;
     Core.LibraryGetData := fun _ _ => None;
     Core.TemplateGetData := fun _ P _ =>
       if String.eqb P "contact" then Some {| Core.Print := "Contact us" |}
       else if String.eqb P "layout" then Some {| Core.Print := "<html>[[CONTENT]]</html>" |}
       else None;
     Core.LanguageGetData := fun _ _ _ => None |}.

(** A library page [app] and the worlds it is invoked in. *)
Definition appInstance : Wajafapp.LibraryEngineInstance :=
  {| Wajafapp.iSourcePath := "pages/app/app.go";
     Wajafapp.iPluginPath := "pages/app/site-app.so" |}.

Definition hello : Wajafapp.PageFunc := fun _ _ _ _ => VString "hello".

Definition appContext : Wajafapp.Context :=
  {| Wajafapp.MainURLparams := []; Wajafapp.LoggerError := [] |}.

(** Everything works: the plugin is compiled and up to date. *)
Definition healthyWorld : Wajafapp.World :=
  {| Wajafapp.FileExists := fun _ => true;
     Wajafapp.ModTime := fun _ => 0;
     Wajafapp.FileValidator := fun _ _ => true;
     Wajafapp.PleaseCompile := fun lib => (lib, None);
     Wajafapp.buildidCommand := fun _ => ("id-1", None);
     Wajafapp.Open := fun _ => Ok 7%nat;
     Wajafapp.Lookup := fun _ name =>
       if String.eqb name "Run" then Ok (Wajafapp.StandardFunc hello)
       else Err "symbol not found";
     Wajafapp.Title := fun s => s;
     Wajafapp.XmlUnmarshal := fun s => Ok s;
     Wajafapp.JsonMarshalApp := fun s => Ok s;
     Wajafapp.JsonMarshalMessage := fun s => Ok s;
     Wajafapp.JsonMarshal := fun _ => Ok "null" |}.

(** The source file has been deleted. *)
Definition sourceDeletedWorld : Wajafapp.World :=
  {| Wajafapp.FileExists := fun path => negb (String.eqb path "pages/app/app.go");
     Wajafapp.ModTime := Wajafapp.ModTime healthyWorld;
     Wajafapp.FileValidator := Wajafapp.FileValidator healthyWorld;
     Wajafapp.PleaseCompile := Wajafapp.PleaseCompile healthyWorld;
     Wajafapp.buildidCommand := Wajafapp.buildidCommand healthyWorld;
     Wajafapp.Open := Wajafapp.Open healthyWorld;
     Wajafapp.Lookup := Wajafapp.Lookup healthyWorld;
     Wajafapp.Title := Wajafapp.Title healthyWorld;
     Wajafapp.XmlUnmarshal := Wajafapp.XmlUnmarshal healthyWorld;
     Wajafapp.JsonMarshalApp := Wajafapp.JsonMarshalApp healthyWorld;
     Wajafapp.JsonMarshalMessage := Wajafapp.JsonMarshalMessage healthyWorld;
     Wajafapp.JsonMarshal := Wajafapp.JsonMarshal healthyWorld |}.

(** The source is newer than the plugin and no longer compiles. *)
Definition brokenSourceWorld : Wajafapp.World :=
  {| Wajafapp.FileExists := Wajafapp.FileExists healthyWorld;
     Wajafapp.ModTime := Wajafapp.ModTime healthyWorld;
     Wajafapp.FileValidator := fun _ _ => false;
     Wajafapp.PleaseCompile := fun lib => (lib, Some "syntax error");
     Wajafapp.buildidCommand := Wajafapp.buildidCommand healthyWorld;
     Wajafapp.Open := Wajafapp.Open healthyWorld;
     Wajafapp.Lookup := Wajafapp.Lookup healthyWorld;
     Wajafapp.Title := Wajafapp.Title healthyWorld;
     Wajafapp.XmlUnmarshal := Wajafapp.XmlUnmarshal healthyWorld;
     Wajafapp.JsonMarshalApp := Wajafapp.JsonMarshalApp healthyWorld;
     Wajafapp.JsonMarshalMessage := Wajafapp.JsonMarshalMessage healthyWorld;
     Wajafapp.JsonMarshal := Wajafapp.JsonMarshal healthyWorld |}.

(** The [go tool buildid] command fails. *)
Definition noBuildidWorld : Wajafapp.World :=
  {| Wajafapp.FileExists := Wajafapp.FileExists healthyWorld;
     Wajafapp.ModTime := Wajafapp.ModTime healthyWorld;
     Wajafapp.FileValidator := Wajafapp.FileValidator healthyWorld;
     Wajafapp.PleaseCompile := Wajafapp.PleaseCompile healthyWorld;
     Wajafapp.buildidCommand := fun _ => ("", Some "exit status 1");
     Wajafapp.Open := Wajafapp.Open healthyWorld;
     Wajafapp.Lookup := Wajafapp.Lookup healthyWorld;
     Wajafapp.Title := Wajafapp.Title healthyWorld;
     Wajafapp.XmlUnmarshal := Wajafapp.XmlUnmarshal healthyWorld;
     Wajafapp.JsonMarshalApp := Wajafapp.JsonMarshalApp healthyWorld;
     Wajafapp.JsonMarshalMessage := Wajafapp.JsonMarshalMessage healthyWorld;
     Wajafapp.JsonMarshal := Wajafapp.JsonMarshal healthyWorld |}.

(** The plugin has been built again: its file now opens as the handle 8,
    whose [Run] answers [hello again]; [go tool buildid] fails as before,
    with the same text. *)
Definition helloAgain : Wajafapp.PageFunc := fun _ _ _ _ => VString "hello again".

Definition rebuiltNoBuildidWorld : Wajafapp.World :=
  {| Wajafapp.FileExists := Wajafapp.FileExists healthyWorld;
     Wajafapp.ModTime := Wajafapp.ModTime healthyWorld;
     Wajafapp.FileValidator := Wajafapp.FileValidator healthyWorld;
     Wajafapp.PleaseCompile := Wajafapp.PleaseCompile healthyWorld;
     Wajafapp.buildidCommand := fun _ => ("", Some "exit status 1");
     Wajafapp.Open := fun _ => Ok 8%nat;
     Wajafapp.Lookup := fun h name =>
       if String.eqb name "Run"
       then Ok (Wajafapp.StandardFunc (if (h =? 8)%nat then helloAgain else hello))
       else Err "symbol not found";
     Wajafapp.Title := Wajafapp.Title healthyWorld;
     Wajafapp.XmlUnmarshal := Wajafapp.XmlUnmarshal healthyWorld;
     Wajafapp.JsonMarshalApp := Wajafapp.JsonMarshalApp healthyWorld;
     Wajafapp.JsonMarshalMessage := Wajafapp.JsonMarshalMessage healthyWorld;
     Wajafapp.JsonMarshal := Wajafapp.JsonMarshal healthyWorld |}.

(** [go tool buildid] fails and the plugin file cannot be opened. *)
Definition unopenableWorld : Wajafapp.World :=
  {| Wajafapp.FileExists := Wajafapp.FileExists healthyWorld;
     Wajafapp.ModTime := Wajafapp.ModTime healthyWorld;
     Wajafapp.FileValidator := Wajafapp.FileValidator healthyWorld;
     Wajafapp.PleaseCompile := Wajafapp.PleaseCompile healthyWorld;
     Wajafapp.buildidCommand := fun _ => ("", Some "exit status 1");
     Wajafapp.Open := fun _ => Err "plugin was built with a different version";
     Wajafapp.Lookup := Wajafapp.Lookup healthyWorld;
     Wajafapp.Title := Wajafapp.Title healthyWorld;
     Wajafapp.XmlUnmarshal := Wajafapp.XmlUnmarshal healthyWorld;
     Wajafapp.JsonMarshalApp := Wajafapp.JsonMarshalApp healthyWorld;
     Wajafapp.JsonMarshalMessage := Wajafapp.JsonMarshalMessage healthyWorld;
     Wajafapp.JsonMarshal := Wajafapp.JsonMarshal healthyWorld |}.

(** The library [app] as a first load left it while [go tool buildid]
    failed, and compiled again since: its status is 0 and its registry holds
    the handle 7 under the error text. *)
Definition staleApp : Wajafapp.Plugin :=
  Wajafapp.setStatus 0
    (Wajafapp.library
       (Wajafapp.load noBuildidWorld appContext None None VNil
          (Wajafapp.newPlugin appInstance) [])).

Definition emptyStore : Wajafapp.Store :=
  {| Wajafapp.heap := ∅; Wajafapp.LibraryCache := ∅; Wajafapp.next := 0%nat |}.

(** The store after a first request in the healthy world: [app] is loaded
    and ready. *)
Definition loadedStore : Wajafapp.Store :=
  snd (Wajafapp.Run healthyWorld appInstance appContext None None VNil emptyStore).

End Examples.

(** ** Concrete configurations used by the examples of Part III *)

Module MoreExamples.

Import Examples.

(** The engine after the request for the blog has been rendered. *)
Definition blogServed : Core.Engine :=
  Core.setMainContext
    (Core.mainContext (engineFor blogRequest) blogRequest "blog"
       ["2023"; "01"; "post-1"] blogPage ∅ VNil)
    (engineFor blogRequest).

(** An engine on a site whose configuration is empty. *)
Definition unconfiguredEngine : Core.Engine :=
  {| Core.writer := [];
     Core.Method := "GET";
     Core.Page := "blog";
     Core.HostConfig := ∅;
     Core.MainContext := None;
     Core.Recursivity := [];
     Core.Num := 0;
     Core.QT := 0 |}.

(** A site with a page [note] inside the template [frame], which has no
    placeholder. *)
Definition notePage : XConfig :=
  {[ "status" := VString "published";
     "type" := VString "template";
     "template" := VString "frame" ]}.

Definition framePage : XConfig :=
  {[ "status" := VString "block"; "type" := VString "template" ]}.

Definition noteServers : Core.Servers :=
  {| Core.PageGetData := fun _ _ P =>
       if String.eqb P "note" then Some notePage
       else if String.eqb P "frame" then Some framePage
       else None;
     Core.InstanceGetData := fun _ _ _ => Some ∅;
     Core.CodeGetData := fun _ _ _ => None;
     Core.LibraryGetData := fun _ _ => None;
     Core.TemplateGetData := fun _ P _ =>
       if String.eqb P "note" then Some {| Core.Print := "remember the milk" |}
       else if String.eqb P "frame" then Some {| Core.Print := "<p>frame</p>" |}
       else None;
     Core.LanguageGetData := fun _ _ _ => None |}.

(** A request for the [json] form of the library page, in a language whose
    entry [name] is empty, and a page function that gives only that entry. *)
Definition jsonContext : Wajafapp.Context :=
  {| Wajafapp.MainURLparams := ["code"; "json"]; Wajafapp.LoggerError := [] |}.

Definition emptyName : Wajafapp.XLanguage :=
  {| Wajafapp.GetEntries := [("name", "")] |}.

Definition onlyName : Wajafapp.PageFunc := fun _ _ _ _ => VString "##name##".

Definition onlyNameWorld : Wajafapp.World :=
  {| Wajafapp.FileExists := Wajafapp.FileExists healthyWorld;
     Wajafapp.ModTime := Wajafapp.ModTime healthyWorld;
     Wajafapp.FileValidator := Wajafapp.FileValidator healthyWorld;
     Wajafapp.PleaseCompile := Wajafapp.PleaseCompile healthyWorld;
     Wajafapp.buildidCommand := Wajafapp.buildidCommand healthyWorld;
     Wajafapp.Open := Wajafapp.Open healthyWorld;
     Wajafapp.Lookup := fun _ name =>
       if String.eqb name "Run" then Ok (Wajafapp.StandardFunc onlyName)
       else Err "symbol not found";
     Wajafapp.Title := Wajafapp.Title healthyWorld;
     Wajafapp.XmlUnmarshal := Wajafapp.XmlUnmarshal healthyWorld;
     Wajafapp.JsonMarshalApp := Wajafapp.JsonMarshalApp healthyWorld;
     Wajafapp.JsonMarshalMessage := Wajafapp.JsonMarshalMessage healthyWorld;
     Wajafapp.JsonMarshal := Wajafapp.JsonMarshal healthyWorld |}.

(** A request for the function [list] of the library page. *)
Definition listContext : Wajafapp.Context :=
  {| Wajafapp.MainURLparams := ["list"]; Wajafapp.LoggerError := [] |}.

(** The plugin file cannot be opened. *)
Definition noPluginWorld : Wajafapp.World :=
  {| Wajafapp.FileExists := Wajafapp.FileExists healthyWorld;
     Wajafapp.ModTime := Wajafapp.ModTime healthyWorld;
     Wajafapp.FileValidator := Wajafapp.FileValidator healthyWorld;
     Wajafapp.PleaseCompile := Wajafapp.PleaseCompile healthyWorld;
     Wajafapp.buildidCommand := Wajafapp.buildidCommand healthyWorld;
     Wajafapp.Open := fun _ => Err "plugin was built with a different version";
     Wajafapp.Lookup := Wajafapp.Lookup healthyWorld;
     Wajafapp.Title := Wajafapp.Title healthyWorld;
     Wajafapp.XmlUnmarshal := Wajafapp.XmlUnmarshal healthyWorld;
     Wajafapp.JsonMarshalApp := Wajafapp.JsonMarshalApp healthyWorld;
     Wajafapp.JsonMarshalMessage := Wajafapp.JsonMarshalMessage healthyWorld;
     Wajafapp.JsonMarshal := Wajafapp.JsonMarshal healthyWorld |}.

(** The source is newer than the plugin and compiles to a new build. *)
Definition recompileWorld : Wajafapp.World :=
  {| Wajafapp.FileExists := Wajafapp.FileExists healthyWorld;
     Wajafapp.ModTime := Wajafapp.ModTime healthyWorld;
     Wajafapp.FileValidator := fun _ _ => false;
     Wajafapp.PleaseCompile := Wajafapp.PleaseCompile healthyWorld;
     Wajafapp.buildidCommand := fun _ => ("id-2", None);
     Wajafapp.Open := fun _ => Ok 8%nat;
     Wajafapp.Lookup := Wajafapp.Lookup healthyWorld;
     Wajafapp.Title := Wajafapp.Title healthyWorld;
     Wajafapp.XmlUnmarshal := Wajafapp.XmlUnmarshal healthyWorld;
     Wajafapp.JsonMarshalApp := Wajafapp.JsonMarshalApp healthyWorld;
     Wajafapp.JsonMarshalMessage := Wajafapp.JsonMarshalMessage healthyWorld;
     Wajafapp.JsonMarshal := Wajafapp.JsonMarshal healthyWorld |}.

(** The library [app] as the first request left it. *)
Definition readyApp : Wajafapp.Plugin :=
  Wajafapp.fetched appInstance loadedStore.

(** The same page asked through another host. *)
Definition otherHostInstance : Wajafapp.LibraryEngineInstance :=
  {| Wajafapp.iSourcePath := "pages/app/app.go";
     Wajafapp.iPluginPath := "pages/app/other-app.so" |}.

(** The store after a first request in a world where the plugin file cannot
    be opened: [app] is in error. *)
Definition failedStore : Wajafapp.Store :=
  snd (Wajafapp.Run noPluginWorld appInstance appContext None None VNil emptyStore).

Definition failedApp : Wajafapp.Plugin :=
  Wajafapp.fetched appInstance failedStore.

(** A site with a page [story] whose template, [cover], does not exist. *)
Definition storyPage : XConfig :=
  {[ "status" := VString "published";
     "type" := VString "template";
     "template" := VString "cover" ]}.

Definition storyServers : Core.Servers :=
  {| Core.PageGetData := fun _ _ P =>
       if String.eqb P "story" then Some storyPage else None;
     Core.InstanceGetData := fun _ _ _ => Some ∅;
     Core.CodeGetData := fun _ _ _ => None;
     Core.LibraryGetData := fun _ _ => None;
     Core.TemplateGetData := fun _ P _ =>
       if String.eqb P "story" then Some {| Core.Print := "once upon a time" |}
       else None;
     Core.LanguageGetData := fun _ _ _ => None |}.

Definition storyServed : Core.Engine :=
  Core.setMainContext
    (Core.mainContext (engineFor "story") "story" "story" [] storyPage ∅ VNil)
    (engineFor "story").

(** Statistics with three requests: two last touched long ago and one
    live. *)
Definition requestAt (id time : Z) : Stat.RequestStat :=
  {| Stat.Id := id; Stat.StartTime := time; Stat.Time := time;
     Stat.Hostname := ""; Stat.Request := "/"; Stat.Protocol := "HTTP/1.1";
     Stat.Method := "GET"; Stat.Code := 200; Stat.Length := 10;
     Stat.Duration := 0; Stat.IP := "127.0.0.1"; Stat.Port := "4000";
     Stat.Alive := true; Stat.HasContext := false |}.

Definition threeRequests : Stat.Globals :=
  {| Stat.SystemStat :=
       Some {| Stat.Start_ := 0; Stat.RequestsTotal := 3; Stat.LengthServed := 30;
               Stat.RequestsServed := ∅; Stat.Requests := [0; 1; 2]%nat;
               Stat.SitesStat := ∅ |};
     Stat.RequestCounter := 3;
     Stat.heap := {[ 0%nat := requestAt 0 0; 1%nat := requestAt 1 10;
                     2%nat := requestAt 2 1000000000000 ]};
     Stat.next := 3%nat;
     Stat.journal := [] |}.

Definition threeRequestsStat : Stat.Stat :=
  {| Stat.Start_ := 0; Stat.RequestsTotal := 3; Stat.LengthServed := 30;
     Stat.RequestsServed := ∅; Stat.Requests := [0; 1; 2]%nat;
     Stat.SitesStat := ∅ |}.

(** The package variables before [Start]. *)
Definition notStarted : Stat.Globals :=
  {| Stat.SystemStat := None; Stat.RequestCounter := 0; Stat.heap := ∅;
     Stat.next := 0%nat; Stat.journal := [] |}.

End MoreExamples.

(* ===================================================================== *)
(** * Part II: lemmas and theorems *)
(* ===================================================================== *)

(** ** The redirect engine *)

Section RedirectEngine.

Import Redirect.

Lemma codeRejected_spec (code : Z) :
  (if codeRejected code then http.StatusPermanentRedirect else code)
  = effectiveCode code.
Proof.
  unfold codeRejected, effectiveCode, http.StatusMovedPermanently, http.StatusFound,
    http.StatusTemporaryRedirect, http.StatusPermanentRedirect.
  case_bool_decide as Hin.
  - rewrite !elem_of_cons in Hin.
    destruct Hin as [->|[->|[->|[->|Hin]]]]; try reflexivity.
    by apply elem_of_nil in Hin.
  - destruct (Z.eqb_spec code 301) as [->|?]; [exfalso; apply Hin; set_solver|].
    destruct (Z.eqb_spec code 302) as [->|?]; [exfalso; apply Hin; set_solver|].
    destruct (Z.eqb_spec code 307) as [->|?]; [exfalso; apply Hin; set_solver|].
    destruct (Z.eqb_spec code 308) as [->|?]; [exfalso; apply Hin; set_solver|].
    reflexivity.
Qed.

Lemma effectiveCode_accepted (code : Z) :
  effectiveCode code ∈ [301; 302; 307; 308].
Proof.
  unfold effectiveCode. case_bool_decide; [done | set_solver].
Qed.

Lemma Run_main_with_url (ctx : Context) :
  IsMainPage ctx = true ->
  fst (GetString (MainPageparams ctx) "redirecturl") ≠ "" ->
  Run ctx =
    (RString "",
     redirected ctx (fst (GetString (MainPageparams ctx) "redirecturl"))
       (effectiveCode (fst (GetInt (MainPageparams ctx) "redirectcode")))).
Proof.
  intros Hmain Hurl. unfold Run. rewrite Hmain.
  destruct (String.eqb_spec (fst (GetString (MainPageparams ctx) "redirecturl")) "")
    as [Heq|_]; [contradiction|]. cbn [negb]. cbv zeta.
  by rewrite codeRejected_spec.
Qed.

Lemma Run_without_url (ctx : Context) :
  IsMainPage ctx = false \/ fst (GetString (MainPageparams ctx) "redirecturl") = "" ->
  Run ctx = fail ctx.
Proof.
  intros [Hinner|Hurl]; unfold Run.
  - by rewrite Hinner.
  - rewrite Hurl. by destruct (IsMainPage ctx).
Qed.

(** The redirect branch of the core [Engine.Run]: a top-level call whose page
    is of type [redirect] answers through [launchRedirect], with 301. *)
Lemma Run_redirect_page (sv : Core.Servers) (e : Core.Engine) (page : string)
    (params : value) (version language method : string)
    (pagesdir : string) (accept : bool) (loc : Core.located) (pd : XConfig)
    (xParams : list string) (url : string) (fuel : nat) :
  Get (Core.HostConfig e) "pagesdir" = VString pagesdir ->
  Get (Core.HostConfig e) "acceptpathparameters" = VBool accept ->
  Core.locate (Core.PageGetData sv pagesdir accept) false page = Some loc ->
  Core.pagedata loc = Some pd ->
  Core.pathParameters page (Core.usedP loc) pd = Core.Accepted xParams ->
  Get pd "type" = VString "redirect" ->
  Get pd "Redirect" = VString url ->
  Core.Run (S fuel) sv e page false params version language method
  = Core.Done "" (Core.send (HttpRedirect url 301) e).
Proof.
  intros Hdir Hacc Hloc Hpd Hpp Htype Hurl.
  cbn [Core.Run]. unfold Core.runLevel.
  rewrite Hdir, Hacc. cbn [Core.assertString Core.assertBool].
  rewrite Hloc. cbn zeta. rewrite Hpd, Hpp, Htype.
  rewrite bool_decide_eq_true_2 by done. cbn [negb andb].
  by rewrite Hurl.
Qed.

(** C1, as the code has it.  The redirect engine answers a main page that
    names a non-empty [redirecturl] with a redirect to it, with [redirectcode]
    when it is 301, 302, 307 or 308 and with 308 otherwise (so 999 gives
    308); without a [redirecturl], or on a page that is not the main one, it
    returns an error and sets the status 500.  The redirect branch of the core
    [Engine.Run] reads no code and always answers with 301. *)
Theorem redirect_page_response :
  (forall ctx : Context,
     IsMainPage ctx = true ->
     fst (GetString (MainPageparams ctx) "redirecturl") ≠ "" ->
     Run ctx =
       (RString "",
        redirected ctx (fst (GetString (MainPageparams ctx) "redirecturl"))
          (effectiveCode (fst (GetInt (MainPageparams ctx) "redirectcode")))))
  /\ effectiveCode 999 = 308
  /\ (forall ctx : Context,
        IsMainPage ctx = false \/ fst (GetString (MainPageparams ctx) "redirecturl") = "" ->
        Run ctx = fail ctx)
  /\ (forall (sv : Core.Servers) (e : Core.Engine) (page : string) (params : value)
             (version language method pagesdir : string) (accept : bool)
             (loc : Core.located) (pd : XConfig) (xParams : list string)
             (url : string) (fuel : nat),
        Get (Core.HostConfig e) "pagesdir" = VString pagesdir ->
        Get (Core.HostConfig e) "acceptpathparameters" = VBool accept ->
        Core.locate (Core.PageGetData sv pagesdir accept) false page = Some loc ->
        Core.pagedata loc = Some pd ->
        Core.pathParameters page (Core.usedP loc) pd = Core.Accepted xParams ->
        Get pd "type" = VString "redirect" ->
        Get pd "Redirect" = VString url ->
        Core.Run (S fuel) sv e page false params version language method
        = Core.Done "" (Core.send (HttpRedirect url 301) e)).
Proof.
  split; [exact Run_main_with_url|]. split; [reflexivity|].
  split; [exact Run_without_url|]. intros. by eapply Run_redirect_page.
Qed.

Lemma redirect_page_response_witness :
  Run (Examples.redirectContext Examples.page999)
  = (RString "", redirected (Examples.redirectContext Examples.page999) "/new" 308).
Proof.
  destruct redirect_page_response as (Hredirect & _).
  exact (Hredirect (Examples.redirectContext Examples.page999)
           eq_refl ltac:(discriminate)).
Defined.

(** The claim as the specification states it fails twice: the redirect engine
    answers a redirect page without [redirecturl] with an error, not with a
    redirect; and the core engine answers the page [old], whose code is 999,
    with 301, not with 308. *)
Lemma redirect_page_response_counterexample :
  (IsMainPage (Examples.redirectContext Examples.pageNoUrl) = true
   /\ fst (Run (Examples.redirectContext Examples.pageNoUrl))
      = RError "Please specify redirecturl and redirectcode in .page old"
   /\ Code (snd (Run (Examples.redirectContext Examples.pageNoUrl))) = 500
   /\ Writer (snd (Run (Examples.redirectContext Examples.pageNoUrl))) = [])
  /\ (Get Examples.oldPage "type" = VString "redirect"
      /\ Get Examples.oldPage "redirectcode" = VInt 999
      /\ Core.Run 1 Examples.redirectServers (Examples.engineFor "old") "old" false
           VNil "" "" ""
         = Core.Done "" (Core.send (HttpRedirect "/new" 301) (Examples.engineFor "old"))).
Proof. vm_compute. repeat split. Qed.

End RedirectEngine.

(** ** [strings.Split] and [strings.Join] on ["/"] *)

Section SplitJoin.

Import GoStrings.
Local Open Scope nat_scope.

Lemma Split_nonempty (s : string) : Split s ≠ [].
Proof.
  destruct s as [|c s]; cbn; [done|].
  destruct (Ascii.eqb c slash); [done|]. by destruct (Split s).
Qed.

Lemma Split_length_pos (s : string) : 1 <= length (Split s).
Proof.
  pose proof (Split_nonempty s). destruct (Split s); [done | cbn; lia].
Qed.

Lemma Join_cons (a : string) (l : list string) :
  l ≠ [] -> Join (a :: l) = a +:+ String slash (Join l).
Proof. by destruct l. Qed.

Lemma Join_Split (s : string) : Join (Split s) = s.
Proof.
  induction s as [|c s IH]; [done|]. cbn [Split].
  destruct (Ascii.eqb_spec c slash) as [->|Hc].
  - rewrite Join_cons by apply Split_nonempty. by rewrite IH.
  - pose proof (Split_nonempty s) as Hne.
    destruct (Split s) as [|seg rest]; [done|].
    destruct rest as [|seg' rest].
    + cbn in *. by rewrite IH.
    + rewrite Join_cons by done. rewrite Join_cons in IH by done.
      by rewrite <- IH.
Qed.

Lemma Split_noSlash (s : string) : Forall (fun seg => noSlash seg = true) (Split s).
Proof.
  induction s as [|c s IH]; cbn [Split].
  - by repeat constructor.
  - destruct (Ascii.eqb_spec c slash) as [->|Hc].
    + by constructor.
    + destruct (Split s) as [|seg rest].
      * repeat constructor. cbn. by destruct (Ascii.eqb_spec c slash).
      * inversion IH; subst. constructor; [|done].
        cbn. destruct (Ascii.eqb_spec c slash); [done|]. by cbn.
Qed.

Lemma Split_segment (seg : string) : noSlash seg = true -> Split seg = [seg].
Proof.
  induction seg as [|c seg IH]; [done|]. cbn.
  destruct (Ascii.eqb c slash); [done|]. cbn. intros H. by rewrite IH.
Qed.

Lemma Split_append_slash (a b : string) :
  noSlash a = true -> Split (a +:+ String slash b) = a :: Split b.
Proof.
  induction a as [|c a IH]; intros H.
  - reflexivity.
  - change (String c a +:+ String slash b) with (String c (a +:+ String slash b)).
    cbn [Split noSlash] in *.
    destruct (Ascii.eqb c slash); [done|]. by rewrite IH.
Qed.

Lemma Split_Join (l : list string) :
  l ≠ [] -> Forall (fun seg => noSlash seg = true) l -> Split (Join l) = l.
Proof.
  induction l as [|a l IH]; [done|]. intros _ Hall.
  inversion Hall as [|? ? Ha Hl]; subst.
  destruct l as [|b l].
  - cbn. by apply Split_segment.
  - rewrite Join_cons by done. rewrite Split_append_slash by done.
    by rewrite IH.
Qed.

Lemma append_String (c : ascii) (a b : string) :
  String c a +:+ b = String c (a +:+ b).
Proof. reflexivity. Qed.

Lemma append_assoc (a b c : string) : a +:+ (b +:+ c) = (a +:+ b) +:+ c.
Proof.
  induction a as [|x a IH]; [done|].
  change (String x (a +:+ (b +:+ c)) = String x ((a +:+ b) +:+ c)). by rewrite IH.
Qed.

Lemma Join_app (l1 l2 : list string) :
  l1 ≠ [] -> l2 ≠ [] -> Join (l1 ++ l2) = Join l1 +:+ String slash (Join l2).
Proof.
  induction l1 as [|a l1 IH]; [done|]. intros _ Hl2.
  destruct l1 as [|b l1].
  - change ([a] ++ l2) with (a :: l2). by rewrite Join_cons.
  - change ((a :: b :: l1) ++ l2) with (a :: b :: (l1 ++ l2)).
    rewrite (Join_cons a (b :: (l1 ++ l2))) by done.
    change (b :: (l1 ++ l2)) with ((b :: l1) ++ l2).
    rewrite IH by done.
    rewrite (Join_cons a (b :: l1)) by done.
    by rewrite <- append_assoc.
Qed.

Lemma from_append (a b : string) : from (String.length a) (a +:+ b) = b.
Proof. induction a as [|c a IH]; [by destruct b|]. by rewrite append_String. Qed.

Lemma from_append_slash (a b : string) :
  from (String.length a + 1) (a +:+ String slash b) = b.
Proof.
  induction a as [|c a IH]; [done|]. by rewrite append_String.
Qed.

Lemma length_append (a b : string) :
  String.length (a +:+ b) = String.length a + String.length b.
Proof.
  induction a as [|c a IH]; [done|].
  rewrite append_String. cbn. by rewrite IH.
Qed.

Lemma append_ne_prefix (a b : string) : b ≠ "" -> a +:+ b ≠ a.
Proof.
  intros Hb Heq. apply (f_equal String.length) in Heq.
  rewrite length_append in Heq. destruct b; [done|]. cbn in Heq. lia.
Qed.

End SplitJoin.

(** ** [strings.Replace] *)

Example Replace_every_occurrence :
  GoStrings.Replace "<a>[[CONTENT]]</a><b>[[CONTENT]]</b>" "[[CONTENT]]" "x"
  = "<a>x</a><b>x</b>".
Proof. reflexivity. Qed.

Example Replace_leftmost_first :
  GoStrings.Replace "aaaaa" "aa" "b" = "bba".
Proof. reflexivity. Qed.

Example Split_examples :
  GoStrings.Split "" = [""]
  /\ GoStrings.Split "a/b" = ["a"; "b"]
  /\ GoStrings.Split "a//b/" = ["a"; ""; "b"; ""]
  /\ GoStrings.Join ["a"; ""; "b"; ""] = "a//b/".
Proof. repeat split. Qed.

Section ReplaceFacts.

Import GoStrings.
Local Open Scope nat_scope.

Lemma append_nil_r (s : string) : s +:+ "" = s.
Proof.
  induction s as [|c s IH]; [done|]. by rewrite append_String, IH.
Qed.

Lemma HasPrefix_append (a b : string) : HasPrefix (a +:+ b) a = true.
Proof.
  induction a as [|c a IH]; [done|]. rewrite append_String. cbn.
  by rewrite Ascii.eqb_refl, IH.
Qed.

Lemma HasPrefix_refl (a : string) : HasPrefix a a = true.
Proof. rewrite <- (append_nil_r a) at 1. apply HasPrefix_append. Qed.

Lemma HasPrefix_length (s p : string) :
  HasPrefix s p = true -> String.length p <= String.length s.
Proof.
  revert s. induction p as [|a p IH]; intros s H; [cbn; lia|].
  destruct s as [|b s]; [done|]. cbn in H. apply andb_prop in H as [_ H].
  apply IH in H. cbn. lia.
Qed.

Lemma HasPrefix_split (s p : string) :
  HasPrefix s p = true -> exists r, s = p +:+ r.
Proof.
  revert s. induction p as [|a p IH]; intros s H; [by exists s|].
  destruct s as [|b s]; [done|]. cbn in H. apply andb_prop in H as [Hab H].
  apply Ascii.eqb_eq in Hab as ->. destruct (IH s H) as [r ->]. by exists r.
Qed.

(** A prefix of [a +:+ r] is a prefix of [a], or goes on beyond [a]. *)
Lemma HasPrefix_app_cases (a r p : string) :
  HasPrefix (a +:+ r) p = true -> comparable a p = true.
Proof.
  unfold comparable. revert p. induction a as [|c a IH]; intros p H.
  - destruct p; [done|]. apply orb_true_r.
  - destruct p as [|b p]; [done|]. rewrite append_String in H. cbn in H |- *.
    apply andb_prop in H as [Hbc H]. apply Ascii.eqb_eq in Hbc as ->.
    rewrite Ascii.eqb_refl. cbn. by apply IH.
Qed.

Lemma Contains_prefix (s t : string) : HasPrefix s t = true -> Contains s t = true.
Proof. intros H. destruct s; cbn [Contains]; by rewrite H. Qed.

Lemma Contains_append (w v t : string) :
  Contains v t = true -> Contains (w +:+ v) t = true.
Proof.
  intros H. induction w as [|c w IH]; [done|].
  rewrite append_String. cbn [Contains]. rewrite IH. apply orb_true_r.
Qed.

(** *** What [Replace] leaves of [old] *)

(** In front of a text without [old], a text in which no occurrence can
    begin adds none. *)
Lemma Contains_seam_start (old u R : string) :
  noStart u old = true -> Contains R old = false -> Contains (u +:+ R) old = false.
Proof.
  induction u as [|c u IH]; [done|]. cbn [noStart]. intros Hu HR.
  apply andb_prop in Hu as [Hc Hu]. apply negb_true_iff in Hc.
  rewrite append_String. cbn [Contains]. rewrite (IH Hu HR), orb_false_r.
  destruct (HasPrefix (String c (u +:+ R)) old) eqn:E; [|done].
  change (String c (u +:+ R)) with (String c u +:+ R) in E.
  apply HasPrefix_app_cases in E. congruence.
Qed.

Lemma noEnd_suffix (x q g p : string) :
  noEnd x q = true -> q = g +:+ p -> p ≠ "" -> comparable x p = false.
Proof.
  revert q. induction g as [|a g IH]; intros q Hq -> Hp.
  - change ("" +:+ p) with p in Hq. destruct p as [|b p]; [done|].
    cbn [noEnd] in Hq. apply andb_prop in Hq as [Hq _]. by apply negb_true_iff in Hq.
  - rewrite append_String in Hq. cbn [noEnd] in Hq.
    apply andb_prop in Hq as [_ Hq]. by eapply IH.
Qed.

(** Where the text does not start with an ending [p] of [old], neither does
    what [Replace] makes of it: the copy follows the text up to the first
    replacement, and [new] neither starts with [p] nor is a beginning of
    [p]. *)
Lemma replaceFrom_keeps_no_prefix (old new : string) :
  (forall f p, old = f +:+ p -> f ≠ "" -> p ≠ "" -> comparable new p = false) ->
  forall s f p,
    old = f +:+ p -> p ≠ "" -> HasPrefix s p = false ->
    HasPrefix (replaceFrom 0 old new s) p = false.
Proof.
  intros Hend. induction s as [|c s IH]; intros f p Hold Hp Hs.
  - by destruct p.
  - cbn [replaceFrom]. destruct (HasPrefix (String c s) old) eqn:Hm.
    + destruct f as [|a f].
      * change ("" +:+ p) with p in Hold. congruence.
      * destruct (HasPrefix (new +:+ replaceFrom (String.length old - 1) old new s) p)
          eqn:E; [|done].
        apply HasPrefix_app_cases in E. by rewrite (Hend (String a f) p) in E.
    + destruct p as [|a p]; [done|]. cbn [HasPrefix] in Hs |- *.
      destruct (Ascii.eqb a c); [|done]. cbn [andb] in Hs |- *.
      destruct p as [|b p]; [done|].
      apply (IH (f +:+ String a "")); [|done|done].
      by rewrite Hold, <- append_assoc.
Qed.

(** After [Replace] by a seamless text, no occurrence of [old] is left. *)
Lemma replaceFrom_seamless (old new : string) (skip : nat) (s : string) :
  seamless new old = true ->
  Contains (replaceFrom skip old new s) old = false.
Proof.
  unfold seamless. destruct old as [|c0 old']; [done|]. intros H.
  apply andb_prop in H as [Hstart Hend].
  assert (Hend' : forall f p, String c0 old' = f +:+ p -> f ≠ "" -> p ≠ "" ->
                            comparable new p = false).
  { intros [|a g] p Hfp Hf Hp; [done|]. rewrite append_String in Hfp.
    injection Hfp as _ Hfp. by eapply noEnd_suffix. }
  revert skip. induction s as [|c s IH]; intros skip; [done|].
  cbn [replaceFrom]. destruct skip as [|k]; [|apply IH].
  destruct (HasPrefix (String c s) (String c0 old')) eqn:Hm.
  - by apply Contains_seam_start.
  - cbn [Contains]. rewrite IH, orb_false_r.
    pose proof (replaceFrom_keeps_no_prefix (String c0 old') new Hend' (String c s) ""
                  (String c0 old') eq_refl ltac:(done) Hm) as H.
    cbn [replaceFrom] in H. by rewrite Hm in H.
Qed.

(** *** A text that is not seamless leaves [old] in some text *)

Lemma replaceFrom_skip (old new a r : string) :
  replaceFrom (String.length a) old new (a +:+ r) = replaceFrom 0 old new r.
Proof. induction a as [|c a IH]; [done|]. by rewrite append_String. Qed.

Lemma replaceFrom_match (old new r : string) :
  old ≠ "" -> replaceFrom 0 old new (old +:+ r) = new +:+ replaceFrom 0 old new r.
Proof.
  destruct old as [|c old']; [done|]. intros _.
  pose proof (HasPrefix_append (String c old') r) as Hp.
  rewrite append_String in Hp |- *. cbn [replaceFrom]. rewrite Hp.
  cbn [String.length]. rewrite Nat.sub_1_r. cbn [Nat.pred].
  by rewrite replaceFrom_skip.
Qed.

Lemma replaceFrom_short (old new r : string) :
  String.length r < String.length old -> replaceFrom 0 old new r = r.
Proof.
  induction r as [|c r IH]; [done|]. intros Hlen. cbn [replaceFrom].
  destruct (HasPrefix (String c r) old) eqn:E.
  - apply HasPrefix_length in E. lia.
  - rewrite IH; [done|]. cbn in Hlen. lia.
Qed.

Lemma replaceFrom_clear (old new f rest : string) :
  clearBefore old f rest = true ->
  replaceFrom 0 old new (f +:+ rest) = f +:+ replaceFrom 0 old new rest.
Proof.
  induction f as [|c f IH]; [done|]. cbn [clearBefore]. intros H.
  apply andb_prop in H as [Hc Hf]. apply negb_true_iff in Hc.
  rewrite append_String in Hc. rewrite !append_String. cbn [replaceFrom].
  by rewrite Hc, IH.
Qed.

Lemma noStart_false (x old : string) :
  noStart x old = false ->
  exists w u, x = w +:+ u /\ u ≠ "" /\ comparable u old = true.
Proof.
  induction x as [|c x IH]; [done|]. cbn [noStart]. intros H.
  apply andb_false_iff in H as [H|H].
  - apply negb_false_iff in H. by exists "", (String c x).
  - destruct (IH H) as (w & u & -> & Hu & Hcmp). by exists (String c w), u.
Qed.

(** A text that contains [old], or ends with a beginning of [old]. *)
Lemma seam_at_start (old x : string) :
  old ≠ "" -> noStart x old = false ->
  exists father, Contains (Replace father old x) old = true.
Proof.
  intros Hold H. apply noStart_false in H as (w & u & -> & Hu & Hcmp).
  apply orb_true_iff in Hcmp as [Hcmp|Hcmp].
  - exists (old +:+ ""). unfold Replace. rewrite replaceFrom_match by done.
    cbn [replaceFrom]. rewrite append_nil_r.
    by apply Contains_append, Contains_prefix.
  - apply HasPrefix_split in Hcmp as [r Hr].
    pose proof (f_equal String.length Hr) as Hlen. rewrite length_append in Hlen.
    exists (old +:+ r). unfold Replace. rewrite replaceFrom_match by done.
    rewrite replaceFrom_short by (destruct u; [done|]; cbn in Hlen; lia).
    rewrite <- append_assoc, <- Hr.
    apply Contains_append, Contains_prefix, HasPrefix_refl.
Qed.

(** A text that starts with the ending [p] of [old], or is a beginning of
    [p], for a beginning [f] of [old] in which [old] does not start again. *)
Lemma seam_at_end (old x f p : string) :
  old = f +:+ p -> f ≠ "" ->
  (forall rest, clearBefore old f (old +:+ rest) = true) ->
  comparable x p = true ->
  exists father, Contains (Replace father old x) old = true.
Proof.
  intros Hold Hf Hclear Hcmp.
  assert (Hne : old ≠ "") by (rewrite Hold; by destruct f).
  apply orb_true_iff in Hcmp as [Hcmp|Hcmp].
  - apply HasPrefix_split in Hcmp as [x2 ->].
    exists (f +:+ (old +:+ "")). unfold Replace.
    rewrite replaceFrom_clear by apply Hclear. rewrite replaceFrom_match by done.
    cbn [replaceFrom]. rewrite append_nil_r, append_assoc, <- Hold.
    apply Contains_prefix, HasPrefix_append.
  - apply HasPrefix_split in Hcmp as [s2 Hp].
    pose proof (f_equal String.length Hold) as Hlen.
    rewrite Hp, !length_append in Hlen.
    exists (f +:+ (old +:+ s2)). unfold Replace.
    rewrite replaceFrom_clear by apply Hclear. rewrite replaceFrom_match by done.
    rewrite replaceFrom_short by (destruct f; [done|]; cbn in Hlen; lia).
    rewrite <- Hp, <- Hold. apply Contains_prefix, HasPrefix_refl.
Qed.

Example seamless_examples :
  seamless "Contact us" "[[CONTENT]]" = true
  /\ seamless "<!DOCTYPE html><p>Hello</p>" "[[CONTENT]]" = true
  /\ seamless "a [[CONTENT]] b" "[[CONTENT]]" = false
  /\ seamless "see [[CON" "[[CONTENT]]" = false
  /\ seamless "TENT]] there" "[[CONTENT]]" = false
  /\ seamless "C" "[[CONTENT]]" = false
  /\ seamless "" "[[CONTENT]]" = false
  /\ Replace "[[[[CONTENT]]ONTENT]]" "[[CONTENT]]" "C" = "[[CONTENT]]"
  /\ Replace "[[CON[[CONTENT]]TENT]]" "[[CONTENT]]" "" = "[[CONTENT]]".
Proof. repeat split. Qed.

End ReplaceFacts.

(** ** The page locator *)

Section Locator.

Import GoStrings Core.
Local Open Scope nat_scope.

Variable getData : string -> option XConfig.
Variable innerpage : bool.

Lemma Split_length_depth (s : string) : length (Split s) = S (depth s).
Proof.
  induction s as [|c s IH]; [done|]. cbn [Split depth].
  destruct (Ascii.eqb c slash); cbn; [by rewrite IH|].
  destruct (Split s); cbn in *; lia.
Qed.

Lemma prefixPath_full (page : string) : prefixPath page (length (Split page)) = page.
Proof. unfold prefixPath. rewrite firstn_all. apply Join_Split. Qed.

Lemma dropLast_snoc {A} (l : list A) (x : A) : dropLast (l ++ [x]) = l.
Proof. unfold dropLast. by rewrite removelast_last. Qed.

Lemma descent_one (l : list string) (n : nat) : descent l n n = [Join (take n l)].
Proof. unfold descent. by replace (n - n + 1) with 1 by lia. Qed.

Lemma descent_snoc (l : list string) (x : string) (m : nat) :
  m <= length l ->
  descent (l ++ [x]) m (S (length l)) = Join (l ++ [x]) :: descent l m (length l).
Proof.
  intros Hm. unfold descent.
  replace (S (length l) - m + 1) with (S (length l - m + 1)) by lia.
  rewrite seq_S, rev_app_distr. cbn [rev app map].
  replace (m + (length l - m + 1)) with (length (l ++ [x]))
    by (rewrite length_app; cbn; lia).
  rewrite firstn_all. f_equal.
  apply map_ext_in. intros k Hk. apply in_rev, in_seq in Hk.
  by rewrite take_app_le by lia.
Qed.

Lemma locateLoop_segments (l : list string) :
  l ≠ [] ->
  Forall (fun seg => noSlash seg = true) l ->
  forall (fuel : nat) (asked : list string),
    length l <= fuel ->
    exists m : nat,
      1 <= m <= length l
      /\ locateLoop fuel getData innerpage (Join l) asked
         = Some {| usedP := Join (take m l);
                   pagedata := available getData innerpage (Join (take m l));
                   lookups := asked ++ descent l m (length l) |}
      /\ (forall k, m < k <= length l ->
            available getData innerpage (Join (take k l)) = None)
      /\ (available getData innerpage (Join (take m l)) = None -> m = 1).
Proof.
  induction l as [|x l IH] using rev_ind; [done|].
  intros _ Hall fuel asked Hfuel.
  rewrite length_app in *. cbn [length] in *.
  destruct fuel as [|fuel]; [lia|]. cbn [locateLoop].
  destruct (available getData innerpage (Join (l ++ [x]))) as [d|] eqn:Hav.
  - exists (length l + 1). split; [lia|].
    rewrite descent_one.
    replace (length l + 1) with (length (l ++ [x])) by (rewrite length_app; cbn; lia).
    rewrite firstn_all, Hav. split; [done|]. split; [|done].
    intros k Hk. rewrite length_app in Hk. cbn in Hk. lia.
  - rewrite Split_Join by (try done; by destruct l).
    rewrite length_app. cbn [length].
    destruct l as [|y l'] eqn:Hl.
    + cbn [app length Nat.leb]. exists 1. cbn [Nat.add].
      split; [lia|]. rewrite descent_one.
      change (take 1 [x]) with [x]. change ([] ++ [x]) with [x] in Hav.
      rewrite Hav. cbn [Nat.leb]. split; [done|]. split; [|done]. intros k Hk. lia.
    + rewrite <- Hl in *.
      assert (Hlen : 1 <= length l) by (rewrite Hl; cbn; lia).
      destruct (Nat.leb_spec (length l + 1) 1) as [?|_]; [lia|].
      rewrite dropLast_snoc.
      apply Forall_app in Hall as [Hall _].
      destruct (IH ltac:(by rewrite Hl) Hall fuel (asked ++ [Join (l ++ [x])]) ltac:(lia))
        as (m & Hm & Hrun & Hlonger & Hnone).
      exists m. split; [lia|]. rewrite Hrun.
      rewrite take_app_le by lia.
      replace (length l + 1) with (S (length l)) by lia.
      rewrite descent_snoc by lia.
      rewrite <- app_assoc. cbn [app]. split; [done|]. split; [|done].
      intros k Hk. destruct (decide (k = S (length l))) as [->|Hne].
      * replace (S (length l)) with (length (l ++ [x])) by (rewrite length_app; cbn; lia).
        by rewrite firstn_all.
      * rewrite take_app_le by lia. apply Hlonger. lia.
Qed.

Lemma available_Some (P : string) (d : XConfig) :
  available getData innerpage P = Some d ->
  getData P = Some d /\ isAvailable innerpage d = true.
Proof.
  unfold available. destruct (getData P) as [d'|]; [|done].
  destruct (isAvailable innerpage d') eqn:Hd; [|done]. by intros [= <-].
Qed.

Lemma descent_head (l : list string) (m n : nat) :
  m <= n -> head (descent l m n) = Some (Join (take n l)).
Proof.
  intros Hmn. unfold descent.
  replace (n - m + 1) with (S (n - m)) by lia.
  rewrite seq_S, rev_app_distr. cbn. do 3 f_equal. lia.
Qed.

Lemma descent_length (l : list string) (m n : nat) :
  length (descent l m n) = n - m + 1.
Proof. unfold descent. by rewrite length_map, length_rev, length_seq. Qed.

(** C5. The page locator asks the store for the full path first; each time
    the path is absent or not available it drops exactly one trailing
    segment and asks again.  It always ends, after at most depth+1
    lookups; the page it returns is the longest available prefix of the
    request path, and it reports no page only when every prefix, down to
    the first segment, has failed. *)
Theorem locate_longest_available_prefix (page : string) :
  exists (loc : located) (m : nat),
    locate getData innerpage page = Some loc
    /\ length (Split page) = depth page + 1
    /\ 1 <= m <= depth page + 1
    /\ usedP loc = prefixPath page m
    /\ pagedata loc = available getData innerpage (prefixPath page m)
    /\ lookups loc = map (prefixPath page) (rev (seq m (depth page + 1 - m + 1)))
    /\ head (lookups loc) = Some page
    /\ length (lookups loc) <= depth page + 1
    /\ (forall d, pagedata loc = Some d ->
           getData (usedP loc) = Some d /\ isAvailable innerpage d = true)
    /\ (forall k, m < k <= depth page + 1 ->
           available getData innerpage (prefixPath page k) = None)
    /\ (pagedata loc = None ->
           forall k, 1 <= k <= depth page + 1 ->
             available getData innerpage (prefixPath page k) = None).
Proof.
  pose proof (Split_length_depth page) as Hn.
  destruct (locateLoop_segments (Split page) (Split_nonempty page) (Split_noSlash page)
              (length (Split page)) [] ltac:(lia))
    as (m & Hm & Hrun & Hlonger & Hnone).
  rewrite Join_Split in Hrun. fold (locate getData innerpage page) in Hrun.
  replace (depth page + 1) with (length (Split page)) by lia.
  eexists _, m. split; [exact Hrun|]. cbn [usedP pagedata lookups app].
  split; [lia|]. split; [lia|]. split; [done|]. split; [done|]. split; [done|].
  split; [rewrite descent_head by lia; by rewrite firstn_all, Join_Split|].
  split; [rewrite descent_length; lia|].
  split; [intros d Hd; by apply available_Some|].
  split; [exact Hlonger|].
  intros Hav k Hk. specialize (Hnone Hav). subst m.
  destruct (decide (k = 1)) as [->|Hne]; [exact Hav|]. apply Hlonger. lia.
Qed.

End Locator.

(** ** Path parameters *)

Section PathParameters.

Import GoStrings Core.
Local Open Scope nat_scope.

(** A match on fewer segments than the request has: the request is the
    match, a separator, and the rest. *)
Lemma prefixPath_split (page : string) (m : nat) :
  1 <= m < length (Split page) ->
  page = prefixPath page m +:+ String slash (Join (drop m (Split page)))
  /\ Split (Join (drop m (Split page))) = drop m (Split page)
  /\ Split (prefixPath page m) = take m (Split page).
Proof.
  intros Hm. unfold prefixPath.
  assert (Htake : take m (Split page) ≠ []).
  { intros H. apply (f_equal length) in H. rewrite length_take in H. cbn in H. lia. }
  assert (Hdrop : drop m (Split page) ≠ []).
  { intros H. apply (f_equal length) in H. rewrite length_drop in H. cbn in H. lia. }
  split; [|split].
  - rewrite <- Join_app by done. by rewrite take_drop, Join_Split.
  - apply Split_Join; [done|]. apply Forall_drop, Split_noSlash.
  - apply Split_Join; [done|]. apply Forall_take, Split_noSlash.
Qed.

Lemma locate_used (getData : string -> option XConfig) (innerpage : bool)
    (page : string) (loc : located) :
  locate getData innerpage page = Some loc ->
  exists m, 1 <= m <= length (Split page) /\ usedP loc = prefixPath page m.
Proof.
  intros Hloc.
  destruct (locateLoop_segments getData innerpage (Split page) (Split_nonempty page)
              (Split_noSlash page) (length (Split page)) [] ltac:(lia))
    as (m & Hm & Hrun & _).
  rewrite Join_Split in Hrun. fold (locate getData innerpage page) in Hrun.
  rewrite Hloc in Hrun. injection Hrun as ->. by exists m.
Qed.

Lemma locate_remainder (getData : string -> option XConfig) (innerpage : bool)
    (page : string) (loc : located) :
  locate getData innerpage page = Some loc ->
  usedP loc ≠ page ->
  exists rest : string,
    page = usedP loc +:+ String slash rest
    /\ Split page = Split (usedP loc) ++ Split rest.
Proof.
  intros Hloc Hne. destruct (locate_used _ _ _ _ Hloc) as (m & Hm & HP).
  destruct (decide (m = length (Split page))) as [->|Hlt].
  { rewrite prefixPath_full in HP. contradiction. }
  destruct (prefixPath_split page m ltac:(lia)) as (Hpage & Hrest & Hused).
  exists (Join (drop m (Split page))). rewrite HP. split; [done|].
  by rewrite Hrest, Hused, take_drop.
Qed.

Lemma pathParameters_remainder (P rest : string) (pd : XConfig) :
  pathParameters (P +:+ String slash rest) P pd
  = if bool_decide (Get pd "AcceptPathParameters" = VBool true)
    then Accepted (Split rest) else Rejected.
Proof.
  unfold pathParameters.
  destruct (String.eqb_spec P (P +:+ String slash rest)) as [Heq|_].
  { symmetry in Heq. by apply append_ne_prefix in Heq. }
  cbn [negb]. case_bool_decide; cbn [negb]; [|done].
  rewrite length_append. cbn [String.length].
  destruct (Nat.ltb_spec (String.length P + S (String.length rest)) (String.length P + 1));
    [lia|].
  by rewrite from_append_slash.
Qed.

Lemma render_Body (sv : Servers) (e : Engine) (innerpage : bool) (pagesdir P : string)
    (identities : list Identity) (pd : XConfig) (ctx : Context)
    (xdata : string) (pd' : XConfig) (e' : Engine) :
  render sv e innerpage pagesdir P identities pd ctx = Done (Body xdata pd') e' ->
  e' = e /\ pd' = pd.
Proof.
  unfold render, loadLanguage, loadTemplate, assertString, returned, launchError.
  repeat case_match; intros [=]; by subst.
Qed.

Lemma Run_returned (sv : Servers) (e : Engine) (page : string) (innerpage : bool)
    (params : value) (version language method : string) (fuel : nat)
    (message : string) :
  runLevel sv e page innerpage params version language method
    = returned (launchError e innerpage message) ->
  Run (S fuel) sv e page innerpage params version language method
    = launchError e innerpage message.
Proof.
  intros H. cbn [Run]. rewrite H. unfold launchError. by destruct innerpage.
Qed.

(** No page along the path: the call ends with the 404 error. *)
Lemma Run_not_found (sv : Servers) (e : Engine) (page : string) (innerpage : bool)
    (params : value) (version language method : string)
    (pagesdir : string) (accept : bool) (loc : located) (fuel : nat) :
  Get (HostConfig e) "pagesdir" = VString pagesdir ->
  Get (HostConfig e) "acceptpathparameters" = VBool accept ->
  locate (PageGetData sv pagesdir accept) innerpage page = Some loc ->
  pagedata loc = None ->
  Run (S fuel) sv e page innerpage params version language method
  = launchError e innerpage ("Error 404: no page found .page for " +:+ page).
Proof.
  intros Hdir Hacc Hloc Hpd. apply Run_returned.
  unfold runLevel. rewrite Hdir, Hacc. cbn [assertString assertBool].
  rewrite Hloc. cbn zeta. by rewrite Hpd.
Qed.

(** A request three levels deep on a site whose only page is [blog]: four
    lookups, the longest path first. *)
Example locate_blog :
  locate (PageGetData Examples.blogServers "pages/" false) false "blog/2023/01/post-1"
  = Some {| usedP := "blog";
            pagedata := Some Examples.blogPage;
            lookups := ["blog/2023/01/post-1"; "blog/2023/01"; "blog/2023"; "blog"] |}.
Proof. vm_compute. reflexivity. Qed.

Example locate_nothing :
  locate (PageGetData Examples.blogServers "pages/" false) false "shop/cart"
  = Some {| usedP := "shop"; pagedata := None; lookups := ["shop/cart"; "shop"] |}.
Proof. vm_compute. reflexivity. Qed.

(** C8. When the page found is a strict prefix of the requested path, the
    rest of the path gives the extra parameters.  The page must accept them
    ([AcceptPathParameters] is [true]): otherwise the call ends with the
    error "no page found with parameters" (a 404 for a top-level request).
    When they are accepted they are exactly the segments of the requested
    path after the page found, and the context of the call carries them. *)
Theorem Run_path_parameters (sv : Servers) (e : Engine) (page : string)
    (innerpage : bool) (params : value) (version language method : string)
    (pagesdir : string) (accept : bool) (loc : located) (pd : XConfig) :
  Get (HostConfig e) "pagesdir" = VString pagesdir ->
  Get (HostConfig e) "acceptpathparameters" = VBool accept ->
  locate (PageGetData sv pagesdir accept) innerpage page = Some loc ->
  pagedata loc = Some pd ->
  usedP loc ≠ page ->
  exists rest : string,
    page = usedP loc +:+ String slash rest
    /\ Split page = Split (usedP loc) ++ Split rest
    /\ (Get pd "AcceptPathParameters" ≠ VBool true ->
          pathParameters page (usedP loc) pd = Rejected
          /\ forall fuel,
               Run (S fuel) sv e page innerpage params version language method
               = launchError e innerpage "Error 404: no page found with parameters")
    /\ (Get pd "AcceptPathParameters" = VBool true ->
          pathParameters page (usedP loc) pd = Accepted (Split rest))
    /\ (forall xdata pd' e',
          runLevel sv e page innerpage params version language method
            = Done (Body xdata pd') e' ->
          Get pd "AcceptPathParameters" = VBool true
          /\ (innerpage = false ->
                exists ctx, MainContext e' = Some ctx
                            /\ MainURLparams ctx = Split rest
                            /\ LocalURLparams ctx = Split rest)).
Proof.
  intros Hdir Hacc Hloc Hpd Hne.
  destruct (locate_remainder _ _ _ _ Hloc Hne) as (rest & Hpage & Hsplit).
  exists rest. split; [done|]. split; [done|].
  assert (Hpp : pathParameters page (usedP loc) pd
                = if bool_decide (Get pd "AcceptPathParameters" = VBool true)
                  then Accepted (Split rest) else Rejected).
  { rewrite Hpage at 1. apply pathParameters_remainder. }
  assert (Hlevel : runLevel sv e page innerpage params version language method
            = match pathParameters page (usedP loc) pd with
              | Rejected =>
                  returned (launchError e innerpage "Error 404: no page found with parameters")
              | SliceOutOfRange => Panic "slice bounds out of range"
              | Accepted xParams =>
                  runLevel sv e page innerpage params version language method
              end).
  { unfold runLevel at 1. rewrite Hdir, Hacc. cbn [assertString assertBool].
    rewrite Hloc. cbn zeta. rewrite Hpd.
    destruct (pathParameters page (usedP loc) pd) eqn:Hp; [done|done|].
    unfold runLevel. rewrite Hdir, Hacc. cbn [assertString assertBool].
    rewrite Hloc. cbn zeta. by rewrite Hpd, Hp. }
  split; [|split].
  - intros Hrej. rewrite bool_decide_eq_false_2 in Hpp by done.
    split; [done|]. intros fuel. apply Run_returned.
    by rewrite Hlevel, Hpp.
  - intros Hok. by rewrite bool_decide_eq_true_2 in Hpp.
  - intros xdata pd' e' Hbody.
    destruct (decide (Get pd "AcceptPathParameters" = VBool true)) as [Hok|Hrej].
    2:{ rewrite bool_decide_eq_false_2 in Hpp by done.
        rewrite Hlevel, Hpp in Hbody. unfold launchError in Hbody.
        by destruct innerpage. }
    split; [done|]. intros ->.
    rewrite bool_decide_eq_true_2 in Hpp by done.
    unfold runLevel in Hbody. rewrite Hdir, Hacc in Hbody.
    cbn [assertString assertBool] in Hbody.
    rewrite Hloc in Hbody. cbn zeta in Hbody. rewrite Hpd, Hpp in Hbody.
    cbn [negb andb] in Hbody.
    unfold assertString, returned, launchError, verifyRecursion in Hbody.
    repeat case_match; try discriminate.
    apply render_Body in Hbody as [-> ->].
    eexists. split; [reflexivity|]. done.
Qed.

Import Examples.

Lemma blog_located :
  locate (PageGetData blogServers "pages/" false) false blogRequest = Some blogLocated.
Proof. vm_compute. reflexivity. Qed.

Lemma Run_path_parameters_witness :
  pathParameters blogRequest "blog" blogPage = Accepted ["2023"; "01"; "post-1"]
  /\ Split blogRequest = ["blog"; "2023"; "01"; "post-1"].
Proof.
  destruct (Run_path_parameters blogServers (engineFor blogRequest) blogRequest false
              VNil "" "" "" "pages/" false blogLocated blogPage)
    as (rest & Hpage & Hsplit & _ & Haccepted & _).
  - reflexivity.
  - reflexivity.
  - exact blog_located.
  - reflexivity.
  - discriminate.
  - cbn [usedP blogLocated] in *. injection Hpage as <-.
    split; [by apply Haccepted | exact Hsplit].
Defined.

End PathParameters.

(** ** The identity resolver *)

Section Identities.

Import Core.
Local Open Scope nat_scope.

Lemma candidates_spec (def requested : string) :
  candidates def requested = candidatesSpec def requested.
Proof.
  unfold candidates, candidatesSpec.
  destruct requested as [|c r].
  - cbn. by rewrite bool_decide_eq_false_2 by (intros [? _]; done).
  - cbn [String.length Nat.ltb Nat.leb andb].
    destruct (String.eqb_spec (String c r) def) as [<-|Hne]; cbn [negb].
    + by rewrite bool_decide_eq_false_2 by (intros [_ ?]; done).
    + by rewrite bool_decide_eq_true_2 by done.
Qed.

Lemma candidates_length (def requested : string) :
  2 <= length (candidates def requested) <= 3.
Proof.
  rewrite candidates_spec. unfold candidatesSpec.
  case_bool_decide; cbn; lia.
Qed.

Lemma inner_loop (v : string) (languages : list string) (ids : list Identity) :
  fold_left (fun ids l => ids ++ [{| Version := v; Language := l |}]) languages ids
  = ids ++ (l ← languages; [{| Version := v; Language := l |}]).
Proof.
  revert ids. induction languages as [|l ls IH]; intros ids; cbn.
  - by rewrite app_nil_r.
  - rewrite IH. by rewrite <- app_assoc.
Qed.

Lemma identitiesOf_crossProduct (versions languages : list string) :
  identitiesOf versions languages = crossProduct versions languages.
Proof.
  unfold identitiesOf, crossProduct.
  enough (H : forall ids,
             fold_left
               (fun ids v =>
                  fold_left (fun ids l => ids ++ [{| Version := v; Language := l |}])
                    languages ids) versions ids
             = ids ++ (v ← versions; l ← languages; [{| Version := v; Language := l |}]))
    by apply (H []).
  induction versions as [|v vs IH]; intros ids; cbn.
  - by rewrite app_nil_r.
  - rewrite IH, inner_loop. by rewrite <- app_assoc.
Qed.

Lemma crossProduct_length (versions languages : list string) :
  length (crossProduct versions languages) = length versions * length languages.
Proof.
  unfold crossProduct. induction versions as [|v vs IH]; cbn; [done|].
  rewrite length_app, IH. f_equal. clear IH.
  induction languages as [|l ls IHl]; cbn; [done|]. by f_equal.
Qed.

(** What the loop over the identities asks and finds: it asks a prefix of
    the list, in order; every identity before the last asked gave nothing;
    the result is what the last asked gave. *)
Lemma firstData_spec {A} (getData : Identity -> option A) (identities : list Identity) :
  (fst (firstData getData identities) = None
   /\ snd (firstData getData identities) = identities
   /\ Forall (fun n => getData n = None) identities)
  \/ (exists pre n post d,
        identities = pre ++ n :: post
        /\ snd (firstData getData identities) = pre ++ [n]
        /\ Forall (fun n => getData n = None) pre
        /\ getData n = Some d
        /\ fst (firstData getData identities) = Some d).
Proof.
  induction identities as [|n ids IH]; cbn.
  - left. by repeat split.
  - destruct (getData n) as [d|] eqn:Hn.
    + right. by exists [], n, ids, d.
    + destruct (firstData getData ids) as [r asked]. cbn in *.
      destruct IH as [(-> & -> & Hall)|(pre & n' & post & d & -> & -> & Hall & Hn' & ->)].
      * left. split; [done|]. split; [done|]. by constructor.
      * right. exists (n :: pre), n', post, d.
        split; [done|]. split; [done|]. split; [by constructor|]. done.
Qed.

(** C4. The identities are the cross product of the version candidates and
    the language candidates, the version being the outer key: at most
    3 x 3 = 9 of them; the lookup of a resource asks them in that order
    and stops at the first one the store has. *)
Theorem identities_cross_product_first_hit (dv v dl l : string) :
  let versions := candidatesSpec dv v in
  let languages := candidatesSpec dl l in
  let identities := identitiesOf (candidates dv v) (candidates dl l) in
  identities = crossProduct versions languages
  /\ length identities = length versions * length languages
  /\ length identities <= 9
  /\ forall (A : Type) (getData : Identity -> option A),
       (fst (firstData getData identities) = None
        /\ snd (firstData getData identities) = identities
        /\ Forall (fun n => getData n = None) identities)
       \/ (exists pre n post d,
             identities = pre ++ n :: post
             /\ snd (firstData getData identities) = pre ++ [n]
             /\ Forall (fun n => getData n = None) pre
             /\ getData n = Some d
             /\ fst (firstData getData identities) = Some d).
Proof.
  intros versions languages identities.
  assert (Hids : identities = crossProduct versions languages).
  { unfold identities, versions, languages.
    by rewrite identitiesOf_crossProduct, !candidates_spec. }
  split; [done|]. split; [by rewrite Hids, crossProduct_length|].
  split.
  - rewrite Hids, crossProduct_length. unfold versions, languages.
    rewrite <- !candidates_spec.
    pose proof (candidates_length dv v). pose proof (candidates_length dl l). nia.
  - intros A getData. apply firstData_spec.
Qed.

(** The example of the specification: version [v2], language [fr], site
    defaults [""] and [en]. *)
Example identities_v2_fr :
  identitiesOf (candidates "" "v2") (candidates "en" "fr")
  = [ {| Version := ""; Language := "en" |}; {| Version := ""; Language := "fr" |};
      {| Version := ""; Language := "" |};
      {| Version := "v2"; Language := "en" |}; {| Version := "v2"; Language := "fr" |};
      {| Version := "v2"; Language := "" |};
      {| Version := ""; Language := "en" |}; {| Version := ""; Language := "fr" |};
      {| Version := ""; Language := "" |} ].
Proof. reflexivity. Qed.

End Identities.

(** ** The library engine *)

Section LibraryEngine.

Import Wajafapp.

Variable w : World.
Variable ctx : Context.
Variable template : option XTemplate.
Variable language : option XLanguage.
Variable e : value.

Lemma runLibrary_source_missing (lib : Plugin) :
  FileExists w (SourcePath lib) = false ->
  runLibrary w ctx template language e lib
  = if (Status lib =? 2)%Z
    then leave (Return (VString (Messages lib))) lib false []
    else leave (Return (VString (Messages lib +:+ sourceMissing lib)))
           (addMessage (sourceMissing lib) (setStatus 2 lib)) true [].
Proof.
  intros Hmissing. unfold runLibrary. rewrite Hmissing. cbn [negb].
  by destruct (Status lib =? 2)%Z.
Qed.

Lemma runLibrary_compile_fails (lib lib' : Plugin) (err : string) :
  FileExists w (SourcePath lib) = true ->
  mustcompile w lib = true ->
  PleaseCompile w (setStatus 0 lib) = (lib', Some err) ->
  runLibrary w ctx template language e lib
  = leave (Return (VString (Messages lib' +:+ couldNotCompile lib' err)))
      (addMessage (couldNotCompile lib' err) (setStatus 2 lib')) true
      ["ERROR: LIBRARY PAGE/BLOCK COULD NOT COMPILE " +:+ err].
Proof.
  intros Hsource Hstale Hcompile. unfold runLibrary.
  rewrite Hsource, Hstale, Hcompile. cbn [negb]. reflexivity.
Qed.

Lemma dispatch_library (lib : Plugin) (set : bool) (log : list string) :
  library (dispatch w ctx template language e lib set log) = lib
  /\ cacheSet (dispatch w ctx template language e lib set log)
     = if set then Some (SourcePath lib) else None.
Proof.
  unfold dispatch. repeat case_match; done.
Qed.

End LibraryEngine.

Section LibraryStore.

Import Wajafapp.

(** The store [Run] leaves, given what the invocation did. *)
Lemma Run_fetch (w : World) (p : LibraryEngineInstance) (ctx : Context)
    (template : option XTemplate) (language : option XLanguage) (e : value)
    (st : Store) (addr : nat) (lib : Plugin) (nxt : nat) :
  fetch p st = (addr, lib, nxt) ->
  Run w p ctx template language e st
  = (runLibrary w ctx template language e lib,
     {| heap := <[addr := library (runLibrary w ctx template language e lib)]> (heap st);
        LibraryCache :=
          match cacheSet (runLibrary w ctx template language e lib) with
          | Some key => <[key := addr]> (LibraryCache st)
          | None => LibraryCache st
          end;
        next := nxt |}).
Proof. intros Hfetch. unfold Run. by rewrite Hfetch. Qed.

Lemma fetch_new (p : LibraryEngineInstance) (st : Store) :
  LibraryCache st !! iSourcePath p = None ->
  fetch p st = (next st, newPlugin p, S (next st)).
Proof. intros Hmiss. unfold fetch. by rewrite Hmiss. Qed.

(** The next invocation finds the library as this one left it. *)
Lemma fetch_after (p : LibraryEngineInstance) (st : Store) (x : exit)
    (addr : nat) (lib : Plugin) (nxt : nat) :
  fetch p st = (addr, lib, nxt) ->
  (LibraryCache st !! iSourcePath p = None -> cacheSet x = Some (iSourcePath p)) ->
  fetch p {| heap := <[addr := library x]> (heap st);
             LibraryCache :=
               match cacheSet x with
               | Some key => <[key := addr]> (LibraryCache st)
               | None => LibraryCache st
               end;
             next := nxt |}
  = (addr, library x, nxt).
Proof.
  intros Hfetch Hset. unfold fetch in *. cbn [heap LibraryCache next].
  destruct (LibraryCache st !! iSourcePath p) as [a|] eqn:Hcache.
  - assert (a = addr /\ next st = nxt) as [-> <-].
    { destruct (heap st !! a); by injection Hfetch as -> _ ->. }
    assert (Hc : match cacheSet x with
                 | Some key => <[key := addr]> (LibraryCache st)
                 | None => LibraryCache st
                 end !! iSourcePath p = Some addr).
    { destruct (cacheSet x) as [key|]; [|done].
      destruct (decide (key = iSourcePath p)) as [->|Hne].
      - by rewrite lookup_insert_eq.
      - by rewrite lookup_insert_ne. }
    rewrite Hc. by rewrite lookup_insert_eq.
  - injection Hfetch as <- _ <-. rewrite (Hset eq_refl).
    by rewrite !lookup_insert_eq.
Qed.

(** C6. When the source file of a library is missing, the invocation sets
    the status to 2 (error) and appends the diagnostic only if the status was
    not 2 already, and returns the messages; a further invocation while the
    file is still missing returns the same messages and leaves the library
    as it is. *)
Theorem Run_source_missing_once (w w2 : World) (p : LibraryEngineInstance)
    (ctx ctx2 : Context) (template template2 : option XTemplate)
    (language language2 : option XLanguage) (e e2 : value) (st : Store) :
  FileExists w (SourcePath (fetched p st)) = false ->
  FileExists w2 (SourcePath (fetched p st)) = false ->
  let lib := fetched p st in
  let first := Run w p ctx template language e st in
  let second := Run w2 p ctx2 template2 language2 e2 (snd first) in
  Status (library (fst first)) = 2
  /\ Messages (library (fst first))
     = (if (Status lib =? 2)%Z then Messages lib
        else Messages lib +:+ sourceMissing lib)
  /\ returned (fst first) = Return (VString (Messages (library (fst first))))
  /\ fetched p (snd first) = library (fst first)
  /\ library (fst second) = library (fst first)
  /\ returned (fst second) = returned (fst first)
  /\ fetched p (snd second) = library (fst first).
Proof.
  intros Hmissing Hmissing2 lib first second.
  unfold fetched in *. subst lib first second.
  destruct (fetch p st) as [[addr lib] nxt] eqn:Hfetch. cbn [fst snd] in *.
  rewrite (Run_fetch _ _ _ _ _ _ _ _ _ _ Hfetch). cbn [fst snd].
  pose proof (runLibrary_source_missing w ctx template language e lib Hmissing) as Hrun.
  set (x := runLibrary w ctx template language e lib) in *.
  assert (Hset : LibraryCache st !! iSourcePath p = None ->
                 cacheSet x = Some (iSourcePath p)).
  { intros Hmiss. rewrite (fetch_new _ _ Hmiss) in Hfetch.
    injection Hfetch as <- <- <-. rewrite Hrun. reflexivity. }
  pose proof (fetch_after p st x addr lib nxt Hfetch Hset) as Hnext.
  assert (Hx : Status (library x) = 2
               /\ SourcePath (library x) = SourcePath lib
               /\ Messages (library x)
                  = (if (Status lib =? 2)%Z then Messages lib
                     else Messages lib +:+ sourceMissing lib)
               /\ returned x = Return (VString (Messages (library x)))).
  { rewrite Hrun. destruct (Z.eqb_spec (Status lib) 2) as [Heq|Hne]; by cbn. }
  destruct Hx as (Hstatus & Hpath & Hmsgs & Hret).
  set (st' := {| heap := <[addr := library x]> (heap st);
                 LibraryCache := match cacheSet x with
                                 | Some key => <[key := addr]> (LibraryCache st)
                                 | None => LibraryCache st
                                 end;
                 next := nxt |}) in *.
  rewrite (Run_fetch _ _ _ _ _ _ _ _ _ _ Hnext). cbn [fst snd].
  rewrite Hnext. cbn [fst snd].
  assert (Hrun2 : runLibrary w2 ctx2 template2 language2 e2 (library x)
                  = leave (Return (VString (Messages (library x)))) (library x) false []).
  { rewrite runLibrary_source_missing by (by rewrite Hpath).
    by rewrite Hstatus. }
  set (x2 := runLibrary w2 ctx2 template2 language2 e2 (library x)) in *.
  assert (Hlib2 : library x2 = library x) by (by rewrite Hrun2).
  assert (Hhit : LibraryCache st' !! iSourcePath p ≠ None).
  { intros Hmiss. unfold fetch in Hnext. rewrite Hmiss in Hnext.
    injection Hnext as _ _ Hn. cbn [next st'] in Hn. lia. }
  rewrite (fetch_after p st' x2 addr (library x) nxt Hnext ltac:(done)).
  cbn [fst snd]. rewrite Hlib2, Hrun2. cbn [leave returned]. by rewrite Hret.
Qed.

Lemma Run_source_missing_once_witness :
  let first := Run Examples.sourceDeletedWorld Examples.appInstance Examples.appContext
                 None None VNil Examples.loadedStore in
  let second := Run Examples.sourceDeletedWorld Examples.appInstance Examples.appContext
                  None None VNil (snd first) in
  Status (library (fst first)) = 2
  /\ Messages (library (fst first)) = sourceMissing (fetched Examples.appInstance Examples.loadedStore)
  /\ returned (fst second) = returned (fst first).
Proof.
  destruct (Run_source_missing_once Examples.sourceDeletedWorld Examples.sourceDeletedWorld
              Examples.appInstance Examples.appContext Examples.appContext
              None None None None VNil VNil Examples.loadedStore)
    as (Hstatus & Hmessages & _ & _ & _ & Hsame & _).
  - vm_compute. reflexivity.
  - vm_compute. reflexivity.
  - split; [exact Hstatus|]. split; [exact Hmessages | exact Hsame].
Defined.

(** C2, as the code has it.  When the library is stale and the compiler
    fails, the status becomes 2 (error), the diagnostic is appended to the
    messages the compiler left, the library is put in the cache, and the
    invocation returns the messages: it does so whether or not a plugin was
    loaded before, and never dispatches to it. *)
Theorem Run_compile_failure_returns_messages (w : World) (p : LibraryEngineInstance)
    (ctx : Context) (template : option XTemplate) (language : option XLanguage)
    (e : value) (st : Store) (lib' : Plugin) (err : string) :
  FileExists w (SourcePath (fetched p st)) = true ->
  mustcompile w (fetched p st) = true ->
  PleaseCompile w (setStatus 0 (fetched p st)) = (lib', Some err) ->
  let x := fst (Run w p ctx template language e st) in
  let st' := snd (Run w p ctx template language e st) in
  Status (library x) = 2
  /\ Messages (library x) = Messages lib' +:+ couldNotCompile lib' err
  /\ Lib (library x) = Lib lib'
  /\ returned x = Return (VString (Messages (library x)))
  /\ cacheSet x = Some (SourcePath lib')
  /\ cached st' (SourcePath lib') = Some (library x).
Proof.
  intros Hsource Hstale Hcompile x st'. subst x st'. unfold fetched in *.
  destruct (fetch p st) as [[addr lib] nxt] eqn:Hfetch. cbn [fst snd] in *.
  rewrite (Run_fetch _ _ _ _ _ _ _ _ _ _ Hfetch). cbn [fst snd].
  rewrite (runLibrary_compile_fails w ctx template language e lib lib' err)
    by assumption.
  cbn [leave library returned cacheSet addMessage setStatus Status Messages Lib SourcePath].
  do 5 (split; [reflexivity|]).
  unfold cached. cbn [heap LibraryCache]. rewrite lookup_insert_eq. cbn.
  by rewrite lookup_insert_eq.
Qed.

Lemma Run_compile_failure_returns_messages_witness :
  returned (fst (Run Examples.brokenSourceWorld Examples.appInstance Examples.appContext
                   None None VNil Examples.loadedStore))
  = Return (VString ("Error: pages/app/app.go could not compile:" +:+ nl +:+ "syntax error")).
Proof.
  destruct (Run_compile_failure_returns_messages Examples.brokenSourceWorld
              Examples.appInstance Examples.appContext None None VNil Examples.loadedStore
              (setStatus 0 (fetched Examples.appInstance Examples.loadedStore))
              "syntax error")
    as (_ & Hmessages & _ & Hreturned & _).
  - vm_compute. reflexivity.
  - vm_compute. reflexivity.
  - reflexivity.
  - rewrite Hreturned, Hmessages. vm_compute. reflexivity.
Defined.

(** The claim as the specification states it fails: the library [app] was
    loaded by an earlier request and its plugin answers [hello]; once the
    source no longer compiles, the invocation returns the compiler's
    diagnostic instead of dispatching to that plugin. *)
Lemma Run_compile_failure_counterexample :
  let lib := fetched Examples.appInstance Examples.loadedStore in
  let x := fst (Run Examples.brokenSourceWorld Examples.appInstance Examples.appContext
                  None None VNil Examples.loadedStore) in
  Status lib = 1
  /\ Lib lib = Some 7%nat
  /\ Lookup Examples.brokenSourceWorld 7%nat "Run" = Ok (StandardFunc Examples.hello)
  /\ returned (dispatch Examples.brokenSourceWorld Examples.appContext None None VNil lib false [])
     = Return (VString "hello")
  /\ returned x
     = Return (VString ("Error: pages/app/app.go could not compile:" +:+ nl +:+ "syntax error"))
  /\ returned x ≠ Return (VString "hello").
Proof. vm_compute. repeat split; discriminate. Qed.

(** ** The build identifier *)

(** C10, as the code has it.  [getBuildId] never reports a failure: when
    the command fails it returns a text that starts with "Error running go
    tool buildid:".  The loading step takes that text for the build
    identifier, as it would any other.  With no plugin registered under it,
    the plugin file is opened: when that and the lookup of [Run] succeed the
    plugin is registered under the error text, the status becomes 1 (ready)
    and the invocation goes on to the dispatch; when the file cannot be
    opened the status becomes 2 (error), nothing is registered and the
    messages are returned.  With a plugin registered under the text already,
    as an earlier failure with the same text leaves one, the plugin file is
    not opened: the registered plugin becomes the current one and the
    registry stays as it is. *)
Theorem getBuildId_failure_becomes_key (w : World) (ctx : Context)
    (template : option XTemplate) (language : option XLanguage) (e : value)
    (lib : Plugin) (log : list string) (out err : string) :
  buildidCommand w (PluginVPath lib) = (out, Some err) ->
  let key := getBuildId w (PluginVPath lib) in
  let x := load w ctx template language e lib log in
  key = "Error running go tool buildid:" +:+ nl +:+ err
  /\ GoStrings.HasPrefix key "Error running go tool buildid:" = true
  /\ (forall (h : Handle) (f : PageFunc),
        Libs lib !! key = None ->
        Open w (PluginVPath lib) = Ok h ->
        Lookup w h "Run" = Ok (StandardFunc f) ->
        Libs (library x) !! key = Some h
        /\ Lib (library x) = Some h
        /\ Status (library x) = 1
        /\ Messages (library x) = Messages lib
        /\ x = dispatch w ctx template language e
                 (setStatus 1 (setRun (Some f) (registerLib key h (setLib (Some h) lib))))
                 true log)
  /\ (forall operr : string,
        Libs lib !! key = None ->
        Open w (PluginVPath lib) = Err operr ->
        Status (library x) = 2
        /\ Lib (library x) = None
        /\ Libs (library x) = Libs lib
        /\ returned x
           = Return (VString (Messages lib +:+ "Error: " +:+ SourcePath lib
                              +:+ " could not load:" +:+ nl +:+ operr)))
  /\ (forall old : Handle,
        Libs lib !! key = Some old ->
        Lib (library x) = Some old
        /\ Libs (library x) = Libs lib
        /\ (forall f : PageFunc,
              Lookup w old "Run" = Ok (StandardFunc f) ->
              x = dispatch w ctx template language e
                    (setStatus 1 (setRun (Some f) (setLib (Some old) lib))) true log)).
Proof.
  intros Hcmd key x.
  assert (Hkey : key = "Error running go tool buildid:" +:+ nl +:+ err).
  { unfold key, getBuildId. by rewrite Hcmd. }
  split; [done|]. split; [rewrite Hkey; apply HasPrefix_append|].
  split; [|split].
  - intros h f Hnew Hopen Hlookup.
    assert (Hx : x = dispatch w ctx template language e
                       (setStatus 1 (setRun (Some f) (registerLib key h (setLib (Some h) lib))))
                       true log).
    { unfold x, load. fold key. rewrite Hnew, Hopen, Hlookup. reflexivity. }
    rewrite Hx.
    destruct (dispatch_library w ctx template language e
                (setStatus 1 (setRun (Some f) (registerLib key h (setLib (Some h) lib))))
                true log) as [-> _].
    cbn. by rewrite lookup_insert_eq.
  - intros operr Hnew Hopen. unfold x, load. fold key. rewrite Hnew, Hopen. done.
  - intros old Hold.
    assert (Hx : x = match Lookup w old "Run" with
                     | Err lerr =>
                         failWith ("ERROR: LIBRARY DOES NOT CONTAIN RUN FUNCTION " +:+ lerr)
                           ("Error: " +:+ SourcePath lib
                            +:+ " does not contain a Run function:" +:+ nl +:+ lerr)
                           (setLib (Some old) lib) log
                     | Ok OtherSymbol =>
                         failWith
                           "ERROR: LIBRARY DOES NOT CONTAIN A VALID STANDARD RUN FUNCTION <nil>"
                           ("Error: " +:+ SourcePath lib
                            +:+ " does not contain a valid standard Run function:" +:+ nl)
                           (setRun None (setLib (Some old) lib)) log
                     | Ok (StandardFunc f) =>
                         dispatch w ctx template language e
                           (setStatus 1 (setRun (Some f) (setLib (Some old) lib))) true log
                     end).
    { unfold x, load. fold key. by rewrite Hold. }
    split; [|split].
    + rewrite Hx. destruct (Lookup w old "Run") as [[f|]|lerr]; try done.
      by rewrite (proj1 (dispatch_library w ctx template language e _ true log)).
    + rewrite Hx. destruct (Lookup w old "Run") as [[f|]|lerr]; try done.
      by rewrite (proj1 (dispatch_library w ctx template language e _ true log)).
    + intros f Hlookup. by rewrite Hx, Hlookup.
Qed.

(** A fresh library is registered under the error text and answers; a
    library that holds a plugin under the same text keeps it. *)
Lemma getBuildId_failure_becomes_key_witness :
  let key := "Error running go tool buildid:" +:+ nl +:+ "exit status 1" in
  let x := load Examples.noBuildidWorld Examples.appContext None None VNil
             (newPlugin Examples.appInstance) [] in
  let y := load Examples.rebuiltNoBuildidWorld Examples.appContext None None VNil
             Examples.staleApp [] in
  (Libs (library x) !! key = Some 7%nat
   /\ Status (library x) = 1
   /\ returned x = Return (VString "hello"))
  /\ (Lib (library y) = Some 7%nat
      /\ Libs (library y) = Libs Examples.staleApp).
Proof.
  cbv zeta. split.
  - destruct (getBuildId_failure_becomes_key Examples.noBuildidWorld Examples.appContext
                None None VNil (newPlugin Examples.appInstance) [] "" "exit status 1"
                eq_refl)
      as (Hkey & _ & Hfresh & _ & _).
    destruct (Hfresh 7%nat Examples.hello eq_refl eq_refl eq_refl)
      as (Hlibs & _ & Hstatus & _ & Hx).
    rewrite <- Hkey. split; [exact Hlibs|]. split; [exact Hstatus|].
    rewrite Hx. vm_compute. reflexivity.
  - destruct (getBuildId_failure_becomes_key Examples.rebuiltNoBuildidWorld
                Examples.appContext None None VNil Examples.staleApp [] ""
                "exit status 1" eq_refl)
      as (_ & _ & _ & _ & Hstale).
    destruct (Hstale 7%nat eq_refl) as (Hlib & Hlibs & _).
    split; [exact Hlib|exact Hlibs].
Defined.

(** The claim as the specification states it fails.  The library [app] was
    loaded while the command failed and holds the handle 7 under the error
    text; the plugin has been built again, its file now opens as the handle
    8, and the command fails with the same text: the new file is not loaded,
    the handle 7 stays the one in use and answers.  And where the plugin
    file cannot be opened, the library enters the error state. *)
Lemma getBuildId_failure_counterexample :
  let key := "Error running go tool buildid:" +:+ nl +:+ "exit status 1" in
  let x := load Examples.rebuiltNoBuildidWorld Examples.appContext None None VNil
             Examples.staleApp [] in
  let y := load Examples.unopenableWorld Examples.appContext None None VNil
             (newPlugin Examples.appInstance) [] in
  (getBuildId Examples.rebuiltNoBuildidWorld (PluginVPath Examples.staleApp) = key
   /\ Status Examples.staleApp = 0
   /\ Open Examples.rebuiltNoBuildidWorld (PluginVPath Examples.staleApp) = Ok 8%nat
   /\ Lib (library x) = Some 7%nat
   /\ Libs (library x) !! key = Some 7%nat
   /\ returned x = Return (VString "hello")
   /\ returned x ≠ Return (VString "hello again"))
  /\ (getBuildId Examples.unopenableWorld (PluginVPath (newPlugin Examples.appInstance))
      = key
      /\ Status (library y) = 2
      /\ Libs (library y) !! key = None
      /\ returned y
         = Return (VString ("Error: pages/app/app.go could not load:" +:+ nl
                            +:+ "plugin was built with a different version"))).
Proof. vm_compute. repeat split; discriminate. Qed.

End LibraryStore.

(** ** The engine: entry point, recursion and composition *)

Section EngineRun.

Import GoStrings Core.
Local Open Scope nat_scope.

Variable sv : Servers.
Variable params : value.
Variables version language method : string.

Ltac level_cases :=
  unfold runLevel, render, loadLanguage, loadTemplate, assertString, assertBool,
    returned, launchError, launchRedirect, verifyRecursion;
  repeat case_match; intros; simplify_eq.

(** An inner call leaves the engine as it found it: it sends nothing, and
    in particular no redirect. *)
Lemma runLevel_inner (e : Engine) (page : string) (lv : level) (e' : Engine) :
  runLevel sv e page true params version language method = Done lv e' -> e' = e.
Proof. level_cases; done. Qed.

Lemma Run_inner (fuel : nat) (e : Engine) (page : string) (s : string) (e' : Engine) :
  Run fuel sv e page true params version language method = Done s e' -> e' = e.
Proof.
  revert e page s e'. induction fuel as [|fuel IH]; intros e page s e'; [done|].
  cbn [Run].
  destruct (runLevel sv e page true params version language method)
    as [[r|xdata pd] e1| |] eqn:Hlevel; try done.
  - apply runLevel_inner in Hlevel as ->. by intros [= _ ->].
  - apply runLevel_inner in Hlevel as ->.
    destruct (hasTemplate (Get pd "template")); [|by intros [= _ ->]].
    unfold assertString. destruct (Get pd "template") as [|parent| |]; try done.
    destruct (Run fuel sv e parent true params version language method)
      as [father e2| |] eqn:Hparent; try done.
    apply IH in Hparent as ->. by intros [= _ ->].
Qed.

(** The panics of [Run] are those of its type assertions, of the main
    context of an inner call and of the slice of the path: never an index. *)
Lemma runLevel_panic (e : Engine) (page : string) (innerpage : bool) (why : string) :
  runLevel sv e page innerpage params version language method = Panic why ->
  why ≠ indexOutOfRange.
Proof. level_cases; done. Qed.

Lemma Run_panic (fuel : nat) (e : Engine) (page : string) (innerpage : bool)
    (why : string) :
  Run fuel sv e page innerpage params version language method = Panic why ->
  why ≠ indexOutOfRange.
Proof.
  revert e page innerpage. induction fuel as [|fuel IH]; intros e page innerpage; [done|].
  cbn [Run].
  destruct (runLevel sv e page innerpage params version language method)
    as [[r|xdata pd] e1|why'|] eqn:Hlevel; try done.
  - destruct (hasTemplate (Get pd "template")); [|done].
    unfold assertString. destruct (Get pd "template") as [|parent| |];
      try (by intros [= <-]).
    destruct (Run fuel sv e1 parent true params version language method)
      as [father e2|why'|] eqn:Hparent; try done.
    intros [= <-]. by eapply IH.
  - intros [= <-]. by eapply runLevel_panic.
Qed.

Lemma Composed_nonempty (e : Engine) (page : string) (innerpage : bool)
    (bodies : list string) (e' : Engine) :
  Composed sv params version language method e page innerpage bodies e' ->
  bodies ≠ [].
Proof. by intros []. Qed.

Lemma compose_cons (xdata : string) (parents : list string) :
  parents ≠ [] -> compose (xdata :: parents) = Replace (compose parents) CONTENT xdata.
Proof. by destruct parents. Qed.

(** The composition as [N] replacements in a row, starting from the body of
    the outermost template. *)
Lemma compose_fold (bodies : list string) :
  bodies ≠ [] ->
  compose bodies
  = fold_left (fun father body => Replace father CONTENT body)
      (rev (removelast bodies)) (List.last bodies "").
Proof.
  induction bodies as [|x bodies IH]; [done|]. intros _.
  destruct bodies as [|y bodies]; [done|].
  rewrite compose_cons by done.
  change (removelast (x :: y :: bodies)) with (x :: removelast (y :: bodies)).
  change (List.last (x :: y :: bodies) "") with (List.last (y :: bodies) "").
  cbn [rev]. rewrite fold_left_app. cbn [fold_left]. by rewrite <- IH.
Qed.

Lemma Run_Composed (e : Engine) (page : string) (innerpage : bool)
    (bodies : list string) (e' : Engine) :
  Composed sv params version language method e page innerpage bodies e' ->
  forall fuel,
    (length bodies <= fuel ->
     Run fuel sv e page innerpage params version language method
     = Done (compose bodies) e')
    /\ (fuel < length bodies ->
        Run fuel sv e page innerpage params version language method = OutOfFuel).
Proof.
  induction 1 as [e page innerpage xdata pd e' Hlevel Hlast
                 |e page innerpage xdata pd e' parent bodies e'' Hlevel Hhas Hparent Hrest IH];
    intros fuel.
  - destruct fuel as [|fuel]; cbn [length]; (split; [intros ?|intros ?]); try lia; try done.
    cbn [Run]. by rewrite Hlevel, Hlast.
  - pose proof (Composed_nonempty _ _ _ _ _ Hrest) as Hne.
    destruct fuel as [|fuel]; cbn [length]; (split; [intros ?|intros ?]); try lia; try done.
    + cbn [Run]. rewrite Hlevel, Hhas, Hparent. cbn [assertString].
      rewrite (proj1 (IH fuel)) by lia. by rewrite compose_cons.
    + cbn [Run]. rewrite Hlevel, Hhas, Hparent. cbn [assertString].
      by rewrite (proj2 (IH fuel)) by lia.
Qed.

End EngineRun.

Section EngineClaims.

Import GoStrings Core.
Local Open Scope nat_scope.

Lemma servePage_panic (fuel : nat) (sv : Servers) (e : Engine) (page why : string) :
  servePage fuel sv e page = Panic why -> why ≠ indexOutOfRange.
Proof.
  unfold servePage.
  destruct (Run fuel sv e page false VNil "" "" "") as [code e'|why'|] eqn:Hrun; try done.
  intros [= <-]. by eapply Run_panic.
Qed.

(** C9. [Start] reads the first byte of the path before any test of its
    length: it panics on the index exactly when the path is empty.  The main
    page stands in for an empty path only after the leading slash has been
    removed and the trailing slash looked for: the path ["/"] is served as
    the main page. *)
Theorem Start_index_panic_iff_empty_path :
  (forall (fuel : nat) (sv : Servers) (e : Engine),
     Start fuel sv e = Panic indexOutOfRange <-> Page e = "")
  /\ (forall (fuel : nat) (sv : Servers) (e : Engine) (mainpage : string),
        Page e = "/" ->
        Get (HostConfig e) "mainpage" = VString mainpage ->
        Start fuel sv e = servePage fuel sv (countRequest e) mainpage).
Proof.
  split.
  - intros fuel sv e. unfold Start. cbn [Page countRequest].
    destruct (Page e) as [|c0 rest]; [done|]. split; [|done].
    cbv zeta.
    destruct (if Ascii.eqb c0 slash then rest else String c0 rest) as [|c s].
    + unfold assertString.
      destruct (Get (HostConfig (countRequest e)) "mainpage") as [|mainpage| |];
        try done.
      intros H. by apply servePage_panic in H.
    + destruct (Ascii.eqb (lastByte c s) slash); [done|].
      intros H. by apply servePage_panic in H.
  - intros fuel sv e mainpage Hpage Hmain. unfold Start. cbn [Page countRequest].
    rewrite Hpage. cbn. cbn in Hmain. by rewrite Hmain.
Qed.

Lemma Start_index_panic_iff_empty_path_witness :
  Start 1 Examples.blogServers (Examples.engineFor "") = Panic indexOutOfRange
  /\ Start 1 Examples.blogServers (Examples.engineFor "/")
     = servePage 1 Examples.blogServers (countRequest (Examples.engineFor "/")) "home".
Proof.
  destruct Start_index_panic_iff_empty_path as [Hpanic Hmain]. split.
  - by apply Hpanic.
  - by apply Hmain.
Defined.

(** C3, on the code.  [verifyRecursion] answers [false] whatever the page and
    the chain; a template that names itself as its parent is never stopped:
    the run does not end, whatever the fuel. *)
Theorem verifyRecursion_never_reports :
  (forall (e : Engine) (page : string), verifyRecursion e page = false)
  /\ (forall fuel : nat,
        Run fuel Examples.loopServers (Examples.engineFor "loop") "loop" false
          VNil "" "" "" = OutOfFuel).
Proof.
  split; [done|].
  assert (Hlevel : forall (e : Engine) (innerpage : bool),
            HostConfig e = Examples.hostConfig ->
            (innerpage = true -> MainContext e ≠ None) ->
            exists e',
              runLevel Examples.loopServers e "loop" innerpage VNil "" "" ""
              = Done (Body Examples.loopBody Examples.loopPage) e'
              /\ HostConfig e' = Examples.hostConfig
              /\ MainContext e' ≠ None).
  { intros [wr me pg cfg mc rc num qt] innerpage Hcfg Hmain. cbn in Hcfg, Hmain. subst cfg.
    destruct innerpage.
    - destruct mc as [main|]; [|by destruct Hmain].
      eexists. split; [vm_compute; reflexivity|]. split; [reflexivity|done].
    - eexists. split; [vm_compute; reflexivity|]. split; [reflexivity|done]. }
  enough (H : forall fuel (e : Engine) (innerpage : bool),
            HostConfig e = Examples.hostConfig ->
            (innerpage = true -> MainContext e ≠ None) ->
            Run fuel Examples.loopServers e "loop" innerpage VNil "" "" "" = OutOfFuel)
    by (intros fuel; by apply H).
  induction fuel as [|fuel IH]; intros e innerpage Hcfg Hmain; [done|].
  cbn [Run]. destruct (Hlevel e innerpage Hcfg Hmain) as (e' & -> & Hcfg' & Hmain').
  change (Get Examples.loopPage "template") with (VString "loop").
  change (hasTemplate (VString "loop")) with true. cbn [assertString].
  by rewrite IH.
Qed.

(** A body that is not seamless leaves the placeholder in what some parent
    gives. *)
Lemma seamless_exact (x : string) :
  seamless x CONTENT = false ->
  exists father, Contains (Replace father CONTENT x) CONTENT = true.
Proof.
  unfold seamless, CONTENT. intros H. apply andb_false_iff in H as [H|H].
  - by apply seam_at_start.
  - cbn [noEnd] in H.
    repeat (apply andb_false_iff in H as [H|H]); try done;
      apply negb_false_iff in H;
      match type of H with
      | comparable _ ?p = true =>
          let f := eval vm_compute in
                     (String.substring 0 (11 - String.length p) "[[CONTENT]]") in
          apply (seam_at_end "[[CONTENT]]" x f p);
            [reflexivity|done|intros rest; reflexivity|exact H]
      end.
Qed.

(** C7, as the code has it.  A page whose [template] names a parent is
    rendered by an inner call for the parent, and every [[[CONTENT]]] of what
    the parent gives is replaced by the body of the page; this goes on until
    a page names no parent.  With [N] parents there are exactly [N] inner
    calls and [N] replacements, the outermost template first.  An inner call
    admits the status [template] and [block] and sends nothing, so no
    redirect.  No placeholder is left, whatever the parents give, when the
    body of the page is seamless: it does not contain the placeholder, does
    not end with a proper beginning of it, does not start with a proper
    ending of it, and is not a piece from the inside of it (the empty body
    is one).  This is all the body can promise: a body that is not seamless
    leaves the placeholder in what some parent gives. *)
Theorem Run_composes_templates (sv : Servers) (params : value)
    (version language method : string) (e : Engine) (page : string)
    (innerpage : bool) (bodies : list string) (e' : Engine) :
  Composed sv params version language method e page innerpage bodies e' ->
  Run (S (length bodies - 1)) sv e page innerpage params version language method
  = Done (compose bodies) e'
  /\ (forall fuel, length bodies - 1 < fuel ->
        Run fuel sv e page innerpage params version language method
        = Done (compose bodies) e')
  /\ (forall fuel, fuel <= length bodies - 1 ->
        Run fuel sv e page innerpage params version language method = OutOfFuel)
  /\ compose bodies
     = fold_left (fun father body => Replace father CONTENT body)
         (rev (removelast bodies)) (List.last bodies "")
  /\ length (rev (removelast bodies)) = length bodies - 1
  /\ (forall fuel e1 parent s e2,
        Run fuel sv e1 parent true params version language method = Done s e2 ->
        e2 = e1)
  /\ (forall pd : XConfig,
        Get pd "status" = VString "template" \/ Get pd "status" = VString "block" ->
        isAvailable true pd = true /\ isAvailable false pd = false)
  /\ (forall xdata parents,
        bodies = xdata :: parents -> parents ≠ [] ->
        seamless xdata CONTENT = true ->
        Contains (compose bodies) CONTENT = false)
  /\ (forall xdata,
        seamless xdata CONTENT = false ->
        exists father, Contains (compose [xdata; father]) CONTENT = true).
Proof.
  intros Hchain.
  pose proof (Composed_nonempty _ _ _ _ _ _ _ _ _ _ Hchain) as Hne.
  assert (Hlen : 1 <= length bodies) by (destruct bodies; [done|cbn; lia]).
  split; [by apply (Run_Composed _ _ _ _ _ _ _ _ _ _ Hchain); lia|].
  split; [intros fuel Hfuel; by apply (Run_Composed _ _ _ _ _ _ _ _ _ _ Hchain); lia|].
  split; [intros fuel Hfuel; by apply (Run_Composed _ _ _ _ _ _ _ _ _ _ Hchain); lia|].
  split; [by apply compose_fold|].
  split; [rewrite length_rev, removelast_firstn_len, length_take; lia|].
  split; [intros fuel e1 parent s e2; apply Run_inner|].
  split; [intros pd [Hst|Hst]; unfold isAvailable; rewrite Hst; by vm_compute|].
  split.
  - intros xdata parents -> Hparents Hbody.
    rewrite compose_cons by done. unfold Replace.
    by apply replaceFrom_seamless.
  - intros xdata Hbody. destruct (seamless_exact xdata Hbody) as [father Hfather].
    by exists father.
Qed.

(** The page [contact] inside the template [layout]: one inner call, one
    replacement, and the plain text of the page leaves no placeholder. *)
Lemma Run_composes_templates_witness :
  exists e' : Engine,
    Run 2 Examples.contactServers (Examples.engineFor "contact") "contact" false
      VNil "" "" ""
    = Done "<html>Contact us</html>" e'
    /\ Contains "<html>Contact us</html>" CONTENT = false.
Proof.
  eassert (Hchain : Composed Examples.contactServers VNil "" "" ""
                      (Examples.engineFor "contact") "contact" false
                      ["Contact us"; "<html>[[CONTENT]]</html>"] _).
  { eapply Composed_parent with (pd := Examples.articlePage) (parent := "layout").
    - vm_compute. reflexivity.
    - reflexivity.
    - reflexivity.
    - eapply Composed_last with (pd := Examples.layoutPage).
      + vm_compute. reflexivity.
      + reflexivity. }
  destruct (Run_composes_templates _ _ _ _ _ _ _ _ _ _ Hchain)
    as (Hrun & _ & _ & _ & _ & _ & _ & Hclean & _).
  eexists. split; [exact Hrun|].
  exact (Hclean "Contact us" ["<html>[[CONTENT]]</html>"] eq_refl ltac:(done) eq_refl).
Defined.

(** The claim as the specification states it fails: the page [article] has
    one parent, [layout]; the single replacement puts the text of the
    article, which quotes the placeholder, in the layout, and the final
    output holds the placeholder. *)
Lemma Run_composes_templates_counterexample :
  exists e' : Engine,
    Run 2 Examples.articleServers (Examples.engineFor "article") "article" false
      VNil "" "" ""
    = Done "<html>write [[CONTENT]] here</html>" e'
    /\ Contains "<html>write [[CONTENT]] here</html>" CONTENT = true.
Proof. eexists. split; vm_compute; reflexivity. Qed.

End EngineClaims.

(* ===================================================================== *)
(** * Part III: further properties of the code *)
(* ===================================================================== *)

(** ** The page locator, continued *)

Section LocatorMore.

Import GoStrings Core.
Local Open Scope nat_scope.

Lemma isAvailable_inner (p : XConfig) :
  isAvailable false p = true -> isAvailable true p = true.
Proof.
  unfold isAvailable. repeat case_bool_decide; cbn; done.
Qed.

Lemma available_inner (getData : string -> option XConfig) (P : string) (d : XConfig) :
  available getData false P = Some d -> available getData true P = Some d.
Proof.
  unfold available. destruct (getData P) as [d'|]; [|done].
  destruct (isAvailable false d') eqn:Hd; [|done].
  by rewrite (isAvailable_inner _ Hd).
Qed.

Lemma locate_result (getData : string -> option XConfig) (innerpage : bool)
    (page : string) :
  exists m : nat,
    1 <= m <= length (Split page)
    /\ locate getData innerpage page
       = Some {| usedP := prefixPath page m;
                 pagedata := available getData innerpage (prefixPath page m);
                 lookups := descent (Split page) m (length (Split page)) |}
    /\ (forall k, m < k <= length (Split page) ->
          available getData innerpage (prefixPath page k) = None)
    /\ (available getData innerpage (prefixPath page m) = None -> m = 1).
Proof.
  destruct (locateLoop_segments getData innerpage (Split page) (Split_nonempty page)
              (Split_noSlash page) (length (Split page)) [] ltac:(lia))
    as (m & Hm & Hrun & Hlonger & Hnone).
  rewrite Join_Split in Hrun. by exists m.
Qed.

Lemma prefixPath_le (page : string) (m n : nat) :
  1 <= m <= n ->
  exists rest : string, prefixPath page n = prefixPath page m +:+ rest.
Proof.
  intros Hmn. unfold prefixPath.
  destruct (decide (length (Split page) <= m)) as [Hall|Hlt].
  { exists "". rewrite !take_ge by lia.
    induction (Join (Split page)) as [|c s IH]; [done|].
    rewrite append_String. by rewrite <- IH. }
  destruct (decide (m = n)) as [->|Hne].
  { exists "". induction (Join (take n (Split page))) as [|c s IH]; [done|].
    rewrite append_String. by rewrite <- IH. }
  assert (Hsplit : take n (Split page)
                   = take m (Split page) ++ drop m (take n (Split page))).
  { rewrite <- (take_drop m (take n (Split page))) at 1.
    by rewrite take_take, Nat.min_l by lia. }
  rewrite Hsplit. eexists. apply Join_app.
  - intros H. apply (f_equal length) in H. rewrite length_take in H. cbn in H. lia.
  - intros H. apply (f_equal length) in H.
    rewrite length_drop, length_take in H. cbn in H. lia.
Qed.

(** X1. What an inner call finds is at least as deep as what a top-level
    request finds on the same path: the page used by the top-level search is
    a prefix of the page used by the inner search, and an inner search finds
    a page whenever the top-level one does. *)
Theorem locate_inner_at_least_as_deep (getData : string -> option XConfig)
    (page : string) :
  exists (top inner : located) (rest : string),
    locate getData false page = Some top
    /\ locate getData true page = Some inner
    /\ usedP inner = usedP top +:+ rest
    /\ (is_Some (pagedata top) -> is_Some (pagedata inner)).
Proof.
  destruct (locate_result getData false page) as (mt & Hmt & Htop & _ & Hnone_t).
  destruct (locate_result getData true page)
    as (mi & Hmi & Hinner & Hlonger_i & Hnone_i).
  assert (Hle : mt <= mi).
  { destruct (available getData false (prefixPath page mt)) as [d|] eqn:Hav.
    - apply available_inner in Hav.
      destruct (decide (mt <= mi)) as [?|Hgt]; [done|].
      rewrite Hlonger_i in Hav by lia. done.
    - rewrite (Hnone_t eq_refl). lia. }
  destruct (prefixPath_le page mt mi ltac:(lia)) as (rest & Hrest).
  eexists _, _, rest. split; [exact Htop|]. split; [exact Hinner|].
  cbn [usedP pagedata]. split; [done|].
  intros [d Hd]. apply available_inner in Hd.
  destruct (decide (mt = mi)) as [<-|Hne]; [by rewrite Hd|].
  destruct (available getData true (prefixPath page mi)) as [d'|] eqn:Hav; [done|].
  specialize (Hnone_i eq_refl). lia.
Qed.

(** X2. The search is stable: the page it used is a prefix of the path
    asked, and asked for directly it is found at once, in a single lookup. *)
Theorem locate_stable (getData : string -> option XConfig) (innerpage : bool)
    (page : string) (loc : located) (d : XConfig) :
  locate getData innerpage page = Some loc ->
  pagedata loc = Some d ->
  HasPrefix page (usedP loc) = true
  /\ locate getData innerpage (usedP loc)
     = Some {| usedP := usedP loc; pagedata := Some d; lookups := [usedP loc] |}.
Proof.
  intros Hloc Hd.
  destruct (locate_result getData innerpage page) as (m & Hm & Hrun & _ & _).
  rewrite Hloc in Hrun. injection Hrun as ->. cbn [usedP pagedata] in *.
  split.
  - destruct (prefixPath_le page m (length (Split page)) ltac:(lia)) as (rest & Hrest).
    rewrite prefixPath_full in Hrest. rewrite Hrest at 1. apply HasPrefix_append.
  - unfold locate.
    pose proof (Split_length_pos (prefixPath page m)) as Hpos.
    destruct (length (Split (prefixPath page m))) as [|fuel]; [lia|].
    cbn [locateLoop]. by rewrite Hd.
Qed.

Lemma locate_stable_witness :
  locate (PageGetData Examples.blogServers "pages/" false) false "blog"
  = Some {| usedP := "blog"; pagedata := Some Examples.blogPage; lookups := ["blog"] |}.
Proof.
  exact (proj2 (locate_stable (PageGetData Examples.blogServers "pages/" false) false
                  Examples.blogRequest Examples.blogLocated Examples.blogPage
                  blog_located eq_refl)).
Defined.

End LocatorMore.

(** ** The identity resolver, continued *)

Section IdentitiesMore.

Import Core.

Lemma candidates_head (def requested : string) :
  exists rest, candidates def requested = def :: rest.
Proof.
  unfold candidates. destruct (_ && _); by eexists.
Qed.

Lemma candidates_wildcard (def requested : string) :
  "" ∈ candidates def requested.
Proof.
  unfold candidates. destruct (_ && _); set_solver.
Qed.

Lemma crossProduct_elem (versions languages : list string) (v l : string) :
  v ∈ versions -> l ∈ languages ->
  {| Version := v; Language := l |} ∈ crossProduct versions languages.
Proof.
  intros Hv Hl. unfold crossProduct.
  apply list_elem_of_bind. exists v. split; [|done].
  apply list_elem_of_bind. exists l. split; [|done]. set_solver.
Qed.

(** X3. The lookup of a resource prefers the site defaults and falls back to
    the wildcard: what the store has for the identity (default version,
    default language) is what the lookup returns, and when the store has a
    resource for the identity ("", "") the lookup never comes back empty. *)
Theorem firstData_default_then_wildcard {A : Type} (getData : Identity -> option A)
    (dv v dl l : string) (d : A) :
  let identities := identitiesOf (candidates dv v) (candidates dl l) in
  (getData {| Version := dv; Language := dl |} = Some d ->
   fst (firstData getData identities) = Some d)
  /\ (getData {| Version := ""; Language := "" |} = Some d ->
      is_Some (fst (firstData getData identities))).
Proof.
  intros identities. split.
  - intros Hd. unfold identities. rewrite identitiesOf_crossProduct.
    destruct (candidates_head dv v) as (vs & ->).
    destruct (candidates_head dl l) as (ls & ->).
    cbn. by rewrite Hd.
  - intros Hd.
    destruct (firstData_spec getData identities)
      as [(_ & _ & Hall)|(pre & n & post & d' & _ & _ & _ & _ & ->)]; [|done].
    rewrite Forall_forall in Hall.
    rewrite (Hall {| Version := ""; Language := "" |}) in Hd; [done|].
    unfold identities. rewrite identitiesOf_crossProduct.
    apply crossProduct_elem; apply candidates_wildcard.
Qed.

Lemma firstData_default_then_wildcard_witness :
  is_Some (fst (firstData (InstanceGetData Examples.blogServers "pages/" "blog")
                  (identitiesOf (candidates "" "v2") (candidates "en" "fr")))).
Proof.
  exact (proj2 (firstData_default_then_wildcard
                  (InstanceGetData Examples.blogServers "pages/" "blog")
                  "" "v2" "en" "fr" ∅) eq_refl).
Defined.

End IdentitiesMore.

(** ** The engine, continued *)

Ltac engine_cases :=
  unfold Core.runLevel, Core.render, Core.loadLanguage, Core.loadTemplate,
    Core.assertString, Core.assertBool, Core.returned, Core.launchError,
    Core.launchRedirect, Core.verifyRecursion;
  repeat case_match; intros; simplify_eq.

Section EngineMore.

Import GoStrings Core CoreMore.
Local Open Scope nat_scope.

Variable sv : Servers.
Variable params : value.
Variables version language method : string.

(** How a top-level level ends: with one answer sent and the empty string
    returned, or with a body, nothing sent, and the main context set to the
    context of the page. *)
Lemma runLevel_top (e : Engine) (page : string) (lv : level) (e' : Engine) :
  runLevel sv e page false params version language method = Done lv e' ->
  sameRequest e e'
  /\ ((lv = Returned ""
       /\ exists ev, writer e' = writer e ++ [ev] /\ errorOrRedirect ev)
      \/ (exists xdata pd ctx,
            lv = Body xdata pd /\ writer e' = writer e
            /\ MainContext e' = Some ctx
            /\ MainPage ctx = page /\ LocalPage ctx = page
            /\ MainPageUsed ctx = LocalPageUsed ctx
            /\ MainURLparams ctx = LocalURLparams ctx
            /\ MainPageparams ctx = pd /\ LocalPageparams ctx = pd
            /\ Sysparams ctx = HostConfig e)).
Proof.
  unfold sameRequest, errorOrRedirect.
  engine_cases; (split; [done|]);
    first [ left; split; [reflexivity|]; eexists; split; [reflexivity|];
            first [left; by eexists | right; by eexists]
          | right; eexists _, _, _; repeat split; reflexivity ].
Qed.

Lemma sameRequest_refl (e : Engine) : sameRequest e e.
Proof. by repeat split. Qed.

Lemma sameRequest_trans (e1 e2 e3 : Engine) :
  sameRequest e1 e2 -> sameRequest e2 e3 -> sameRequest e1 e3.
Proof.
  unfold sameRequest. intros (?&?&?&?&?&?) (?&?&?&?&?&?).
  repeat split; congruence.
Qed.

(** The end of [Run] once its level gave a body: the parent, if any, is run
    as an inner call, which leaves the engine as it is. *)
Lemma Run_after_body (fuel : nat) (e e1 : Engine) (page : string) (innerpage : bool)
    (xdata : string) (pd : XConfig) (s : string) (e' : Engine) :
  runLevel sv e page innerpage params version language method = Done (Body xdata pd) e1 ->
  Run (S fuel) sv e page innerpage params version language method = Done s e' ->
  e' = e1.
Proof.
  intros Hlevel. cbn [Run]. rewrite Hlevel.
  destruct (hasTemplate (Get pd "template")); [|by intros [= _ ->]].
  unfold assertString. destruct (Get pd "template") as [|parent| |]; try done.
  destruct (Run fuel sv e1 parent true params version language method)
    as [father e2| |] eqn:Hparent; try done.
  apply Run_inner in Hparent as ->. by intros [= _ ->].
Qed.

Lemma runLevel_body_engine (e : Engine) (page : string) (xdata : string)
    (pd : XConfig) (e' : Engine) :
  runLevel sv e page false params version language method = Done (Body xdata pd) e' ->
  HostConfig e' = HostConfig e /\ writer e' = writer e.
Proof.
  intros Hlevel.
  destruct (runLevel_top _ _ _ _ Hlevel)
    as [Hsame [[? _]|(? & ? & ? & _ & Hw & _)]]; [done|].
  split; [apply Hsame|done].
Qed.

(** X4. A top-level run never writes the page itself and answers at most
    once: when it ends it has either sent nothing, or sent exactly one
    answer, the 404 of an error or the 301 of a redirect, and then it returns
    the empty string.  It leaves the request and the site as they are. *)
Theorem Run_top_level_answers (fuel : nat) (e : Engine) (page : string)
    (s : string) (e' : Engine) :
  Run fuel sv e page false params version language method = Done s e' ->
  sameRequest e e'
  /\ (writer e' = writer e
      \/ (s = "" /\ exists ev, writer e' = writer e ++ [ev] /\ errorOrRedirect ev)).
Proof.
  destruct fuel as [|fuel]; [done|]. intros Hrun.
  destruct (runLevel sv e page false params version language method)
    as [lv e1| |] eqn:Hlevel; try (cbn [Run] in Hrun; by rewrite Hlevel in Hrun).
  destruct (runLevel_top _ _ _ _ Hlevel)
    as [Hsame [[-> Hev]|(xdata & pd & ctx & -> & Hw & _)]].
  - cbn [Run] in Hrun. rewrite Hlevel in Hrun. injection Hrun as <- <-.
    split; [done|]. by right.
  - rewrite (Run_after_body _ _ _ _ _ _ _ _ _ Hlevel Hrun). split; [done|]. by left.
Qed.

(** X5. A top-level run that renders leaves the main context of the engine
    on the page requested, with the page found and its parameters, whatever
    parent templates were run after it. *)
Theorem Run_keeps_main_context (fuel : nat) (e : Engine) (page : string)
    (s : string) (e' : Engine) :
  Run fuel sv e page false params version language method = Done s e' ->
  writer e' = writer e ->
  exists ctx : Context,
    MainContext e' = Some ctx
    /\ MainPage ctx = page /\ LocalPage ctx = page
    /\ MainPageUsed ctx = LocalPageUsed ctx
    /\ MainURLparams ctx = LocalURLparams ctx
    /\ MainPageparams ctx = LocalPageparams ctx
    /\ Sysparams ctx = HostConfig e.
Proof.
  destruct fuel as [|fuel]; [done|]. intros Hrun Hwriter.
  destruct (runLevel sv e page false params version language method)
    as [lv e1| |] eqn:Hlevel; try (cbn [Run] in Hrun; by rewrite Hlevel in Hrun).
  destruct (runLevel_top _ _ _ _ Hlevel)
    as [_ [[-> (ev & Hev & _)]|(xdata & pd & ctx & -> & _ & Hctx & H)]].
  - cbn [Run] in Hrun. rewrite Hlevel in Hrun. injection Hrun as <- <-.
    rewrite Hev in Hwriter. apply (f_equal length) in Hwriter.
    rewrite length_app in Hwriter. cbn in Hwriter. lia.
  - rewrite (Run_after_body _ _ _ _ _ _ _ _ _ Hlevel Hrun).
    exists ctx. split; [done|]. destruct H as (?&?&?&?&?&?&?).
    repeat split; congruence.
Qed.

Lemma pathParameters_in_range (getData : string -> option XConfig) (innerpage : bool)
    (page : string) (loc : located) (pd : XConfig) :
  locate getData innerpage page = Some loc ->
  pathParameters page (usedP loc) pd ≠ SliceOutOfRange.
Proof.
  intros Hloc. destruct (decide (usedP loc = page)) as [Heq|Hne].
  - unfold pathParameters. rewrite Heq, String.eqb_refl. done.
  - destruct (locate_remainder _ _ _ _ Hloc Hne) as (rest & Hpage & _).
    rewrite Hpage at 1. rewrite pathParameters_remainder. by case_bool_decide.
Qed.

Lemma runLevel_panic_conversion (e : Engine) (page : string) (innerpage : bool)
    (why : string) :
  runLevel sv e page innerpage params version language method = Panic why ->
  (innerpage = true -> MainContext e ≠ None) ->
  why = "interface conversion: interface {} is not string"
  \/ why = "interface conversion: interface {} is not bool".
Proof.
  intros Hpanic Hmain. revert Hpanic.
  engine_cases; try (by left); try (by right).
  - exfalso. by eapply pathParameters_in_range.
  - exfalso. by apply Hmain.
Qed.

(** X6. The only panics of a top-level run are failed type assertions on the
    configuration or on a page: an inner call always finds the main context,
    and the slice that gives the path parameters is always within the path. *)
Theorem Run_panics_only_on_conversion (fuel : nat) (e : Engine) (page : string)
    (why : string) :
  Run fuel sv e page false params version language method = Panic why ->
  why = "interface conversion: interface {} is not string"
  \/ why = "interface conversion: interface {} is not bool".
Proof.
  enough (H : forall fuel e page innerpage,
            (innerpage = true -> MainContext e ≠ None) ->
            Run fuel sv e page innerpage params version language method = Panic why ->
            why = "interface conversion: interface {} is not string"
            \/ why = "interface conversion: interface {} is not bool")
    by (by apply H).
  clear fuel e page.
  induction fuel as [|fuel IH]; intros e page innerpage Hmain; [done|].
  cbn [Run].
  destruct (runLevel sv e page innerpage params version language method)
    as [[r|xdata pd] e1|why'|] eqn:Hlevel; try done.
  - destruct (hasTemplate (Get pd "template")); [|done].
    unfold assertString.
    destruct (Get pd "template") as [|parent| |]; try (intros [= <-]; by left).
    destruct (Run fuel sv e1 parent true params version language method)
      as [father e2|why'|] eqn:Hparent; try done.
    intros [= <-]. apply (IH e1 parent true); [|done]. intros _.
    destruct innerpage.
    + apply runLevel_inner in Hlevel as ->. by apply Hmain.
    + destruct (runLevel_top _ _ _ _ Hlevel)
        as [_ [[? _]|(? & ? & ctx & _ & _ & -> & _)]]; done.
  - intros [= <-]. by eapply runLevel_panic_conversion.
Qed.

(** X7. A page of a type the engine does not know is not refused.  Once
    the page is found with the parameters it accepts and an instance, and its
    type is none of [simple], [library], [template], [language] (nor
    [redirect] at the top level), the level is rendered: its body is a fixed
    text and nothing is sent.  This is what an inner call gives for a page of
    type [redirect], which only a top-level request follows. *)
Theorem runLevel_unknown_type (e : Engine) (page : string) (innerpage : bool)
    (pagesdir : string) (accept : bool) (loc : located) (pd : XConfig)
    (xParams : list string) (defversion deflanguage : string)
    (instancedata : XConfig) :
  Get (HostConfig e) "pagesdir" = VString pagesdir ->
  Get (HostConfig e) "acceptpathparameters" = VBool accept ->
  Get (HostConfig e) "version" = VString defversion ->
  Get (HostConfig e) "language" = VString deflanguage ->
  locate (PageGetData sv pagesdir accept) innerpage page = Some loc ->
  pagedata loc = Some pd ->
  pathParameters page (usedP loc) pd = Accepted xParams ->
  fst (firstData (InstanceGetData sv pagesdir (usedP loc))
         (identitiesOf (candidates defversion version) (candidates deflanguage language)))
  = Some instancedata ->
  (innerpage = true -> is_Some (MainContext e)) ->
  (innerpage = false -> Get pd "type" ≠ VString "redirect") ->
  Get pd "type" ≠ VString "simple" ->
  Get pd "type" ≠ VString "library" ->
  Get pd "type" ≠ VString "template" ->
  Get pd "type" ≠ VString "language" ->
  exists e' : Engine,
    runLevel sv e page innerpage params version language method
    = Done (Body unknownType pd) e'
    /\ writer e' = writer e
    /\ (innerpage = true -> e' = e).
Proof.
  intros Hdir Hacc Hversion Hlanguage Hloc Hpd Hparams Hinstance Hmain Hredirect
    Hsimple Hlibrary Htemplate Hlang.
  unfold runLevel. rewrite Hdir, Hacc. cbn [assertString assertBool].
  rewrite Hloc, Hpd, Hparams.
  assert (Hfollow : negb innerpage
                    && bool_decide (Get pd "type" = VString "redirect") = false).
  { destruct innerpage; [done|]. cbn. by apply bool_decide_eq_false_2, Hredirect. }
  rewrite Hfollow, Hversion, Hlanguage. cbn [assertString]. rewrite Hinstance.
  unfold verifyRecursion, render.
  rewrite (bool_decide_eq_false_2 _ Hsimple), (bool_decide_eq_false_2 _ Hlibrary),
    (bool_decide_eq_false_2 _ Htemplate), (bool_decide_eq_false_2 _ Hlang).
  destruct innerpage.
  - destruct (Hmain eq_refl) as [main ->]. by eexists.
  - eexists. split; [reflexivity|]. by split.
Qed.

End EngineMore.

Section EngineMoreExamples.

Import GoStrings Core CoreMore Examples MoreExamples.

Lemma blog_run :
  Run 1 blogServers (engineFor blogRequest) blogRequest false VNil "" "" ""
  = Done "2023/01/post-1" blogServed.
Proof. vm_compute. reflexivity. Qed.

Lemma Run_top_level_answers_witness :
  sameRequest (engineFor blogRequest) blogServed
  /\ (writer blogServed = writer (engineFor blogRequest)
      \/ ("2023/01/post-1" = ""
          /\ exists ev, writer blogServed = writer (engineFor blogRequest) ++ [ev]
                        /\ errorOrRedirect ev)).
Proof.
  exact (Run_top_level_answers blogServers VNil "" "" "" 1 (engineFor blogRequest)
           blogRequest "2023/01/post-1" blogServed blog_run).
Defined.

Lemma Run_keeps_main_context_witness :
  exists ctx : Context,
    MainContext blogServed = Some ctx
    /\ MainPage ctx = blogRequest /\ LocalPage ctx = blogRequest
    /\ MainPageUsed ctx = LocalPageUsed ctx
    /\ MainURLparams ctx = LocalURLparams ctx
    /\ MainPageparams ctx = LocalPageparams ctx
    /\ Sysparams ctx = HostConfig (engineFor blogRequest).
Proof.
  exact (Run_keeps_main_context blogServers VNil "" "" "" 1 (engineFor blogRequest)
           blogRequest "2023/01/post-1" blogServed blog_run eq_refl).
Defined.

Lemma unconfigured_run :
  Run 1 blogServers unconfiguredEngine "blog" false VNil "" "" ""
  = Panic "interface conversion: interface {} is not string".
Proof. vm_compute. reflexivity. Qed.

Lemma Run_panics_only_on_conversion_witness :
  "interface conversion: interface {} is not string"
  = "interface conversion: interface {} is not string"
  \/ "interface conversion: interface {} is not string"
     = "interface conversion: interface {} is not bool".
Proof.
  exact (Run_panics_only_on_conversion blogServers VNil "" "" "" 1 unconfiguredEngine
           "blog" _ unconfigured_run).
Defined.

Lemma runLevel_unknown_type_witness :
  exists e' : Engine,
    runLevel redirectServers blogServed "old" true VNil "" "" ""
    = Done (Body unknownType oldPage) e'
    /\ writer e' = writer blogServed
    /\ (true = true -> e' = blogServed).
Proof.
  apply (runLevel_unknown_type redirectServers VNil "" "" "" blogServed "old" true
           "pages/" false
           {| usedP := "old"; pagedata := Some oldPage; lookups := ["old"] |}
           oldPage [] "" "en" ∅);
    first [ reflexivity | discriminate | by eexists ].
Defined.

End EngineMoreExamples.

(** ** The entry point, continued *)

Section StartMore.

Import GoStrings Core CoreMore Examples MoreExamples.
Local Open Scope nat_scope.

Lemma lastByte_append_slash (q : string) (c : ascii) (s : string) :
  String c s = q +:+ String slash "" ->
  lastByte c s = slash /\ withoutLastByte c s = q.
Proof.
  revert c s. induction q as [|a q IH]; intros c s Heq.
  - by injection Heq as -> ->.
  - rewrite append_String in Heq. injection Heq as -> ->.
    destruct (q +:+ String slash "") as [|c' s'] eqn:Hq.
    { by destruct q. }
    destruct (IH c' s' eq_refl) as [Hlast Hfront]. cbn. by rewrite Hlast, Hfront.
Qed.

(** X8. A path that still ends with a slash once its leading slash is
    removed is not looked up, and no other path is treated so: [Start] counts
    the request, the counter wrapping around as an [int] does, and answers
    with a 301 to [q] and nothing else exactly when the path without its
    leading slash is [q] followed by a slash.  The path ["/"] is not such a
    path: it is served as the main page. *)
Theorem Start_trailing_slash (fuel : nat) (sv : Servers) (e : Engine) (q : string) :
  (Start fuel sv e = Done tt (send (HttpRedirect q 301) (countRequest e))
   <-> stripped (Page e) = Some (q +:+ String slash ""))
  /\ QT (countRequest e) = GoInt.wrap (QT e + 1)
  /\ (- 2 ^ 63 <= QT (countRequest e) < 2 ^ 63)%Z
  /\ (Page e = String slash "" ->
      forall mainpage : string,
        Get (HostConfig e) "mainpage" = VString mainpage ->
        Start fuel sv e = servePage fuel sv (countRequest e) mainpage).
Proof.
  split; [|split; [done|split]].
  - unfold Start, stripped. cbn [Page countRequest].
    destruct (Page e) as [|c0 rest]; [done|]. cbv zeta.
    destruct (if Ascii.eqb c0 slash then rest else String c0 rest) as [|c s] eqn:Hstrip.
    + split.
      * unfold assertString, servePage.
        destruct (Get _ "mainpage") as [|mainpage| |]; try done.
        destruct (Run fuel sv _ mainpage false VNil "" "" "") as [code e'| |]; try done.
        intros [= Hwriter _ _ _ _ _ _ _]. by apply app_inj_tail in Hwriter as [_ ?].
      * intros [= Hq]. by destruct q.
    + destruct (Ascii.eqb (lastByte c s) slash) eqn:Hlast.
      * apply Ascii.eqb_eq in Hlast. split.
        -- intros [= Hwriter]. apply app_inj_tail in Hwriter as [_ [= <-]].
           f_equal. clear Hstrip. revert c Hlast.
           induction s as [|c' s IH]; intros c Hlast; [by cbn in Hlast; subst|].
           cbn [withoutLastByte]. rewrite append_String. f_equal. by apply IH.
        -- intros [= Hq]. destruct (lastByte_append_slash q c s Hq) as [_ ->]. done.
      * split.
        -- unfold servePage.
           destruct (Run fuel sv _ (String c s) false VNil "" "" "") as [code e'| |];
             try done.
           intros [= Hwriter _ _ _ _ _ _ _]. by apply app_inj_tail in Hwriter as [_ ?].
        -- intros [= Hq]. destruct (lastByte_append_slash q c s Hq) as [Hslash _].
           rewrite Hslash, Ascii.eqb_refl in Hlast. done.
  - unfold GoInt.wrap. cbn [QT countRequest]. unfold GoInt.wrap.
    pose proof (Z.mod_pos_bound (QT e + 1 + 2 ^ 63) (2 ^ 64) ltac:(done)). lia.
  - intros Hpage mainpage Hmain. unfold Start. cbn [Page countRequest].
    rewrite Hpage. cbn. cbn in Hmain. by rewrite Hmain.
Qed.

Lemma Start_trailing_slash_witness :
  Start 0 blogServers (engineFor "/blog/")
  = Done tt (send (HttpRedirect "blog" 301) (countRequest (engineFor "/blog/")))
  /\ Start 1 blogServers (engineFor "/")
     ≠ Done tt (send (HttpRedirect "" 301) (countRequest (engineFor "/")))
  /\ QT (countRequest (engineFor "/blog/")) = 1%Z.
Proof.
  split; [|split].
  - apply (Start_trailing_slash 0 blogServers (engineFor "/blog/") "blog"). reflexivity.
  - intros H.
    apply (Start_trailing_slash 1 blogServers (engineFor "/") "") in H. discriminate H.
  - reflexivity.
Defined.

(** X9. A request for a path on which the site has no page is answered by
    the 404 of [Run] and then by an empty body: [Start] writes what [Run]
    returned, which is the empty string.  The message names the path as
    [Start] looks it up, without its leading slash. *)
Theorem Start_not_found (fuel : nat) (sv : Servers) (e : Engine)
    (c : ascii) (s : string) (pagesdir : string) (accept : bool) (loc : located) :
  stripped (Page e) = Some (String c s) ->
  Ascii.eqb (lastByte c s) slash = false ->
  Get (HostConfig e) "pagesdir" = VString pagesdir ->
  Get (HostConfig e) "acceptpathparameters" = VBool accept ->
  locate (PageGetData sv pagesdir accept) false (String c s) = Some loc ->
  pagedata loc = None ->
  Start (S fuel) sv e
  = Done tt
      (send (HttpWrite "")
         (send (HttpError ("Error 404: no page found .page for " +:+ String c s) 404)
            (countRequest e))).
Proof.
  intros Hpage Hlast Hdir Hacc Hloc Hpd.
  unfold Start, stripped in *. cbn [Page countRequest].
  destruct (Page e) as [|c0 rest]; [done|]. injection Hpage as Hpage. cbv zeta.
  rewrite Hpage, Hlast. unfold servePage.
  rewrite (Run_not_found sv _ (String c s) false VNil "" "" "" pagesdir accept loc fuel);
    try done.
Qed.

Lemma Start_not_found_witness :
  Start 1 blogServers (engineFor "/shop/cart")
  = Done tt
      (send (HttpWrite "")
         (send (HttpError "Error 404: no page found .page for shop/cart" 404)
            (countRequest (engineFor "/shop/cart")))).
Proof.
  apply (Start_not_found 0 blogServers (engineFor "/shop/cart") "s" "hop/cart"
           "pages/" false
           {| usedP := "shop"; pagedata := None; lookups := ["shop/cart"; "shop"] |});
    first [exact locate_nothing | reflexivity].
Defined.

End StartMore.

(** ** Composition, continued *)

Section ComposeMore.

Import GoStrings Core CoreMore Examples MoreExamples.
Local Open Scope nat_scope.

Lemma Replace_absent (s old new : string) :
  Contains s old = false -> Replace s old new = s.
Proof.
  unfold Replace. induction s as [|c s IH]; [done|].
  cbn [Contains replaceFrom]. intros Hno. apply orb_false_elim in Hno as [-> Hrest].
  by rewrite IH.
Qed.

(** X10. A parent template that gives no placeholder swallows the page: the
    result of the run is what the parents give, and the body of the page is
    not in it. *)
Theorem Run_parent_without_placeholder (sv : Servers) (params : value)
    (version language method : string) (e : Engine) (page : string)
    (innerpage : bool) (xdata : string) (parents : list string) (e' : Engine) :
  Composed sv params version language method e page innerpage (xdata :: parents) e' ->
  parents ≠ [] ->
  Contains (compose parents) CONTENT = false ->
  Run (S (length parents)) sv e page innerpage params version language method
  = Done (compose parents) e'.
Proof.
  intros Hchain Hparents Hno.
  rewrite (proj1 (Run_Composed _ _ _ _ _ _ _ _ _ _ Hchain (S (length parents))))
    by (cbn; lia).
  rewrite compose_cons by done. by rewrite Replace_absent.
Qed.

Lemma Run_parent_without_placeholder_witness :
  exists e' : Engine,
    Run 2 noteServers (engineFor "note") "note" false VNil "" "" ""
    = Done "<p>frame</p>" e'.
Proof.
  eexists.
  refine (Run_parent_without_placeholder noteServers VNil "" "" ""
            (engineFor "note") "note" false "remember the milk" ["<p>frame</p>"] _
            _ ltac:(discriminate) eq_refl).
  eapply Composed_parent with (pd := notePage) (parent := "frame").
  - vm_compute. reflexivity.
  - reflexivity.
  - reflexivity.
  - eapply Composed_last with (pd := framePage).
    + vm_compute. reflexivity.
    + reflexivity.
Defined.

(** X29. A parent template that does not exist is not an error of the
    request: the inner call gives the text of the 404 error as what the
    parent prints, the body of the page is spliced into that text, and
    nothing is sent, so the answer keeps its status. *)
Theorem Run_missing_parent_template (sv : Servers) (params : value)
    (version language method : string) (e e1 : Engine) (page : string)
    (xdata : string) (pd : XConfig) (parent pagesdir : string) (accept : bool)
    (loc : located) (fuel : nat) :
  runLevel sv e page false params version language method = Done (Body xdata pd) e1 ->
  Get pd "template" = VString parent ->
  parent ≠ "" ->
  Get (HostConfig e) "pagesdir" = VString pagesdir ->
  Get (HostConfig e) "acceptpathparameters" = VBool accept ->
  locate (PageGetData sv pagesdir accept) true parent = Some loc ->
  pagedata loc = None ->
  Run (S (S fuel)) sv e page false params version language method
  = Done (Replace ("Error 404: no page found .page for " +:+ parent) CONTENT xdata) e1
  /\ writer e1 = writer e.
Proof.
  intros Hlevel Htemplate Hparent Hdir Hacc Hloc Hpd.
  destruct (runLevel_body_engine sv params version language method e page xdata pd e1
              Hlevel) as (Hconfig & Hwriter).
  split; [|done].
  change (Run (S (S fuel)) sv e page false params version language method)
    with (match runLevel sv e page false params version language method with
          | Done (Returned s) e' => Done s e'
          | Done (Body xdata pd) e' =>
              if hasTemplate (Get pd "template") then
                assertString (Get pd "template") (fun parent =>
                  match Run (S fuel) sv e' parent true params version language method with
                  | Done fathertemplate e'' =>
                      Done (Replace fathertemplate CONTENT xdata) e''
                  | Panic why => Panic why
                  | OutOfFuel => OutOfFuel
                  end)
              else Done xdata e'
          | Panic why => Panic why
          | OutOfFuel => OutOfFuel
          end).
  rewrite Hlevel, Htemplate.
  assert (Hhas : hasTemplate (VString parent) = true).
  { unfold hasTemplate. rewrite bool_decide_eq_false_2 by done.
    rewrite bool_decide_eq_false_2; [done|]. by intros [= ?]. }
  rewrite Hhas. cbn [assertString].
  rewrite (Run_not_found sv e1 parent true params version language method pagesdir
             accept loc fuel); [done| | |done|done]; by rewrite Hconfig.
Qed.

Lemma story_level :
  runLevel storyServers (engineFor "story") "story" false VNil "" "" ""
  = Done (Body "once upon a time" storyPage) storyServed.
Proof. vm_compute. reflexivity. Qed.

Lemma Run_missing_parent_template_witness :
  Run 2 storyServers (engineFor "story") "story" false VNil "" "" ""
  = Done "Error 404: no page found .page for cover" storyServed
  /\ writer storyServed = [].
Proof.
  apply (Run_missing_parent_template storyServers VNil "" "" "" (engineFor "story")
           storyServed "story" "once upon a time" storyPage "cover" "pages/" false
           {| usedP := "cover"; pagedata := None; lookups := ["cover"] |} 0);
    first [ exact story_level | discriminate | vm_compute; reflexivity ].
Defined.

End ComposeMore.

(** ** The redirect engine, continued *)

Section RedirectMore.

Import Redirect.

(** X11. The redirect engine either redirects or fails, never both: a
    redirect is one answer, to a target that is not empty and with one of the
    codes 301, 302, 307, 308, and leaves the status and the log alone; a
    failure sends nothing, sets the status 500 and logs the error it
    returns. *)
Theorem Run_redirects_or_fails (ctx : Context) :
  (fst (Run ctx) = RString ""
   /\ exists url code,
        url ≠ "" /\ code ∈ [301; 302; 307; 308]
        /\ Writer (snd (Run ctx)) = Writer ctx ++ [HttpRedirect url code]
        /\ Code (snd (Run ctx)) = Code ctx
        /\ LoggerError (snd (Run ctx)) = LoggerError ctx)
  \/ (exists text,
        fst (Run ctx) = RError text
        /\ Writer (snd (Run ctx)) = Writer ctx
        /\ Code (snd (Run ctx)) = 500
        /\ LoggerError (snd (Run ctx)) = LoggerError ctx ++ [text]).
Proof.
  destruct (IsMainPage ctx) eqn:Hmain.
  - destruct (String.eqb_spec (fst (GetString (MainPageparams ctx) "redirecturl")) "")
      as [Hurl|Hurl].
    + right. rewrite Run_without_url by (by right). by eexists.
    + left. rewrite Run_main_with_url by done. split; [done|].
      eexists _, _. split; [exact Hurl|]. split; [apply effectiveCode_accepted|]. done.
  - right. rewrite Run_without_url by (by left). by eexists.
Qed.

End RedirectMore.

(** ** The library engine, continued *)

Lemma dispatch_keeps_library (w : Wajafapp.World) (ctx : Wajafapp.Context)
    (template : option Wajafapp.XTemplate) (language : option Wajafapp.XLanguage)
    (e : value) (lib : Wajafapp.Plugin) (set : bool) (log : list string) :
  Wajafapp.library (Wajafapp.dispatch w ctx template language e lib set log) = lib.
Proof. apply dispatch_library. Qed.

Ltac library_cases :=
  unfold Wajafapp.runLibrary, Wajafapp.load, Wajafapp.failWith, Wajafapp.leave;
  repeat case_match; simplify_eq; rewrite ?dispatch_keeps_library; cbn.

Section LibraryMore.

Import Wajafapp WajafappMore.

Variable w : World.
Variable ctx : Context.
Variable template : option XTemplate.
Variable language : option XLanguage.
Variable e : value.

(** X12. An invocation never rewrites the history of a library: the messages
    it leaves are those the compiling step left, with at most a diagnostic
    appended, and the paths and the version are those the compiling step
    left. *)
Theorem runLibrary_appends_messages (lib : Plugin) :
  let x := runLibrary w ctx template language e lib in
  (exists suffix, Messages (library x) = Messages (compiled w lib) +:+ suffix)
  /\ SourcePath (library x) = SourcePath (compiled w lib)
  /\ PluginPath (library x) = PluginPath (compiled w lib)
  /\ PluginVPath (library x) = PluginVPath (compiled w lib)
  /\ Version (library x) = Version (compiled w lib).
Proof.
  unfold compiled. cbv zeta.
  library_cases;
    (split; [first [ by eexists
                   | exists ""; by rewrite append_nil_r ]
            | done ]).
Qed.

(** X13. The registry of loaded plugins only grows: a handle registered
    under a build identifier when the compiling step ends is still registered
    under it when the invocation ends. *)
Theorem runLibrary_registry_grows (lib : Plugin) (buildid : string) (h : Handle) :
  Libs (compiled w lib) !! buildid = Some h ->
  Libs (library (runLibrary w ctx template language e lib)) !! buildid = Some h.
Proof.
  unfold compiled. library_cases; intros Hh; try done.
  all: rewrite lookup_insert_ne; [done|congruence].
Qed.

(** X14. A plugin already registered under the build identifier of the
    plugin file is used again without opening the file: the library becomes
    ready with that handle and the registry is left as it is. *)
Theorem load_reuses_registered_plugin (lib : Plugin) (log : list string)
    (plg : Handle) (f : PageFunc) :
  Libs lib !! getBuildId w (PluginVPath lib) = Some plg ->
  Lookup w plg "Run" = Ok (StandardFunc f) ->
  load w ctx template language e lib log
  = dispatch w ctx template language e
      (setStatus 1 (setRun (Some f) (setLib (Some plg) lib))) true log
  /\ Libs (library (load w ctx template language e lib log)) = Libs lib
  /\ Lib (library (load w ctx template language e lib log)) = Some plg.
Proof.
  intros Hreg Hrun. unfold load. rewrite Hreg, Hrun.
  by rewrite dispatch_keeps_library.
Qed.

(** X15. When the plugin file cannot be opened the library is left without
    a current plugin, even if it had one: status 2, the diagnostic appended,
    the registry untouched, the library put in the cache and the messages
    returned. *)
Theorem load_open_failure (lib : Plugin) (log : list string) (err : string) :
  Libs lib !! getBuildId w (PluginVPath lib) = None ->
  Open w (PluginVPath lib) = Err err ->
  let x := load w ctx template language e lib log in
  Lib (library x) = None
  /\ Status (library x) = 2
  /\ Libs (library x) = Libs lib
  /\ Messages (library x)
     = Messages lib +:+ "Error: " +:+ SourcePath lib +:+ " could not load:" +:+ nl +:+ err
  /\ returned x = Return (VString (Messages (library x)))
  /\ cacheSet x = Some (SourcePath lib).
Proof.
  intros Hnew Hopen. unfold load. by rewrite Hnew, Hopen.
Qed.

(** X16. A stale library that compiles is loaded again: with a build
    identifier not yet registered, the new plugin file is opened and
    registered under it beside the older ones, the library is ready, and the
    invocation dispatches to the new plugin. *)
Theorem runLibrary_recompiles_and_reloads (lib lib' : Plugin) (h : Handle) (f : PageFunc) :
  FileExists w (SourcePath lib) = true ->
  mustcompile w lib = true ->
  PleaseCompile w (setStatus 0 lib) = (lib', None) ->
  Status lib' = 0 ->
  Libs lib' !! getBuildId w (PluginVPath lib') = None ->
  Open w (PluginVPath lib') = Ok h ->
  Lookup w h "Run" = Ok (StandardFunc f) ->
  let key := getBuildId w (PluginVPath lib') in
  let x := runLibrary w ctx template language e lib in
  x = dispatch w ctx template language e
        (setStatus 1 (setRun (Some f) (registerLib key h (setLib (Some h) lib'))))
        true []
  /\ Status (library x) = 1
  /\ Lib (library x) = Some h
  /\ Libs (library x) = <[key := h]> (Libs lib')
  /\ cacheSet x = Some (SourcePath lib').
Proof.
  intros Hsource Hstale Hcompile Hstatus Hnew Hopen Hrun key x.
  assert (Hx : x = dispatch w ctx template language e
                     (setStatus 1 (setRun (Some f) (registerLib key h (setLib (Some h) lib'))))
                     true []).
  { unfold x, runLibrary. rewrite Hsource, Hstale, Hcompile. cbn [negb].
    rewrite Hstatus. cbn [Z.eqb]. unfold load, key. by rewrite Hnew, Hopen, Hrun. }
  split; [done|]. rewrite Hx.
  destruct (dispatch_library w ctx template language e
              (setStatus 1 (setRun (Some f) (registerLib key h (setLib (Some h) lib'))))
              true []) as [-> ->].
  done.
Qed.

(** X17. The emptiness of the text is tested before the language is put in:
    when the page function gives a text that the language entries turn into
    the empty string, the [json] output reads the first byte of an empty
    string and the invocation panics. *)
Theorem dispatch_json_panics_on_emptied_text (lib : Plugin) (set : bool)
    (log : list string) (rest : list string) (h : Handle) (f : PageFunc)
    (strcode : string) :
  MainURLparams ctx = "code" :: "json" :: rest ->
  Lib lib = Some h ->
  Lookup w h "Run" = Ok (StandardFunc f) ->
  f ctx template language e = VString strcode ->
  strcode ≠ "" ->
  injectLanguage language strcode = "" ->
  returned (dispatch w ctx template language e lib set log)
  = GoPanic "index out of range [0] with length 0".
Proof.
  intros Hparams Hlib Hrun Hf Hne Hempty. unfold dispatch.
  rewrite Hparams, Hlib.
  change (negb ("code" =? "code")%string) with false. cbv iota.
  rewrite Hrun.
  change ("json" =? "json")%string with true. cbv iota.
  rewrite Hf. unfold toJson.
  destruct (String.eqb_spec strcode "") as [?|_]; [done|]. by rewrite Hempty.
Qed.

(** X18. Asking a ready library for a function it does not have is not an
    error of the library: the invocation returns a text that names the
    function, and the library is left as it is. *)
Theorem dispatch_missing_function (lib : Plugin) (set : bool) (log : list string)
    (p1 : string) (rest : list string) (h : Handle) (err : string) :
  MainURLparams ctx = p1 :: rest ->
  p1 ≠ "code" ->
  Lib lib = Some h ->
  Lookup w h (Title w p1) = Err err ->
  returned (dispatch w ctx template language e lib set log)
  = Return (VString ("ERROR: WAJAF LIBRARY DOES NOT CONTAIN FUNCTION " +:+ Title w p1
                     +:+ ", Error: " +:+ err))
  /\ library (dispatch w ctx template language e lib set log) = lib.
Proof.
  intros Hparams Hp1 Hlib Hlookup. split; [|apply dispatch_keeps_library].
  unfold dispatch. rewrite Hparams, Hlib.
  destruct (String.eqb_spec p1 "code") as [?|_]; [done|]. cbn [negb].
  rewrite Hlookup. cbn. by rewrite <- !append_assoc.
Qed.

End LibraryMore.

Section LibraryMoreExamples.

Import Wajafapp WajafappMore Examples MoreExamples.

Lemma runLibrary_registry_grows_witness :
  Libs (library (runLibrary recompileWorld appContext None None VNil readyApp)) !! "id-1"
  = Some 7%nat.
Proof.
  apply (runLibrary_registry_grows recompileWorld appContext None None VNil readyApp
           "id-1" 7%nat).
  vm_compute. reflexivity.
Defined.

Lemma load_reuses_registered_plugin_witness :
  Libs (library (load healthyWorld appContext None None VNil readyApp [])) = Libs readyApp
  /\ Lib (library (load healthyWorld appContext None None VNil readyApp [])) = Some 7%nat.
Proof.
  apply (load_reuses_registered_plugin healthyWorld appContext None None VNil readyApp []
           7%nat hello).
  - vm_compute. reflexivity.
  - reflexivity.
Defined.

Lemma load_open_failure_witness :
  Lib (library (load noPluginWorld appContext None None VNil
                  (setLib (Some 6%nat) (newPlugin appInstance)) [])) = None
  /\ Status (library (load noPluginWorld appContext None None VNil
                        (setLib (Some 6%nat) (newPlugin appInstance)) [])) = 2.
Proof.
  destruct (load_open_failure noPluginWorld appContext None None VNil
              (setLib (Some 6%nat) (newPlugin appInstance)) []
              "plugin was built with a different version")
    as (Hlib & Hstatus & _); try (vm_compute; reflexivity).
  by split.
Defined.

Lemma runLibrary_recompiles_and_reloads_witness :
  Status (library (runLibrary recompileWorld appContext None None VNil readyApp)) = 1
  /\ Lib (library (runLibrary recompileWorld appContext None None VNil readyApp))
     = Some 8%nat.
Proof.
  destruct (runLibrary_recompiles_and_reloads recompileWorld appContext None None VNil
              readyApp (setStatus 0 readyApp) 8%nat hello)
    as (_ & Hstatus & Hlib & _); try (vm_compute; reflexivity).
  by split.
Defined.

Lemma dispatch_json_panics_on_emptied_text_witness :
  returned (dispatch onlyNameWorld jsonContext None (Some emptyName) VNil readyApp false [])
  = GoPanic "index out of range [0] with length 0".
Proof.
  apply (dispatch_json_panics_on_emptied_text onlyNameWorld jsonContext None
           (Some emptyName) VNil readyApp false [] [] 7%nat onlyName "##name##");
    first [ discriminate | vm_compute; reflexivity ].
Defined.

Lemma dispatch_missing_function_witness :
  library (dispatch healthyWorld listContext None None VNil readyApp false []) = readyApp.
Proof.
  apply (dispatch_missing_function healthyWorld listContext None None VNil readyApp false []
           "list" [] 7%nat "symbol not found");
    first [ discriminate | vm_compute; reflexivity ].
Defined.

End LibraryMoreExamples.

(** ** The library cache *)

Section LibraryCacheMore.

Import Wajafapp WajafappMore Examples MoreExamples.
Local Open Scope nat_scope.

Lemma fetch_hit (p : LibraryEngineInstance) (st : Store) (addr : nat) (lib : Plugin) :
  LibraryCache st !! iSourcePath p = Some addr ->
  heap st !! addr = Some lib ->
  fetch p st = (addr, lib, next st).
Proof. intros Hcache Hheap. unfold fetch. by rewrite Hcache, Hheap. Qed.

Lemma store_unchanged (st : Store) (addr : nat) (lib : Plugin) :
  heap st !! addr = Some lib ->
  {| heap := <[addr := lib]> (heap st); LibraryCache := LibraryCache st; next := next st |}
  = st.
Proof. intros Hheap. destruct st as [hp ca nx]. cbn in *. by rewrite insert_id. Qed.

(** X19. A library that is ready and whose plugin is up to date is neither
    compiled nor loaded again: the invocation dispatches to the plugin it
    has, and the cache and the library are left exactly as they were. *)
Theorem Run_ready_library_reused (w : World) (p : LibraryEngineInstance) (ctx : Context)
    (template : option XTemplate) (language : option XLanguage) (e : value)
    (st : Store) (addr : nat) (lib : Plugin) :
  LibraryCache st !! iSourcePath p = Some addr ->
  heap st !! addr = Some lib ->
  FileExists w (SourcePath lib) = true ->
  mustcompile w lib = false ->
  Status lib = 1%Z ->
  Run w p ctx template language e st
  = (dispatch w ctx template language e lib false [], st).
Proof.
  intros Hcache Hheap Hsource Hfresh Hready.
  rewrite (Run_fetch _ _ _ _ _ _ _ _ _ _ (fetch_hit _ _ _ _ Hcache Hheap)).
  assert (Hrun : runLibrary w ctx template language e lib
                 = dispatch w ctx template language e lib false []).
  { unfold runLibrary. by rewrite Hsource, Hfresh, Hready. }
  rewrite Hrun.
  destruct (dispatch_library w ctx template language e lib false []) as [-> ->].
  by rewrite store_unchanged.
Qed.

Lemma Run_ready_library_reused_witness :
  Run healthyWorld appInstance appContext None None VNil loadedStore
  = (dispatch healthyWorld appContext None None VNil readyApp false [], loadedStore).
Proof.
  apply (Run_ready_library_reused healthyWorld appInstance appContext None None VNil
           loadedStore 0 readyApp); vm_compute; reflexivity.
Defined.

(** X20. An error is kept: a library that is neither to load nor ready, and
    whose plugin is up to date, is not tried again; the invocation returns
    its messages and leaves the cache and the library exactly as they were. *)
Theorem Run_error_is_kept (w : World) (p : LibraryEngineInstance) (ctx : Context)
    (template : option XTemplate) (language : option XLanguage) (e : value)
    (st : Store) (addr : nat) (lib : Plugin) :
  LibraryCache st !! iSourcePath p = Some addr ->
  heap st !! addr = Some lib ->
  FileExists w (SourcePath lib) = true ->
  mustcompile w lib = false ->
  Status lib ≠ 0%Z ->
  Status lib ≠ 1%Z ->
  Run w p ctx template language e st
  = (leave (Return (VString (Messages lib))) lib false [], st).
Proof.
  intros Hcache Hheap Hsource Hfresh Hnot0 Hnot1.
  rewrite (Run_fetch _ _ _ _ _ _ _ _ _ _ (fetch_hit _ _ _ _ Hcache Hheap)).
  assert (Hrun : runLibrary w ctx template language e lib
                 = leave (Return (VString (Messages lib))) lib false []).
  { unfold runLibrary. rewrite Hsource, Hfresh. cbn [negb].
    destruct (Z.eqb_spec (Status lib) 0) as [?|_]; [done|].
    by destruct (Z.eqb_spec (Status lib) 1) as [?|_]. }
  rewrite Hrun. cbn [leave library cacheSet]. by rewrite store_unchanged.
Qed.

Lemma Run_error_is_kept_witness :
  Status failedApp = 2%Z
  /\ Run healthyWorld appInstance appContext None None VNil failedStore
     = (leave (Return (VString (Messages failedApp))) failedApp false [], failedStore).
Proof.
  split; [vm_compute; reflexivity|].
  apply (Run_error_is_kept healthyWorld appInstance appContext None None VNil
           failedStore 0 failedApp);
    first [ discriminate | vm_compute; reflexivity ].
Defined.

(** X21. The cache knows a library by its source path alone: two hosts that
    share a pages directory get instances with the same source path and
    different plugin paths, and once the library of one of them is in the
    cache the other is served by it, its own plugin path unused. *)
Theorem Run_shares_library_between_hosts (w w' : World) (lastPath : string -> string)
    (host1 host2 PagesDir P : string) (p1 p2 : LibraryEngineInstance)
    (ctx : Context) (template : option XTemplate) (language : option XLanguage)
    (e : value) (st : Store) (addr : nat) (lib : Plugin) :
  GetInstance w lastPath host1 PagesDir P = Some p1 ->
  GetInstance w lastPath host2 PagesDir P = Some p2 ->
  LibraryCache st !! iSourcePath p1 = Some addr ->
  heap st !! addr = Some lib ->
  iSourcePath p1 = iSourcePath p2
  /\ Run w' p1 ctx template language e st = Run w' p2 ctx template language e st.
Proof.
  unfold GetInstance. cbv zeta.
  destruct (FileExists w _); [|done]. intros [= <-] [= <-] Hcache Hheap.
  split; [done|].
  rewrite (Run_fetch w' _ ctx template language e st addr lib (next st))
    by (by apply fetch_hit).
  rewrite (Run_fetch w' _ ctx template language e st addr lib (next st))
    by (by apply fetch_hit).
  done.
Qed.

Lemma Run_shares_library_between_hosts_witness :
  Run healthyWorld appInstance appContext None None VNil loadedStore
  = Run healthyWorld otherHostInstance appContext None None VNil loadedStore.
Proof.
  apply (Run_shares_library_between_hosts healthyWorld healthyWorld (fun _ => "app")
           "site" "other" "pages/" "app" appInstance otherHostInstance
           appContext None None VNil loadedStore 0 readyApp);
    vm_compute; reflexivity.
Defined.

Lemma dispatch_cacheSet (w : World) (ctx : Context) (template : option XTemplate)
    (language : option XLanguage) (e : value) (lib : Plugin) (set : bool)
    (log : list string) :
  cacheSet (dispatch w ctx template language e lib set log)
  = if set then Some (SourcePath lib) else None.
Proof. apply dispatch_library. Qed.

(** Every [LibraryCache.Set] files the library under its own source path. *)
Lemma cacheSet_key (w : World) (ctx : Context) (template : option XTemplate)
    (language : option XLanguage) (e : value) (lib : Plugin) (key : string) :
  cacheSet (runLibrary w ctx template language e lib) = Some key ->
  key = SourcePath (library (runLibrary w ctx template language e lib)).
Proof.
  unfold runLibrary, load, failWith, leave;
    repeat case_match; simplify_eq;
    rewrite ?dispatch_keeps_library, ?dispatch_cacheSet; cbn; congruence.
Qed.

Lemma runLibrary_SourcePath (w : World) (ctx : Context) (template : option XTemplate)
    (language : option XLanguage) (e : value) (lib : Plugin) :
  keepsSourcePath w ->
  SourcePath (library (runLibrary w ctx template language e lib)) = SourcePath lib.
Proof.
  intros Hkeeps.
  assert (Hc : forall lib' r, PleaseCompile w (setStatus 0 lib) = (lib', r) ->
                 SourcePath lib' = SourcePath lib).
  { intros lib' r Hcompile. pose proof (Hkeeps (setStatus 0 lib)) as H.
    by rewrite Hcompile in H. }
  unfold runLibrary, load, failWith, leave;
    repeat case_match; simplify_eq; rewrite ?dispatch_keeps_library; cbn;
    try done; by eapply Hc.
Qed.

(** X22. Invocations keep the cache in order and do not disturb each other:
    with a compiler that leaves the source path of a library alone, a cache
    in which every library is filed under its own source path stays so, and
    an invocation for one source path leaves the library cached for any
    other source path as it was. *)
Theorem Run_keeps_cache_in_order (w : World) (p : LibraryEngineInstance) (ctx : Context)
    (template : option XTemplate) (language : option XLanguage) (e : value)
    (st : Store) :
  storeOk st ->
  keepsSourcePath w ->
  storeOk (snd (Run w p ctx template language e st))
  /\ forall path : string,
       path ≠ iSourcePath p ->
       cached (snd (Run w p ctx template language e st)) path = cached st path.
Proof.
  intros Hok Hkeeps.
  destruct (fetch p st) as [[addr lib] nxt] eqn:Hfetch.
  rewrite (Run_fetch _ _ _ _ _ _ _ _ _ _ Hfetch). cbn [snd].
  set (x := runLibrary w ctx template language e lib).
  assert (Hlib : SourcePath lib = iSourcePath p
                 /\ next st <= nxt
                 /\ (LibraryCache st !! iSourcePath p = Some addr /\ addr < next st
                     \/ LibraryCache st !! iSourcePath p = None /\ addr = next st
                        /\ nxt = S (next st))).
  { unfold fetch in Hfetch.
    destruct (LibraryCache st !! iSourcePath p) as [a|] eqn:Hcache.
    - destruct (Hok _ _ Hcache) as (Hlt & lib0 & Hheap & Hpath).
      rewrite Hheap in Hfetch. injection Hfetch as <- <- <-.
      split; [done|]. split; [lia|]. by left.
    - injection Hfetch as <- <- <-. split; [done|]. split; [lia|]. by right. }
  destruct Hlib as (Hpath & Hnxt & Haddr).
  assert (Hx : SourcePath (library x) = iSourcePath p).
  { unfold x. by rewrite runLibrary_SourcePath. }
  assert (Hkey : forall key, cacheSet x = Some key -> key = iSourcePath p).
  { intros key Hset. apply cacheSet_key in Hset. by rewrite Hset. }
  assert (Hother : forall path a,
            path ≠ iSourcePath p -> LibraryCache st !! path = Some a -> a ≠ addr).
  { intros path a Hne Hcache ->.
    destruct (Hok _ _ Hcache) as (Hlt & lib0 & Hheap & Hpath0).
    destruct Haddr as [[Hhit _]|(_ & -> & _)]; [|lia].
    destruct (Hok _ _ Hhit) as (_ & lib1 & Hheap1 & Hpath1).
    rewrite Hheap in Hheap1. injection Hheap1 as ->. congruence. }
  assert (Hcache' : forall path,
            path ≠ iSourcePath p ->
            match cacheSet x with
            | Some key => <[key := addr]> (LibraryCache st)
            | None => LibraryCache st
            end !! path = LibraryCache st !! path).
  { intros path Hne. destruct (cacheSet x) as [key|] eqn:Hset; [|done].
    rewrite (Hkey key eq_refl). by rewrite lookup_insert_ne. }
  split.
  - intros path a. cbn [heap LibraryCache next].
    destruct (decide (path = iSourcePath p)) as [->|Hne].
    + intros Ha.
      assert (a = addr) as ->.
      { destruct (cacheSet x) as [key|] eqn:Hset.
        - rewrite (Hkey key eq_refl), lookup_insert_eq in Ha. by injection Ha.
        - destruct Haddr as [[Hhit _]|(Hmiss & _)]; congruence. }
      split.
      * destruct Haddr as [[_ ?]|(_ & -> & ->)]; lia.
      * exists (library x). by rewrite lookup_insert_eq.
    + rewrite Hcache' by done. intros Ha.
      destruct (Hok _ _ Ha) as (Hlt & lib0 & Hheap & Hpath0).
      split; [lia|]. exists lib0. split; [|done].
      rewrite lookup_insert_ne; [done|]. intros <-. by eapply Hother.
  - intros path Hne. unfold cached. cbn [heap LibraryCache].
    rewrite Hcache' by done.
    destruct (LibraryCache st !! path) as [a|] eqn:Ha; [|done]. cbn.
    rewrite lookup_insert_ne; [done|]. intros <-. by eapply Hother.
Qed.

Lemma emptyStore_ok : storeOk emptyStore.
Proof. intros path a H. vm_compute in H. discriminate. Qed.

Lemma healthyWorld_keepsSourcePath : keepsSourcePath healthyWorld.
Proof. by intros lib. Qed.

Lemma Run_keeps_cache_in_order_witness :
  storeOk loadedStore
  /\ cached loadedStore "pages/shop/shop.go" = None.
Proof.
  destruct (Run_keeps_cache_in_order healthyWorld appInstance appContext None None VNil
              emptyStore emptyStore_ok healthyWorld_keepsSourcePath) as [Hok Hframe].
  split; [exact Hok|].
  exact (Hframe "pages/shop/shop.go" ltac:(discriminate)).
Defined.

End LibraryCacheMore.

(** ** The statistics *)

Section StatClean.

Import Stat.
Local Open Scope nat_scope.

Variable n : Z.
Variable hp : gmap nat RequestStat.

Lemma lastExpired_leading (l : list nat) (i last : nat) :
  lastExpired n hp l i last
  = match leadingExpired n hp l with
    | O => last
    | S k => i + k
    end.
Proof.
  revert i last. induction l as [|a rest IH]; intros i last; [done|].
  cbn [lastExpired leadingExpired]. unfold expiredAt.
  destruct (hp !! a) as [r|]; [|done].
  destruct (expired n r); [|done].
  rewrite IH. destruct (leadingExpired n hp rest); lia.
Qed.

Lemma leadingExpired_le (l : list nat) : leadingExpired n hp l <= length l.
Proof.
  induction l as [|a rest IH]; cbn; [lia|]. destruct (expiredAt n hp a); lia.
Qed.

Lemma leadingExpired_take (l : list nat) (k : nat) :
  k <= leadingExpired n hp l ->
  Forall (fun a => expiredAt n hp a = true) (take k l).
Proof.
  revert k. induction l as [|a rest IH]; intros k Hk.
  - destruct k; constructor.
  - destruct k as [|k]; [constructor|]. cbn in Hk |- *.
    destruct (expiredAt n hp a) eqn:Ha; [|lia].
    constructor; [done|]. apply IH. lia.
Qed.

(** What is left once all but the last of the leading expired requests are
    dropped starts with one expired request at most. *)
Lemma leadingExpired_drop (l : list nat) :
  leadingExpired n hp (drop (pred (leadingExpired n hp l)) l) <= 1
  /\ (1 <= leadingExpired n hp l ->
      leadingExpired n hp (drop (pred (leadingExpired n hp l)) l) = 1).
Proof.
  induction l as [|a rest IH]; [cbn; lia|].
  cbn [leadingExpired]. destruct (expiredAt n hp a) eqn:Ha.
  - cbn [pred]. destruct (leadingExpired n hp rest) as [|k] eqn:Hrest.
    + cbn. rewrite Ha, Hrest. lia.
    + cbn [drop]. cbn [pred] in IH. destruct IH as [_ IH]. split; [|intros _]; rewrite IH; lia.
  - cbn. rewrite Ha. lia.
Qed.

Lemma leadingExpired_head (l : list nat) :
  1 <= leadingExpired n hp l ->
  exists b, head l = Some b /\ expiredAt n hp b = true.
Proof.
  destruct l as [|b rest]; cbn; [lia|].
  destruct (expiredAt n hp b) eqn:Hb; [|lia]. by exists b.
Qed.

End StatClean.

Section StatMove.

Import Stat.
Local Open Scope nat_scope.

Lemma findFromEnd_Some (r : nat) (l : list nat) (i j : nat) :
  findFromEnd r l i = Some j ->
  j < i /\ l !! j = Some r /\ forall k, j < k < i -> l !! k ≠ Some r.
Proof.
  induction i as [|i IH]; [done|]. cbn [findFromEnd].
  destruct (l !! i) as [a|] eqn:Hi.
  - destruct (Nat.eqb_spec a r) as [->|Hne].
    + intros [= <-]. split; [lia|]. split; [done|]. intros k Hk. lia.
    + intros Hj. destruct (IH Hj) as (Hlt & Hr & Hlater).
      split; [lia|]. split; [done|]. intros k Hk.
      destruct (decide (k = i)) as [->|?]; [congruence|]. apply Hlater. lia.
  - intros Hj. destruct (IH Hj) as (Hlt & Hr & Hlater).
    split; [lia|]. split; [done|]. intros k Hk.
    destruct (decide (k = i)) as [->|?]; [congruence|]. apply Hlater. lia.
Qed.

Lemma findFromEnd_None (r : nat) (l : list nat) (i : nat) :
  findFromEnd r l i = None -> forall k, k < i -> l !! k ≠ Some r.
Proof.
  induction i as [|i IH]; [intros _ k Hk; lia|]. cbn [findFromEnd].
  destruct (l !! i) as [a|] eqn:Hi.
  - destruct (Nat.eqb_spec a r) as [->|Hne]; [done|].
    intros Hn k Hk. destruct (decide (k = i)) as [->|?]; [congruence|].
    apply IH; [done|lia].
  - intros Hn k Hk. destruct (decide (k = i)) as [->|?]; [congruence|].
    apply IH; [done|lia].
Qed.

(** [moveToEnd] takes out the last occurrence of [r], if any, and puts [r]
    at the end. *)
Lemma moveToEnd_spec (r : nat) (l : list nat) :
  (exists l1 l2,
     l = l1 ++ r :: l2 /\ (r ∉ l2) /\ moveToEnd r l = l1 ++ l2 ++ [r])
  \/ ((r ∉ l) /\ moveToEnd r l = l ++ [r]).
Proof.
  unfold moveToEnd. destruct (findFromEnd r l (length l)) as [j|] eqn:Hfind.
  - left. destruct (findFromEnd_Some _ _ _ _ Hfind) as (Hlt & Hr & Hlater).
    exists (take j l), (drop (S j) l). split; [|split].
    + by rewrite take_drop_middle.
    + intros Hin. apply list_elem_of_lookup in Hin as [k Hk].
      rewrite lookup_drop in Hk.
      apply (Hlater (S j + k)); [|done]. apply lookup_lt_Some in Hk. lia.
    + by rewrite <- app_assoc.
  - right. split; [|done]. intros Hin.
    apply list_elem_of_lookup in Hin as [k Hk].
    eapply findFromEnd_None; [done| |done]. by apply lookup_lt_Some in Hk.
Qed.

Lemma moveToEnd_props (r : nat) (l : list nat) :
  exists front,
    moveToEnd r l = front ++ [r]
    /\ filter (fun x => x ≠ r) front = filter (fun x => x ≠ r) l
    /\ (r ∈ l -> moveToEnd r l ≡ₚ l)
    /\ ((r ∉ l) -> moveToEnd r l = l ++ [r])
    /\ (NoDup l -> NoDup (moveToEnd r l)).
Proof.
  destruct (moveToEnd_spec r l) as [(l1 & l2 & -> & Hnot & ->)|[Hnot ->]].
  - exists (l1 ++ l2). split; [by rewrite <- app_assoc|]. split; [|split; [|split]].
    + rewrite !filter_app, filter_cons_False; [done|]. by intros H.
    + intros _. by rewrite (Permutation_app_comm l2 [r]).
    + intros Hr. exfalso. apply Hr. set_solver.
    + intros Hnd. by rewrite (Permutation_app_comm l2 [r]).
  - exists l. split; [done|]. split; [done|]. split; [done|]. split; [done|].
    intros Hnd. rewrite Permutation_app_comm. cbn. by constructor.
Qed.

Lemma moveToEnd_elem (r : nat) (l : list nat) (x : nat) :
  x ∈ moveToEnd r l -> x = r \/ x ∈ l.
Proof.
  destruct (moveToEnd_spec r l) as [(l1 & l2 & -> & _ & ->)|[_ ->]];
    rewrite !elem_of_app, ?elem_of_cons, ?elem_of_nil; tauto.
Qed.

End StatMove.

Section StatArithmetic.

Import Stat.
Local Open Scope Z_scope.

Lemma wrapInt_congruent (z : Z) : (wrapInt z - z) mod 2 ^ 64 = 0.
Proof.
  unfold wrapInt.
  rewrite (Z.mod_eq (z + 2 ^ 63) (2 ^ 64)) by lia.
  replace (z + 2 ^ 63 - 2 ^ 64 * ((z + 2 ^ 63) / 2 ^ 64) - 2 ^ 63 - z)
    with (- ((z + 2 ^ 63) / 2 ^ 64) * 2 ^ 64) by lia.
  apply Z.mod_mul. lia.
Qed.

Lemma congruent_add (a b c d : Z) :
  (a - b) mod 2 ^ 64 = 0 -> (c - d) mod 2 ^ 64 = 0 ->
  ((a + c) - (b + d)) mod 2 ^ 64 = 0.
Proof.
  intros Hab Hcd. replace (a + c - (b + d)) with ((a - b) + (c - d)) by lia.
  rewrite Z.add_mod by lia. by rewrite Hab, Hcd.
Qed.

Lemma wrapUint64_small (z : Z) : 0 <= z < 2 ^ 64 -> wrapUint64 z = z.
Proof. intros Hz. unfold wrapUint64. by apply Z.mod_small. Qed.

Lemma totalLength_insert_new (hp : gmap nat RequestStat) (a : nat) (r : RequestStat) :
  hp !! a = None -> totalLength (<[a := r]> hp) = totalLength hp + Length r.
Proof.
  intros Hnew. unfold totalLength. rewrite map_fold_insert_L; [done| |done].
  intros. lia.
Qed.

Lemma totalLength_update (hp : gmap nat RequestStat) (a : nat) (r0 r : RequestStat) :
  hp !! a = Some r0 ->
  totalLength (<[a := r]> hp) = totalLength hp - Length r0 + Length r.
Proof.
  intros Hold.
  rewrite <- (insert_delete_eq hp a r).
  rewrite totalLength_insert_new by apply lookup_delete_eq.
  rewrite <- (insert_delete_id hp a r0 Hold) at 2.
  rewrite totalLength_insert_new by apply lookup_delete_eq. lia.
Qed.

Lemma wrapInt_divide (z : Z) : (2 ^ 64 | wrapInt z - z).
Proof. apply Z.mod_divide; [lia|]. apply wrapInt_congruent. Qed.

End StatArithmetic.

Section StatMore.

Import Stat Examples MoreExamples.
Local Open Scope nat_scope.

(** X23. One turn of the cleaner drops requests from the front of the list
    only, and only requests last touched more than two minutes ago; it stops
    one short: the newest of the expired requests the list starts with is
    kept, so a list that is not empty never becomes empty.  A second turn at
    the same instant changes nothing. *)
Theorem Clean_drops_all_but_last_expired (n : Z) (g : Globals) (s : Stat) :
  SystemStat g = Some s ->
  let dropped := take (pred (leadingExpired n (heap g) (Requests s))) (Requests s) in
  let kept := drop (pred (leadingExpired n (heap g) (Requests s))) (Requests s) in
  Clean n g = Done tt (setStat (withRequests kept s) g)
  /\ Requests s = dropped ++ kept
  /\ Forall (fun a => expiredAt n (heap g) a = true) dropped
  /\ (Requests s ≠ [] -> kept ≠ [])
  /\ (1 <= leadingExpired n (heap g) (Requests s) ->
      exists b, head kept = Some b /\ expiredAt n (heap g) b = true)
  /\ Clean n (setStat (withRequests kept s) g)
     = Done tt (setStat (withRequests kept s) g).
Proof.
  intros Hs dropped kept.
  pose proof (leadingExpired_le n (heap g) (Requests s)) as Hle.
  pose proof (leadingExpired_drop n (heap g) (Requests s)) as [Hone Hkept].
  fold kept in Hone, Hkept.
  split; [|split; [|split; [|split; [|split]]]].
  - unfold Clean. rewrite Hs, lastExpired_leading.
    unfold kept. by destruct (leadingExpired n (heap g) (Requests s)).
  - unfold dropped, kept. by rewrite take_drop.
  - apply leadingExpired_take. lia.
  - intros Hne Hnil. apply (f_equal length) in Hnil.
    unfold kept in Hnil. rewrite length_drop in Hnil. cbn in Hnil.
    destruct (Requests s); [done|]. cbn in *. lia.
  - intros Hpos. apply leadingExpired_head. rewrite Hkept; lia.
  - unfold Clean. cbn [SystemStat setStat heap Requests withRequests].
    rewrite lastExpired_leading.
    replace (match leadingExpired n (heap g) kept with
             | 0 => 0
             | S k => 0 + k
             end) with 0 by (destruct (leadingExpired n (heap g) kept) as [|[|?]]; lia).
    reflexivity.
Qed.

Lemma Clean_drops_all_but_last_expired_witness :
  Clean (delta + 100) threeRequests
  = Done tt (setStat (withRequests [1; 2] threeRequestsStat) threeRequests).
Proof.
  exact (proj1 (Clean_drops_all_but_last_expired (delta + 100) threeRequests
                  threeRequestsStat eq_refl)).
Defined.

(** X24. [UpdateStat] puts the request at the end of the list and leaves
    the other requests in their order: a request of the list is moved, one
    that is not in the list (the cleaner dropped it) is added, and distinct
    requests stay distinct.  The request gets the new time, the code unless
    it is 0, the length added, and the duration since its start; the length
    served grows by the same length. *)
Theorem UpdateStat_moves_request_to_end (now : Z) (a : nat) (code length : Z)
    (g : Globals) (r : RequestStat) (s : Stat) :
  heap g !! a = Some r ->
  SystemStat g = Some s ->
  exists (g' : Globals) (s' : Stat) (r' : RequestStat) (front : list nat),
    UpdateStat now a code length g = Done tt g'
    /\ SystemStat g' = Some s'
    /\ heap g' = <[a := r']> (heap g)
    /\ Requests s' = front ++ [a]
    /\ filter (fun x => x ≠ a) front = filter (fun x => x ≠ a) (Requests s)
    /\ (a ∈ Requests s -> Requests s' ≡ₚ Requests s)
    /\ ((a ∉ Requests s) -> Requests s' = Requests s ++ [a])
    /\ (NoDup (Requests s) -> NoDup (Requests s'))
    /\ Time r' = now
    /\ Code r' = (if (code =? 0)%Z then Code r else code)
    /\ Length r' = wrapInt (Length r + length)
    /\ Duration r' = saturate (now - StartTime r)
    /\ Id r' = Id r /\ StartTime r' = StartTime r /\ Alive r' = Alive r
    /\ LengthServed s' = wrapInt (LengthServed s + length)
    /\ RequestsTotal s' = RequestsTotal s.
Proof.
  intros Hr Hs.
  destruct (moveToEnd_props a (Requests s)) as (front & Hmove & Hfilter & Hperm & Hnew & Hnd).
  eexists _, _, _, front. unfold UpdateStat. rewrite Hr.
  cbn [setRequest SystemStat]. rewrite Hs.
  split; [reflexivity|].
  split; [reflexivity|].
  split; [cbn [heap setStat setRequest]; by rewrite insert_insert_eq|].
  cbn [Requests withRequests].
  split; [exact Hmove|]. split; [exact Hfilter|]. split; [exact Hperm|].
  split; [exact Hnew|]. split; [exact Hnd|].
  cbn. repeat split. by destruct (code =? 0)%Z.
Qed.

Lemma UpdateStat_moves_request_to_end_witness :
  exists g' s',
    UpdateStat 500 0 404 5 threeRequests = Done tt g'
    /\ SystemStat g' = Some s'
    /\ Requests s' = [1; 2; 0].
Proof.
  destruct (UpdateStat_moves_request_to_end 500 0 404 5 threeRequests (requestAt 0 0)
              threeRequestsStat eq_refl eq_refl)
    as (g' & s' & r' & front & Hrun & Hs & _ & Hreq & Hfilter & _).
  exists g', s'. split; [done|]. split; [done|].
  vm_compute in Hrun. injection Hrun as <-. vm_compute in Hs. injection Hs as <-.
  reflexivity.
Defined.

(** X25. Every request created gets an address and an identifier no
    earlier request has: with the counter below its maximum, the new request
    is put at the end of the list, its [Id] is the counter, which moves on
    by one, and the totals count it. *)
Theorem CreateRequestStat_appends_new_request (now1 now2 : Z) (hostport : string * string)
    (request method protocol : string) (code length duration : Z)
    (g : Globals) (s : Stat) :
  SystemStat g = Some s ->
  statOk g ->
  (RequestCounter g < 2 ^ 64 - 1)%Z ->
  exists (g' : Globals) (s' : Stat) (r : RequestStat),
    CreateRequestStat now1 now2 hostport request method protocol code length duration g
    = Done (next g) g'
    /\ SystemStat g' = Some s'
    /\ Requests s' = Requests s ++ [next g]
    /\ heap g !! next g = None
    /\ heap g' = <[next g := r]> (heap g)
    /\ Id r = RequestCounter g
    /\ (forall a r0, heap g !! a = Some r0 -> Id r0 ≠ Id r)
    /\ RequestCounter g' = (RequestCounter g + 1)%Z
    /\ RequestsTotal s' = wrapInt (RequestsTotal s + 1)
    /\ LengthServed s' = wrapInt (LengthServed s + length)
    /\ Protocol r = protocol /\ Request r = request /\ Method r = method
    /\ Code r = code /\ Length r = length
    /\ StartTime r = now1 /\ Time r = now2
    /\ Alive r = true /\ Hostname r = "".
Proof.
  intros Hs (Hlist & Hheap & Hcounter) Hmax.
  eexists _, _, _. unfold CreateRequestStat. cbn [SystemStat]. rewrite Hs.
  split; [reflexivity|]. split; [reflexivity|].
  cbn [Requests withRequests countRequest addLengthServed].
  split; [reflexivity|]. split.
  { destruct (heap g !! next g) as [r0|] eqn:Hnext; [|done].
    destruct (Hheap _ _ Hnext). lia. }
  split; [reflexivity|]. split; [reflexivity|]. split.
  { intros a r0 Ha. destruct (Hheap _ _ Ha) as [_ Hid]. cbn [Id]. lia. }
  split; [cbn; apply wrapUint64_small; lia|].
  cbn. by repeat split.
Qed.

Lemma threeRequests_ok : statOk threeRequests.
Proof.
  split; [|split].
  - intros s [= <-]. cbn. split.
    + repeat constructor; set_unfold; lia.
    + intros a Ha. repeat (apply elem_of_cons in Ha as [->|Ha]); try by eexists.
      by apply elem_of_nil in Ha.
  - intros a r Ha. cbn in Ha.
    apply lookup_insert_Some in Ha as [[<- <-]|[_ Ha]]; [cbn; lia|].
    apply lookup_insert_Some in Ha as [[<- <-]|[_ Ha]]; [cbn; lia|].
    apply lookup_singleton_Some in Ha as [<- <-]. cbn. lia.
  - cbn. lia.
Qed.

Lemma CreateRequestStat_appends_new_request_witness :
  exists g' s',
    CreateRequestStat 600 601 ("10.0.0.1", "5000") "/blog" "GET" "HTTP/2" 200 0 0
      threeRequests = Done 3 g'
    /\ SystemStat g' = Some s'
    /\ Requests s' = [0; 1; 2; 3]
    /\ RequestCounter g' = 4%Z.
Proof.
  destruct (CreateRequestStat_appends_new_request 600 601 ("10.0.0.1", "5000") "/blog"
              "GET" "HTTP/2" 200 0 0 threeRequests threeRequestsStat eq_refl
              threeRequests_ok ltac:(cbn; lia))
    as (g' & s' & r & Hrun & Hs & Hreq & _ & _ & _ & _ & Hcounter & _).
  exists g', s'. by repeat split.
Defined.

(** X26. Before [Start] has set [SystemStat], creating a request panics
    after the counter has moved on, so that identifier is never used, and
    updating a request panics after the request has been changed. *)
Theorem stat_before_Start (g : Globals) :
  SystemStat g = None ->
  (forall now1 now2 hostport request method protocol code length duration,
     exists g',
       CreateRequestStat now1 now2 hostport request method protocol code length
         duration g = NilPanic g'
       /\ SystemStat g' = None
       /\ RequestCounter g' = wrapUint64 (RequestCounter g + 1))
  /\ (forall now a code length r,
        heap g !! a = Some r ->
        exists g',
          UpdateStat now a code length g = NilPanic g'
          /\ SystemStat g' = None
          /\ heap g' !! a = Some (updated now code length r))
  /\ (forall n, Clean n g = NilPanic g).
Proof.
  intros Hnil. split; [|split].
  - intros. eexists. unfold CreateRequestStat. cbn [SystemStat]. rewrite Hnil.
    by repeat split.
  - intros now a code length r Hr. eexists. unfold UpdateStat. rewrite Hr.
    cbn [setRequest SystemStat]. rewrite Hnil.
    split; [reflexivity|]. split; [done|]. cbn. by rewrite lookup_insert_eq.
  - intros n. unfold Clean. by rewrite Hnil.
Qed.

Lemma stat_before_Start_witness :
  exists g',
    CreateRequestStat 0 0 ("", "") "/" "GET" "HTTP/1.1" 200 0 0 notStarted = NilPanic g'
    /\ SystemStat g' = None
    /\ RequestCounter g' = 1%Z.
Proof.
  destruct (stat_before_Start notStarted eq_refl) as [Hcreate _].
  destruct (Hcreate 0%Z 0%Z ("", "") "/" "GET" "HTTP/1.1" 200%Z 0%Z 0%Z)
    as (g' & Hrun & Hs & Hcounter).
  exists g'. by repeat split.
Defined.

Lemma statOk_setRequest (g : Globals) (a : nat) (r0 r : RequestStat) :
  statOk g -> heap g !! a = Some r0 -> Id r = Id r0 -> statOk (setRequest a r g).
Proof.
  intros (Hlist & Hheap & Hcounter) Hr0 Hid. split; [|split]; [| |done].
  - intros s Hs. destruct (Hlist s Hs) as [Hnd Hin]. split; [done|].
    intros x Hx. cbn. destruct (decide (x = a)) as [->|Hne].
    + rewrite lookup_insert_eq. by eexists.
    + rewrite lookup_insert_ne by done. by apply Hin.
  - intros x rx. cbn. destruct (decide (x = a)) as [->|Hne].
    + rewrite lookup_insert_eq. intros [= <-]. rewrite Hid. by apply Hheap.
    + rewrite lookup_insert_ne by done. apply Hheap.
Qed.

(** X27. The operations keep the package variables in order: whatever the
    sequence of [Start], [Clean], [CreateRequestStat] (with the counter below
    its maximum), [UpdateStat], [UpdateProtocol] and [End], the requests of
    the list stay distinct and allocated, and the identifiers of the requests
    allocated stay below the counter. *)
Theorem statOk_preserved (g : Globals) :
  statOk g ->
  (forall now hosts, statOk (Start now hosts g))
  /\ (forall n g', Clean n g = Done tt g' -> statOk g')
  /\ (forall now1 now2 hostport request method protocol code length duration a g',
        (RequestCounter g < 2 ^ 64 - 1)%Z ->
        CreateRequestStat now1 now2 hostport request method protocol code length
          duration g = Done a g' ->
        statOk g')
  /\ (forall now a code length g',
        UpdateStat now a code length g = Done tt g' -> statOk g')
  /\ (forall a protocol g', UpdateProtocol a protocol g = Done tt g' -> statOk g')
  /\ (forall hasLogger hasHook a g',
        End hasLogger hasHook a g = Done tt g' -> statOk g').
Proof.
  intros Hok. pose proof Hok as (Hlist & Hheap & Hcounter).
  split; [|split; [|split; [|split; [|split]]]].
  - intros now hosts. split; [|split]; [|done|done].
    intros s [= <-]. cbn. split; [constructor|]. intros a Ha.
    by apply elem_of_nil in Ha.
  - intros n g'. unfold Clean. destruct (SystemStat g) as [s|] eqn:Hs; [|done].
    intros [= <-]. destruct (Hlist s eq_refl) as [Hnd Hin].
    split; [|split]; [|done|done].
    intros s' [= <-]. cbn. split.
    + eapply sublist_NoDup; [done|apply sublist_drop].
    + intros a Ha. apply Hin. by eapply subseteq_drop.
  - intros now1 now2 hostport request method protocol code length duration a g' Hmax.
    unfold CreateRequestStat. cbn [SystemStat].
    destruct (SystemStat g) as [s|] eqn:Hs; [|done].
    intros [= _ <-]. destruct (Hlist s eq_refl) as [Hnd Hin].
    split; [|split].
    + intros s' [= <-]. cbn. split.
      * apply NoDup_app. split; [done|]. split; [|repeat constructor; set_unfold; lia].
        intros x Hx Hx'. apply list_elem_of_singleton in Hx' as ->.
        destruct (Hin _ Hx) as [r Hr]. destruct (Hheap _ _ Hr). lia.
      * intros x Hx. apply elem_of_app in Hx as [Hx|Hx].
        -- destruct (decide (x = next g)) as [->|Hne].
           ++ rewrite lookup_insert_eq. by eexists.
           ++ rewrite lookup_insert_ne by done. by apply Hin.
        -- apply list_elem_of_singleton in Hx as ->.
           rewrite lookup_insert_eq. by eexists.
    + intros x rx. cbn. rewrite wrapUint64_small by lia.
      destruct (decide (x = next g)) as [->|Hne].
      * rewrite lookup_insert_eq. intros [= <-]. cbn. lia.
      * rewrite lookup_insert_ne by done. intros Hx.
        destruct (Hheap _ _ Hx). lia.
    + cbn. rewrite wrapUint64_small by lia. lia.
  - intros now a code length g'. unfold UpdateStat.
    destruct (heap g !! a) as [r|] eqn:Hr; [|done].
    cbn [setRequest SystemStat]. destruct (SystemStat g) as [s|] eqn:Hs; [|done].
    intros [= <-]. destruct (Hlist s eq_refl) as [Hnd Hin].
    destruct (moveToEnd_props a (Requests s)) as (_ & _ & _ & _ & _ & Hnd').
    split; [|split]; [| |done].
    + intros s' [= <-]. cbn [Requests withRequests setStat heap setRequest].
      split; [by apply Hnd'|]. intros x Hx.
      rewrite insert_insert_eq.
      destruct (decide (x = a)) as [->|Hne].
      * rewrite lookup_insert_eq. by eexists.
      * rewrite lookup_insert_ne by done.
        apply moveToEnd_elem in Hx as [->|Hx]; [done|]. by apply Hin.
    + intros x rx. cbn [setStat heap setRequest next RequestCounter].
      rewrite insert_insert_eq. destruct (decide (x = a)) as [->|Hne].
      * rewrite lookup_insert_eq. intros [= <-]. cbn. by apply Hheap.
      * rewrite lookup_insert_ne by done. apply Hheap.
  - intros a protocol g'. unfold UpdateProtocol.
    destruct (heap g !! a) as [r|] eqn:Hr; [|done]. intros [= <-].
    by eapply statOk_setRequest.
  - intros hasLogger hasHook a g'. unfold End.
    destruct (heap g !! a) as [r|] eqn:Hr; [|done]. intros [= <-].
    pose proof (statOk_setRequest g a r (ended r) Hok Hr eq_refl) as (H1 & H2 & H3).
    split; [|split]; done.
Qed.

Lemma threeRequests_cleaned :
  Clean (delta + 100) threeRequests
  = Done tt (setStat (withRequests [1; 2] threeRequestsStat) threeRequests).
Proof. vm_compute. reflexivity. Qed.

Lemma statOk_preserved_witness :
  statOk (setStat (withRequests [1; 2] threeRequestsStat) threeRequests).
Proof.
  destruct (statOk_preserved threeRequests threeRequests_ok) as (_ & Hclean & _).
  exact (Hclean (delta + 100)%Z _ threeRequests_cleaned).
Defined.

(** X28. The books balance: once [Start] has run with no request yet, and
    whatever the operations that follow, the length served equals the sum of
    the lengths of all the requests created, up to the wrap-around of [int];
    the cleaner drops requests from the list without changing the total. *)
Theorem balanced_preserved (g : Globals) :
  statOk g ->
  balanced g ->
  (forall n g', Clean n g = Done tt g' -> balanced g')
  /\ (forall now1 now2 hostport request method protocol code length duration a g',
        CreateRequestStat now1 now2 hostport request method protocol code length
          duration g = Done a g' ->
        balanced g')
  /\ (forall now a code length g',
        UpdateStat now a code length g = Done tt g' -> balanced g')
  /\ (forall a protocol g', UpdateProtocol a protocol g = Done tt g' -> balanced g')
  /\ (forall hasLogger hasHook a g',
        End hasLogger hasHook a g = Done tt g' -> balanced g')
  /\ (forall now hosts, heap g = ∅ -> balanced (Start now hosts g)).
Proof.
  intros (Hlist & Hheap & Hcounter) Hbal.
  assert (Hdiv : forall s, SystemStat g = Some s ->
                   (2 ^ 64 | LengthServed s - totalLength (heap g))%Z).
  { intros s Hs. apply Z.mod_divide; [lia|]. by apply Hbal. }
  split; [|split; [|split; [|split; [|split]]]].
  - intros n g'. unfold Clean. destruct (SystemStat g) as [s|] eqn:Hs; [|done].
    intros [= <-] s' [= <-]. cbn. by apply Hbal.
  - intros now1 now2 hostport request method protocol code length duration a g'.
    unfold CreateRequestStat. cbn [SystemStat].
    destruct (SystemStat g) as [s|] eqn:Hs; [|done].
    intros [= _ <-] s' [= <-].
    cbn [LengthServed withRequests countRequest addLengthServed heap setStat].
    rewrite totalLength_insert_new.
    2:{ destruct (heap g !! next g) as [r0|] eqn:Hnext; [|done].
        destruct (Hheap _ _ Hnext). lia. }
    cbn [Length]. apply Z.mod_divide; [lia|].
    replace (wrapInt (LengthServed s + length) - (totalLength (heap g) + length))%Z
      with ((wrapInt (LengthServed s + length) - (LengthServed s + length))
            + (LengthServed s - totalLength (heap g)))%Z by lia.
    apply Z.divide_add_r; [apply wrapInt_divide | by apply Hdiv].
  - intros now a code length g'. unfold UpdateStat.
    destruct (heap g !! a) as [r|] eqn:Hr; [|done].
    cbn [setRequest SystemStat]. destruct (SystemStat g) as [s|] eqn:Hs; [|done].
    intros [= <-] s' [= <-].
    cbn [LengthServed withRequests addLengthServed heap setStat setRequest].
    rewrite insert_insert_eq, (totalLength_update _ _ r) by done.
    cbn [Length withDuration updated]. apply Z.mod_divide; [lia|].
    replace (wrapInt (LengthServed s + length)
             - (totalLength (heap g) - Length r + wrapInt (Length r + length)))%Z
      with ((wrapInt (LengthServed s + length) - (LengthServed s + length))
            - (wrapInt (Length r + length) - (Length r + length))
            + (LengthServed s - totalLength (heap g)))%Z by lia.
    apply Z.divide_add_r; [|by apply Hdiv].
    apply Z.divide_sub_r; apply wrapInt_divide.
  - intros a protocol g'. unfold UpdateProtocol.
    destruct (heap g !! a) as [r|] eqn:Hr; [|done].
    intros [= <-] s Hs. cbn [heap setRequest].
    rewrite (totalLength_update _ _ r) by done. cbn [Length withProtocol].
    replace (totalLength (heap g) - Length r + Length r)%Z
      with (totalLength (heap g)) by lia.
    by apply Hbal.
  - intros hasLogger hasHook a g'. unfold End.
    destruct (heap g !! a) as [r|] eqn:Hr; [|done].
    intros [= <-] s Hs. cbn [heap].
    rewrite (totalLength_update _ _ r) by done. cbn [Length ended].
    replace (totalLength (heap g) - Length r + Length r)%Z
      with (totalLength (heap g)) by lia.
    by apply Hbal.
  - intros now hosts Hempty s [= <-]. cbn. rewrite Hempty. done.
Qed.

Lemma threeRequests_balanced : balanced threeRequests.
Proof. intros s [= <-]. vm_compute. reflexivity. Qed.

Lemma balanced_preserved_witness :
  exists g', UpdateStat 500 0 404 5 threeRequests = Done tt g' /\ balanced g'.
Proof.
  destruct (balanced_preserved threeRequests threeRequests_ok threeRequests_balanced)
    as (_ & _ & Hupdate & _).
  destruct (UpdateStat 500 0 404 5 threeRequests) as [[] g'|g'] eqn:Hrun.
  - exists g'. split; [done|]. by apply (Hupdate 500%Z 0 404%Z 5%Z).
  - vm_compute in Hrun. discriminate.
Defined.

End StatMore.
